(** * NLI transformer wrappers: label harmonisation, epoch aggregation,
      warm-up configuration and the optimizer-string parser

    A shallow embedding of [src/model/nlitransformer.py] and of
    [get_optimizer], [construct_model_name], [write_results_to_csv] and
    [write_to_csv] from [src/infersent/src/InferSent/mutils.py].

    Conventions of the embedding.
    - Tensors and numpy arrays of rank one are lists; a rank-two tensor is a
      list of rows.  Integer tensors hold [Z], floating tensors hold exact
      rationals [Q]: rounding is not modelled, so every statement about a
      probability or a mean is a statement about the exact value.
    - A Python exception is a value of [exn]; code that may raise returns
      [res A].
    - Names imported from [src.constants] and [src.model.focalloss], and the
      pretrained networks, are not part of the sources at hand; they are
      Section variables. *)

From Stdlib Require Import ZArith QArith Lqa Lia String Ascii List Bool.
From stdpp Require Import base gmap strings list.
Import ListNotations.

Local Open Scope Z_scope.

(** ** Exceptions *)

Inductive exn : Set :=
| IndexError
| KeyError
| ValueError
| AssertionError
| NotImplementedError
| RuntimeError
| Exception.

Inductive res (A : Type) : Type :=
| Ok (a : A)
| Raise (e : exn).

Arguments Ok {A} a.
Arguments Raise {A} e.

#[global] Instance res_ret : MRet res := fun _ a => Ok a.
#[global] Instance res_bind : MBind res := fun _ _ f m =>
  match m with
  | Ok a => f a
  | Raise e => Raise e
  end.

#[global] Instance res_fmap : FMap res := fun _ _ f m =>
  match m with
  | Ok a => Ok (f a)
  | Raise e => Raise e
  end.

Definition is_ok {A} (r : res A) : bool :=
  match r with Ok _ => true | Raise _ => false end.

(** [assert c]: Python's [assert] statement. *)
Definition py_assert (c : bool) : res unit :=
  if c then Ok tt else Raise AssertionError.

(** ** Numeric helpers shared by both models *)

Module Tensor.

(** A boolean tensor used as a factor: [True] is 1 and [False] is 0. *)
Definition b2q (b : bool) : Q := if b then 1%Q else 0%Q.

Definition sum (l : list Q) : Q := fold_right Qplus 0%Q l.

Definition prod (l : list Z) : Z := fold_right Z.mul 1 l.

Definition qprod (l : list Q) : Q := fold_right Qmult 1%Q l.

(** [x.mean()].  The mean of an empty tensor is NaN, written [None]. *)
Definition mean (l : list Q) : option Q :=
  match l with
  | [] => None
  | _ :: _ => Some (sum l / inject_Z (Z.of_nat (length l)))%Q
  end.

(** [a == b] on values that may be NaN: NaN equals nothing. *)
Definition float_eqb (a b : option Q) : bool :=
  match a, b with
  | Some x, Some y => Qeq_bool x y
  | _, _ => false
  end.

(** Elementwise binary operation on two rank-one tensors with the
    broadcasting rule: equal sizes, or one operand of size one. *)
Definition broadcast2 {A B C} (f : A -> B -> C) (xs : list A) (ys : list B)
  : res (list C) :=
  if Nat.eqb (length xs) (length ys) then Ok (zip_with f xs ys)
  else match xs, ys with
       | [x], _ => Ok (map (f x) ys)
       | _, [y] => Ok (map (fun x => f x y) xs)
       | _, _ => Raise RuntimeError
       end.

(** [torch.stack([a, b, c], dim=-1)]: the three tensors must have one
    size. *)
Definition stack3 (a b c : list Q) : res (list (Q * Q * Q)) :=
  if Nat.eqb (length a) (length b) && Nat.eqb (length b) (length c)
  then Ok (zip_with (fun ab z => (ab.1, ab.2, z)) (zip_with pair a b) c)
  else Raise RuntimeError.

(** [row.argmax()]: the index of the first maximal entry. *)
Fixpoint argmax_from (best : Q) (besti : Z) (i : Z) (l : list Q) : Z :=
  match l with
  | [] => besti
  | x :: l' =>
      if Qlt_le_dec best x then argmax_from x i (i + 1) l'
      else argmax_from best besti (i + 1) l'
  end.

Definition argmax (row : list Q) : res Z :=
  match row with
  | [] => Raise IndexError
  | x :: l => Ok (argmax_from x 0 1 l)
  end.

(** [row[i]] as [gather] reads it: no negative indices. *)
Definition gather1 (row : list Q) (i : Z) : res Q :=
  if i <? 0 then Raise RuntimeError
  else match row !! Z.to_nat i with
       | Some x => Ok x
       | None => Raise RuntimeError
       end.

(** [t.gather(-1, index.unsqueeze(-1)).squeeze(-1)] for a rank-two [t]
    and a rank-one [index]: [index] may be shorter than [t], not
    longer. *)
Fixpoint gather (t : list (list Q)) (index : list Z) {struct index}
  : res (list Q) :=
  match index, t with
  | [], _ => Ok []
  | _ :: _, [] => Raise RuntimeError
  | i :: index', row :: t' =>
      x ← gather1 row i;
      xs ← gather t' index';
      Ok (x :: xs)
  end.

(** [mapM] for [res]. *)
Fixpoint traverse {A B} (f : A -> res B) (l : list A) : res (list B) :=
  match l with
  | [] => Ok []
  | a :: l' => b ← f a; bs ← traverse f l'; Ok (b :: bs)
  end.

(** [t[0].item()] *)
Definition first_item (t : list Z) : res Z :=
  match t with
  | [] => Raise IndexError
  | x :: _ => Ok x
  end.

End Tensor.

(** ** The per-batch result dictionary

    Both [_step] methods return a dictionary with the same keys.
    [datapoint_prob] is a rank-two floating tensor for the classifier and
    a rank-one integer tensor for the generative model. *)

Inductive prob_tensor : Type :=
| Prob1 (v : list Z)
| Prob2 (rows : list (list Q)).

Record results : Type := {
  loss : option Q;
  acc : option Q;
  count : Q;
  datapoint_idx : list Z;
  datapoint_dataset : list Z;
  datapoint_label : list Z;
  datapoint_handcrafted_type : list Z;
  datapoint_heuristic : list Z;
  datapoint_loss : list Q;
  datapoint_pred : list Z;
  datapoint_true_pred : list Q;
  datapoint_prob : prob_tensor;
  datapoint_true_prob : list Q
}.

(** [self.hparams], the fields [configure_optimizers] reads.  [None] is
    Python's [None]. *)
Record hparams : Type := {
  optimizer_name : string;
  scheduler_name : string;
  learning_rate : Q;
  weight_decay : Q;
  adam_epsilon : Q;
  warmup_steps : option Z;
  warmup_ratio : option Q
}.

Inductive optimizer_class : Set := AdamW | Adam.
Inductive schedule_kind : Set := Linear | Polynomial.

(** What [configure_optimizers] hands to the trainer: the optimizer with
    its two parameter groups, and the schedule with its step counts. *)
Record optimizer_config : Type := {
  oc_class : optimizer_class;
  oc_decay_group : list string;
  oc_no_decay_group : list string;
  oc_lr : Q;
  oc_weight_decay : Q;
  oc_eps : Q;
  oc_schedule : schedule_kind;
  oc_num_warmup_steps : Q;
  oc_num_training_steps : Z
}.

(** [sub in s] for strings. *)
Fixpoint is_prefix (p s : string) : bool :=
  match p, s with
  | EmptyString, _ => true
  | String a p', String b s' => Ascii.eqb a b && is_prefix p' s'
  | String _ _, EmptyString => false
  end.

Fixpoint is_substring (sub s : string) : bool :=
  is_prefix sub s ||
  match s with
  | EmptyString => false
  | String _ s' => is_substring sub s'
  end.

(** [no_decay = ["bias", "LayerNorm.weight"]] and the test
    [any(nd in n for nd in no_decay)]. *)
Definition no_decay : list string := ["bias"; "LayerNorm.weight"]%string.

Definition in_no_decay (n : string) : bool :=
  existsb (fun nd => is_substring nd n) no_decay.

(** ** The classifier wrapper: [BertForNLI] *)

Module Bert.

Record batch : Type := {
  input_ids : list (list Z);
  attention_mask : list (list Z);
  token_type_ids : list (list Z);
  labels : list Z;
  dataset : list Z;
  idx : list Z;
  handcrafted_type : list Z;
  heuristic : option (list Z)
}.

(** The additive constant of [prob_contradiction_fix_nan]. *)
Definition eps : Q := 1 # 1000000000.

Section Step.

(** The logits of [self.forward] on the batch: one row of three logits per
    example ([num_labels=3]). *)
Variable forward_logits : batch -> list (Q * Q * Q).
(** [row.softmax(-1)] and [x.log()]. *)
Variable softmax : Q * Q * Q -> Q * Q * Q.
Variable ln : Q -> Q.
(** [self.loss_criterion], the focal loss of [src.model.focalloss]. *)
Variable loss_criterion : list (list Q) -> list (list Q) -> list Q.
(** [DATASET_TO_INTEGER["hans_train"]] and
    [DATASET_TO_INTEGER["hans_validation"]]. *)
Variable hans_train : Z.
Variable hans_validation : Z.

(** [F.one_hot(labels, num_classes=3).float()] *)
Definition one_hot3 (l : Z) : res (list Q) :=
  if (l <? 0) || (3 <=? l) then Raise RuntimeError
  else Ok (map (fun c => Tensor.b2q (Z.eqb l c)) [0; 1; 2]).

Definition col0 (p : Q * Q * Q) : Q := p.1.1.
Definition col1 (p : Q * Q * Q) : Q := p.1.2.
Definition col2 (p : Q * Q * Q) : Q := p.2.

(** The first remapping: from [prob_raw] and [batch["dataset"]] to the
    stacked [prob]. *)
Definition remap_hans_train (ds : list Z) (prob_raw : list (Q * Q * Q))
  : res (list (Q * Q * Q)) :=
  let prob_entailment := map col0 prob_raw in
  t ← Tensor.broadcast2 (fun d p => Tensor.b2q (Z.eqb d hans_train) * p)%Q
         ds (map col2 prob_raw);
  prob_neutral ← Tensor.broadcast2 Qplus (map col1 prob_raw) t;
  prob_contradiction_raw ←
    Tensor.broadcast2 (fun d p => Tensor.b2q (negb (Z.eqb d hans_train)) * p)%Q
      ds (map col2 prob_raw);
  let prob_contradiction_fix_nan :=
    map (fun d => Tensor.b2q (Z.eqb d hans_train) * eps)%Q ds in
  prob_contradiction ←
    Tensor.broadcast2 Qplus prob_contradiction_raw prob_contradiction_fix_nan;
  Tensor.stack3 prob_entailment prob_neutral prob_contradiction.

(** [prob[:, 1] += prob[:, 2]] *)
Definition iadd_col1_col2 (p : Q * Q * Q) : Q * Q * Q :=
  (col0 p, (col1 p + col2 p)%Q, col2 p).

Definition row3 (p : Q * Q * Q) : list Q := [col0 p; col1 p; col2 p].

(** The second remapping, decided by the data set of the first example:
    [prob[:, 1] += prob[:, 2]; prob = prob[:, :2]]. *)
Definition remap_hans_validation (dataset0 : Z) (prob : list (Q * Q * Q))
  : list (list Q) :=
  if Z.eqb dataset0 hans_validation
  then map (fun p => take 2 (row3 (iadd_col1_col2 p))) prob
  else map row3 prob.

Definition _step (b : batch) : res results :=
  let logits_out := forward_logits b in
  onehot_labels ← Tensor.traverse one_hot3 (labels b);
  let prob_raw := map softmax logits_out in
  prob3 ← remap_hans_train (dataset b) prob_raw;
  let logits := map (fun p => map ln (row3 p)) prob3 in
  let loss := loss_criterion logits onehot_labels in
  dataset0 ← Tensor.first_item (dataset b);
  let prob := remap_hans_validation dataset0 prob3 in
  true_prob ← Tensor.gather prob (labels b);
  pred ← Tensor.traverse Tensor.argmax prob;
  true_pred_b ← Tensor.broadcast2 Z.eqb pred (labels b);
  let true_pred := map Tensor.b2q true_pred_b in
  let heuristic :=
    match heuristic b with
    | Some h => h
    | None => map (fun _ => -1) true_pred
    end in
  Ok {| loss := Tensor.mean loss;
        acc := Tensor.mean true_pred;
        count := inject_Z (Z.of_nat (length pred));
        datapoint_idx := idx b;
        datapoint_dataset := dataset b;
        datapoint_label := labels b;
        datapoint_handcrafted_type := handcrafted_type b;
        datapoint_heuristic := heuristic;
        datapoint_loss := loss;
        datapoint_pred := pred;
        datapoint_true_pred := true_pred;
        datapoint_prob := Prob2 prob;
        datapoint_true_prob := true_prob |}.

End Step.

(** [configure_optimizers].  [named_parameters] are the names of
    [model.named_parameters()], [train_steps] is
    [self.trainer.estimated_stepping_batches].  The result is what the
    method hands to the constructors of the optimizer and of the
    schedule; that these constructors may reject a hyper-parameter (a
    negative learning rate, say) is not modelled, so [Ok] means that the
    checks of the method itself are passed. *)
Definition configure_optimizers (hp : hparams) (named_parameters : list string)
    (train_steps : Z) : res optimizer_config :=
  let decay := filter (fun n => negb (in_no_decay n) = true) named_parameters in
  let nodecay := filter (fun n => in_no_decay n = true) named_parameters in
  optimizer ←
    (if String.eqb (optimizer_name hp) "adamw" then Ok AdamW
     else if String.eqb (optimizer_name hp) "adam" then Ok Adam
     else Raise ValueError);
  _ ← (match warmup_ratio hp, warmup_steps hp with
       | Some _, Some _ => Raise ValueError
       | _, _ => Ok tt
       end);
  warmup ←
    (match warmup_steps hp with
     | Some ws => Ok (inject_Z ws)
     | None =>
         match warmup_ratio hp with
         | Some wr => Ok (inject_Z train_steps * wr)%Q
         | None => Raise ValueError
         end
     end);
  scheduler ←
    (if String.eqb (scheduler_name hp) "linear" then Ok Linear
     else if String.eqb (scheduler_name hp) "polynomial" then Ok Polynomial
     else Raise ValueError);
  Ok {| oc_class := optimizer;
        oc_decay_group := decay;
        oc_no_decay_group := nodecay;
        oc_lr := learning_rate hp;
        oc_weight_decay := weight_decay hp;
        oc_eps := adam_epsilon hp;
        oc_schedule := scheduler;
        oc_num_warmup_steps := warmup;
        oc_num_training_steps := train_steps |}.

End Bert.

(** ** The generative wrapper: [T5ForNLI] *)

Module T5.

Record batch : Type := {
  input_ids : list (list Z);
  attention_mask : list (list Z);
  target_input_ids : list (list Z);
  target_attention_mask : list (list Z);
  labels : list Z;
  dataset : list Z;
  idx : list Z;
  handcrafted_type : list Z;
  heuristic : option (list Z)
}.

(** [torch.full((n,), v)] *)
Definition full {A} (n : nat) (v : A) : list A := replicate n v.

(** [t.resize(rows, cols)]: the element count must not change. *)
Fixpoint chunks (rows cols : nat) (l : list Q) : list (list Q) :=
  match rows with
  | O => []
  | S r => take cols l :: chunks r cols (drop cols l)
  end.

Definition resize (l : list Q) (rows cols : nat) : res (list (list Q)) :=
  if Nat.eqb (length l) (rows * cols) then Ok (chunks rows cols l)
  else Raise RuntimeError.

(** [row.mean(-1)] on a row of [T5_LABEL_PAD_LENGTH] entries. *)
Definition row_mean (l : list Q) : Q :=
  (Tensor.sum l / inject_Z (Z.of_nat (length l)))%Q.

(** [a == b] on two rank-two integer tensors. *)
Definition eq2 (a b : list (list Z)) : res (list (list bool)) :=
  rows ← Tensor.broadcast2 (Tensor.broadcast2 Z.eqb) a b;
  Tensor.traverse (fun r => r) rows.

(** [t.gather(-1, index.unsqueeze(-1)).squeeze(-1)] for a rank-three
    [t] and a rank-two [index]. *)
Fixpoint gather3 (t : list (list (list Q))) (index : list (list Z))
  {struct index} : res (list (list Q)) :=
  match index, t with
  | [], _ => Ok []
  | _ :: _, [] => Raise RuntimeError
  | ix :: index', m :: t' =>
      r ← Tensor.gather m ix;
      rs ← gather3 t' index';
      Ok (r :: rs)
  end.

Section Step.

(** The logits of [self.forward] on the batch, of shape
    (batch, target length, vocabulary). *)
Variable forward_logits : batch -> list (list (list Q)).
Variable softmax : list Q -> list Q.
(** [self.loss_criterion] on flattened logits and targets: one loss
    per target position. *)
Variable loss_criterion : list (list Q) -> list Z -> list Q.
(** [T5_LABEL_PAD_LENGTH], a positive constant (the three label
    tensors at the head of the file have five entries). *)
Variable T5_LABEL_PAD_LENGTH : positive.
Variable HANS_DATASET_INTEGER_IDENTIFIERS : list Z.

Definition _step (b : batch) : res results :=
  let logits := forward_logits b in
  let batch_size := length (target_input_ids b) in
  let loss := loss_criterion (concat logits) (concat (target_input_ids b)) in
  loss ← resize loss batch_size (Pos.to_nat T5_LABEL_PAD_LENGTH);
  let loss := map row_mean loss in
  let pred := full batch_size (-1) in
  let prob := full batch_size (full 3 (-1)) in
  pred_tmp ← Tensor.traverse (Tensor.traverse Tensor.argmax) logits;
  eq ← eq2 pred_tmp (target_input_ids b);
  let true_pred := map (fun r => Tensor.b2q (forallb (fun x => x) r)) eq in
  let prob_tmp := map (map softmax) logits in
  g ← gather3 prob_tmp (target_input_ids b);
  let true_prob := map Tensor.qprod g in
  let prob := map Tensor.prod prob in
  dataset0 ← Tensor.first_item (dataset b);
  _ ← (if existsb (Z.eqb dataset0) HANS_DATASET_INTEGER_IDENTIFIERS
       then Raise NotImplementedError else Ok tt);
  let heuristic :=
    match heuristic b with
    | Some h => h
    | None => map (fun _ => -1) true_pred
    end in
  Ok {| loss := Tensor.mean loss;
        acc := Tensor.mean true_pred;
        count := inject_Z (Z.of_nat (length pred));
        datapoint_idx := idx b;
        datapoint_dataset := dataset b;
        datapoint_label := labels b;
        datapoint_handcrafted_type := handcrafted_type b;
        datapoint_heuristic := heuristic;
        datapoint_loss := loss;
        datapoint_pred := pred;
        datapoint_true_pred := true_pred;
        datapoint_prob := Prob1 prob;
        datapoint_true_prob := true_prob |}.

End Step.

(** Python's truth value of an optional integer and of an optional
    float: [None] and zero are false. *)
Definition truthy_int (x : option Z) : bool :=
  match x with
  | Some v => negb (Z.eqb v 0)
  | None => false
  end.

Definition truthy_float (x : option Q) : bool :=
  match x with
  | Some v => negb (Qeq_bool v 0)
  | None => false
  end.

(** [configure_optimizers], with the tests [if self.hparams.warmup_steps:]
    and [elif self.hparams.warmup_ratio:] on the truth value.  A test that
    holds excludes [None], so the [None] branch under it is never taken. *)
Definition configure_optimizers (hp : hparams) (named_parameters : list string)
    (train_steps : Z) : res optimizer_config :=
  let decay := filter (fun n => negb (in_no_decay n) = true) named_parameters in
  let nodecay := filter (fun n => in_no_decay n = true) named_parameters in
  optimizer ←
    (if String.eqb (optimizer_name hp) "adamw" then Ok AdamW
     else if String.eqb (optimizer_name hp) "adam" then Ok Adam
     else Raise ValueError);
  _ ← (match warmup_ratio hp, warmup_steps hp with
       | Some _, Some _ => Raise ValueError
       | _, _ => Ok tt
       end);
  let from_ratio :=
    if truthy_float (warmup_ratio hp) then
      match warmup_ratio hp with
      | Some wr => Ok (inject_Z train_steps * wr)%Q
      | None => Raise ValueError
      end
    else Raise ValueError in
  warmup ←
    (if truthy_int (warmup_steps hp) then
       match warmup_steps hp with
       | Some ws => Ok (inject_Z ws)
       | None => from_ratio
       end
     else from_ratio);
  scheduler ←
    (if String.eqb (scheduler_name hp) "linear" then Ok Linear
     else if String.eqb (scheduler_name hp) "polynomial" then Ok Polynomial
     else Raise ValueError);
  Ok {| oc_class := optimizer;
        oc_decay_group := decay;
        oc_no_decay_group := nodecay;
        oc_lr := learning_rate hp;
        oc_weight_decay := weight_decay hp;
        oc_eps := adam_epsilon hp;
        oc_schedule := scheduler;
        oc_num_warmup_steps := warmup;
        oc_num_training_steps := train_steps |}.

End T5.

(** ** Epoch-end aggregation: [HuggingFaceTransformerForNLI]

    [self.log] is an effect: the metrics logged so far are a state that
    survives an exception. *)

Definition metric_log : Type := list (string * option Q).

Definition M (A : Type) : Type := metric_log -> res A * metric_log.

Definition retM {A} (a : A) : M A := fun st => (Ok a, st).

Definition bindM {A B} (m : M A) (k : A -> M B) : M B := fun st =>
  match m st with
  | (Ok a, st') => k a st'
  | (Raise e, st') => (Raise e, st')
  end.

Definition lift {A} (r : res A) : M A := fun st => (r, st).

(** [self.log(name, value, ...)] *)
Definition log_metric (name : string) (value : option Q) : M unit :=
  fun st => (Ok tt, st ++ [(name, value)]).

Notation "x <~ m ;; k" := (bindM m (fun x => k))
  (at level 100, m at next level, right associativity).

(** [for a in l: body(a)] *)
Fixpoint for_each {A} (l : list A) (body : A -> M unit) : M unit :=
  match l with
  | [] => retM tt
  | a :: l' => _ <~ body a ;; for_each l' body
  end.

Module Numpy.

(** [a == b] on two rank-one arrays. *)
Definition eq (a b : list Z) : res (list bool) :=
  if Nat.eqb (length a) (length b) then Ok (zip_with Z.eqb a b)
  else match a, b with
       | [x], _ => Ok (map (Z.eqb x) b)
       | _, [y] => Ok (map (fun x => Z.eqb x y) a)
       | _, _ => Raise ValueError
       end.

(** [a & b] on two rank-one boolean arrays. *)
Definition and (a b : list bool) : res (list bool) :=
  if Nat.eqb (length a) (length b) then Ok (zip_with andb a b)
  else match a, b with
       | [x], _ => Ok (map (andb x) b)
       | _, [y] => Ok (map (fun x => andb x y) a)
       | _, _ => Raise ValueError
       end.

(** [mask.sum()] *)
Definition count (mask : list bool) : nat :=
  length (filter (fun b => b = true) mask).

Fixpoint select {A} (a : list A) (mask : list bool) : list A :=
  match a, mask with
  | x :: a', m :: mask' => if m then x :: select a' mask' else select a' mask'
  | _, _ => []
  end.

(** [a[mask]] with a boolean array [mask] of the size of [a]. *)
Definition getmask {A} (a : list A) (mask : list bool) : res (list A) :=
  if Nat.eqb (length a) (length mask) then Ok (select a mask)
  else Raise IndexError.

End Numpy.

(** A tuple of one element, as [x = e,] builds it. *)
Inductive tuple1 (A : Type) : Type := Tuple1 (a : A).
Arguments Tuple1 {A} a.

(** [t == v] for a tuple [t] and an integer [v]: no tuple equals an
    integer. *)
Definition tuple1_eq_int {A} (t : tuple1 A) (v : Z) : bool := false.

(** [t[b]] for a tuple of one element and a Python [bool], which is the
    integer 0 or 1. *)
Definition tuple1_getitem {A} (t : tuple1 A) (b : bool) : res A :=
  match t with
  | Tuple1 a => if b then Raise IndexError else Ok a
  end.

Definition lower_ascii (c : ascii) : ascii :=
  let n := N_of_ascii c in
  if (65 <=? n)%N && (n <=? 90)%N then ascii_of_N (n + 32) else c.

(** [s.lower()] *)
Fixpoint lower (s : string) : string :=
  match s with
  | EmptyString => EmptyString
  | String c s' => String (lower_ascii c) (lower s')
  end.

Module Epoch.

(** [torch.cat] of the [datapoint_prob] tensors of the batches: the
    tensors have one rank and, at rank two, one number of columns. *)
Definition cat_prob1 (ps : list prob_tensor) : res (list Z) :=
  (fun x => concat x) <$> Tensor.traverse
    (fun p => match p with Prob1 v => Ok v | Prob2 _ => Raise RuntimeError end) ps.

Definition same_width (rows : list (list Q)) : bool :=
  match rows with
  | [] => true
  | r :: _ => forallb (fun r' => Nat.eqb (length r') (length r)) rows
  end.

Definition cat_prob2 (ps : list prob_tensor) : res (list (list Q)) :=
  rows ← (fun x => concat x) <$> Tensor.traverse
    (fun p => match p with Prob2 r => Ok r | Prob1 _ => Raise RuntimeError end) ps;
  if same_width rows then Ok rows else Raise RuntimeError.

Definition cat_prob (ps : list prob_tensor) : res prob_tensor :=
  match ps with
  | [] => Raise RuntimeError
  | Prob1 _ :: _ => Prob1 <$> cat_prob1 ps
  | Prob2 _ :: _ => Prob2 <$> cat_prob2 ps
  end.

(** The concatenated per-example arrays. *)
Record table : Type := {
  t_idx : list Z;
  t_dataset : list Z;
  t_label : list Z;
  t_handcrafted_type : list Z;
  t_heuristic : list Z;
  t_loss : list Q;
  t_pred : list Z;
  t_true_pred : list Q;
  t_prob : prob_tensor;
  t_true_prob : list Q
}.

Definition cat (f : results -> list Z) (results_list : list results) : list Z :=
  concat (map f results_list).

Definition catq (f : results -> list Q) (results_list : list results) : list Q :=
  concat (map f results_list).

Definition parse_results (results_list : list results) : res table :=
  prob ← cat_prob (map datapoint_prob results_list);
  Ok {| t_idx := cat datapoint_idx results_list;
        t_dataset := cat datapoint_dataset results_list;
        t_label := cat datapoint_label results_list;
        t_handcrafted_type := cat datapoint_handcrafted_type results_list;
        t_heuristic := cat datapoint_heuristic results_list;
        t_loss := catq datapoint_loss results_list;
        t_pred := cat datapoint_pred results_list;
        t_true_pred := catq datapoint_true_pred results_list;
        t_prob := prob;
        t_true_prob := catq datapoint_true_prob results_list |}.

(** The cross-check of line 131:
    [acc == (results["datapoint_pred"] == results["datapoint_label"]).mean()]. *)
Definition acc_cross_check (t : table) : res bool :=
  let acc := Tensor.mean (t_true_pred t) in
  e ← Numpy.eq (t_pred t) (t_label t);
  Ok (Tensor.float_eqb acc (Tensor.mean (map Tensor.b2q e))).

Section Constants.

(** The tables of [src.constants]. *)
Variable INTEGER_TO_DATASET : gmap Z string.
Variable INTEGER_TO_HEURISTIC : gmap Z string.
(** [HEURISTIC_TO_INTEGER.items()], in the order of the dictionary. *)
Variable HEURISTIC_TO_INTEGER : list (string * Z).
(** The members of the enumeration [HandcraftedType], name and value,
    in the order of definition. *)
Variable HandcraftedType : list (string * Z).
Variable MNLI_DATASET_INTEGER_IDENTIFIERS : list Z.
Variable SNLI_DATASET_INTEGER_IDENTIFIERS : list Z.
Variable HANS_DATASET_INTEGER_IDENTIFIERS : list Z.

Definition dict_get {V} (d : gmap Z V) (k : Z) : res V :=
  match d !! k with
  | Some v => Ok v
  | None => Raise KeyError
  end.

(** [HandcraftedType(t)] *)
Definition HandcraftedType_of (t : Z) : res (string * Z) :=
  match find (fun m => Z.eqb (snd m) t) HandcraftedType with
  | Some m => Ok m
  | None => Raise ValueError
  end.

Definition _log_mnli_epoch_end (prefix dataset_str : string) (t : table)
  : M unit :=
  let handcrafted_types := Tuple1 (t_handcrafted_type t) in
  let losses := Tuple1 (t_loss t) in
  let true_preds := Tuple1 (t_true_pred t) in
  for_each HandcraftedType (fun handcrafted_type =>
    let mask := tuple1_eq_int handcrafted_types (snd handcrafted_type) in
    l <~ lift (tuple1_getitem losses mask) ;;
    let loss_per_type := Tensor.mean l in
    a <~ lift (tuple1_getitem true_preds mask) ;;
    let acc_per_type := Tensor.mean a in
    _ <~ log_metric (prefix +:+ "/HandcraftedType/" +:+ dataset_str +:+ "_"
                      +:+ lower (fst handcrafted_type) +:+ "_loss")
                    loss_per_type ;;
    log_metric (prefix +:+ "/HandcraftedType/" +:+ dataset_str +:+ "_"
                  +:+ lower (fst handcrafted_type) +:+ "_accuracy")
               acc_per_type).

Definition hans_loss_key (prefix label_description heuristic_name : string)
  : string :=
  prefix +:+ "/Hans_loss/" +:+ label_description +:+ "__" +:+ heuristic_name.

Definition hans_acc_key (prefix label_description heuristic_name : string)
  : string :=
  prefix +:+ "/Hans_acc/" +:+ label_description +:+ "__" +:+ heuristic_name.

(** [enumerate(["entailment", "non_entailment"])] *)
Definition hans_labels : list (Z * string) :=
  [(0, "entailment"%string); (1, "non_entailment"%string)].

Definition _log_hans_epoch_end (prefix dataset_str : string) (t : table)
  : M unit :=
  let heuristics := t_heuristic t in
  let labels := t_label t in
  let losses := t_loss t in
  let preds := t_pred t in
  for_each hans_labels (fun tl =>
    let target_label := fst tl in
    let label_description := snd tl in
    for_each HEURISTIC_TO_INTEGER (fun h =>
      let heuristic_name := fst h in
      let heuristic_idx := snd h in
      mask <~ lift (Numpy.and (map (fun x => Z.eqb x heuristic_idx) heuristics)
                              (map (fun x => Z.eqb x target_label) labels)) ;;
      if Nat.eqb (Numpy.count mask) 0 then retM tt
      else
        lm <~ lift (Numpy.getmask losses mask) ;;
        let loss := Tensor.mean lm in
        pm <~ lift (Numpy.getmask preds mask) ;;
        lbm <~ lift (Numpy.getmask labels mask) ;;
        e <~ lift (Numpy.eq pm lbm) ;;
        let acc := Tensor.mean (map Tensor.b2q e) in
        _ <~ log_metric (hans_loss_key prefix label_description heuristic_name) loss ;;
        log_metric (hans_acc_key prefix label_description heuristic_name) acc)).

(** [pd.DataFrame(results)]: all columns have one length. *)
Definition dataframe_check (t : table) (n : nat) : res unit :=
  let prob_len := match t_prob t with Prob1 v => length v | Prob2 r => length r end in
  if forallb (Nat.eqb n)
       [length (t_dataset t); length (t_label t); length (t_handcrafted_type t);
        length (t_heuristic t); length (t_loss t); length (t_pred t);
        length (t_true_pred t); prob_len; length (t_true_prob t)]
  then Ok tt else Raise ValueError.

(** [_epoch_end].  The export of the table to a CSV file and to the
    experiment tracker is not modelled beyond the construction of the
    data frame. *)
Definition _epoch_end (split : string) (results_list : list results) : M unit :=
  first <~ lift (match results_list with
                 | [] => Raise IndexError
                 | r :: _ => Ok r
                 end) ;;
  dataset <~ lift (Tensor.first_item (datapoint_dataset first)) ;;
  dataset_str <~ lift (dict_get INTEGER_TO_DATASET dataset) ;;
  t <~ lift (parse_results results_list) ;;
  let n := length (t_idx t) in
  _ <~ lift (py_assert (Nat.eqb n (length (t_loss t))
                        && Nat.eqb (length (t_loss t)) (length (t_true_pred t)))) ;;
  _ <~ lift (Tensor.traverse (dict_get INTEGER_TO_HEURISTIC) (t_heuristic t)) ;;
  _ <~ lift (Tensor.traverse HandcraftedType_of (t_handcrafted_type t)) ;;
  let loss := Tensor.mean (t_loss t) in
  let acc := Tensor.mean (t_true_pred t) in
  ok <~ lift (acc_cross_check t) ;;
  _ <~ lift (py_assert ok) ;;
  _ <~ log_metric (split +:+ "/" +:+ dataset_str +:+ "/loss_epoch") loss ;;
  _ <~ log_metric (split +:+ "/" +:+ dataset_str +:+ "/acc_epoch") acc ;;
  _ <~ log_metric (split +:+ "/" +:+ dataset_str +:+ "/datapoint_count_epoch")
                  (Some (inject_Z (Z.of_nat n))) ;;
  _ <~ (if existsb (Z.eqb dataset)
             (MNLI_DATASET_INTEGER_IDENTIFIERS ++ SNLI_DATASET_INTEGER_IDENTIFIERS)
        then _log_mnli_epoch_end split dataset_str t else retM tt) ;;
  _ <~ (if existsb (Z.eqb dataset) HANS_DATASET_INTEGER_IDENTIFIERS
        then _log_hans_epoch_end split dataset_str t else retM tt) ;;
  lift (dataframe_check t n).

End Constants.

End Epoch.

(** ** The optimizer-string parser: [get_optimizer] of [mutils.py]

    A string of this module is the UTF-8 bytes of the Python text.
    Cutting at commas and equals signs and comparing names give the same
    on the bytes as on the characters.  The pattern and [float] look at
    characters: the bytes are decoded to code points for them, and the
    digit class of the pattern holds the decimal digits of every
    script. *)

Module Mutils.

(** *** Characters

    The pattern and [float] work on the characters of a string, which
    are Unicode code points; the bytes of a string are decoded for
    them. *)

(** The payload of a continuation byte [10xxxxxx]. *)
Definition continuation (c : ascii) : option N :=
  let n := N_of_ascii c in
  if (128 <=? n)%N && (n <? 192)%N then Some (n - 128)%N else None.

(** The code points of a UTF-8 text. *)
Fixpoint utf8_decode (s : string) : option (list N) :=
  match s with
  | EmptyString => Some []
  | String c s1 =>
      let n := N_of_ascii c in
      if (n <? 128)%N then cons n <$> utf8_decode s1
      else if (n <? 192)%N then None
      else if (n <? 224)%N then
        match s1 with
        | String c1 s2 =>
            x1 ← continuation c1;
            cons ((n - 192) * 64 + x1)%N <$> utf8_decode s2
        | _ => None
        end
      else if (n <? 240)%N then
        match s1 with
        | String c1 (String c2 s3) =>
            x1 ← continuation c1;
            x2 ← continuation c2;
            cons (((n - 224) * 64 + x1) * 64 + x2)%N <$> utf8_decode s3
        | _ => None
        end
      else if (n <? 248)%N then
        match s1 with
        | String c1 (String c2 (String c3 s4)) =>
            x1 ← continuation c1;
            x2 ← continuation c2;
            x3 ← continuation c3;
            cons ((((n - 240) * 64 + x1) * 64 + x2) * 64 + x3)%N
              <$> utf8_decode s4
        | _ => None
        end
      else None
  end.

(** The characters that stand for the digit zero in the scripts of
    Unicode 14.0.0, the database of CPython 3.11; each is followed by the
    digits one to nine of its script.  Together they are the 660
    characters of category [Nd]. *)
Definition digit_zeros : list N :=
  [48; 1632; 1776; 1984; 2406; 2534; 2662; 2790; 2918; 3046; 3174; 3302;
   3430; 3558; 3664; 3792; 3872; 4160; 4240; 6112; 6160; 6470; 6608; 6784;
   6800; 6992; 7088; 7232; 7248; 42528; 43216; 43264; 43472; 43504; 43600;
   44016; 65296; 66720; 68912; 69734; 69872; 69942; 70096; 70384; 70736;
   70864; 71248; 71360; 71472; 71904; 72016; 72784; 73040; 73120; 92768;
   92864; 93008; 120782; 120792; 120802; 120812; 120822; 123200; 123632;
   125264; 130032]%N.

(** [Py_UNICODE_TODECIMAL]: the value of a decimal digit of any script. *)
Definition to_decimal (c : N) : option N :=
  (fun z => c - z)%N
    <$> List.find (fun z => (z <=? c)%N && (c <? z + 10)%N) digit_zeros.

(** [Py_UNICODE_ISSPACE] *)
Definition unicode_spaces : list N :=
  [9; 10; 11; 12; 13; 28; 29; 30; 31; 32; 133; 160; 5760; 8192; 8193; 8194;
   8195; 8196; 8197; 8198; 8199; 8200; 8201; 8202; 8232; 8233; 8239; 8287;
   12288]%N.

Definition is_unicode_space (c : N) : bool :=
  existsb (N.eqb c) unicode_spaces.

(** *** Regular expressions, matched by derivatives *)

Inductive regex : Type :=
| Void
| Eps
| Chr (p : N -> bool)
| Seq (r1 r2 : regex)
| Alt (r1 r2 : regex)
| Star (r : regex).

Definition Opt (r : regex) : regex := Alt r Eps.
Definition Plus (r : regex) : regex := Seq r (Star r).

Fixpoint nullable (r : regex) : bool :=
  match r with
  | Void => false
  | Eps => true
  | Chr _ => false
  | Seq r1 r2 => nullable r1 && nullable r2
  | Alt r1 r2 => nullable r1 || nullable r2
  | Star _ => true
  end.

Fixpoint deriv (c : N) (r : regex) : regex :=
  match r with
  | Void => Void
  | Eps => Void
  | Chr p => if p c then Eps else Void
  | Seq r1 r2 =>
      if nullable r1 then Alt (Seq (deriv c r1) r2) (deriv c r2)
      else Seq (deriv c r1) r2
  | Alt r1 r2 => Alt (deriv c r1) (deriv c r2)
  | Star r1 => Seq (deriv c r1) (Star r1)
  end.

(** The whole of [s] is in the language of [r]. *)
Fixpoint fullmatch (r : regex) (s : list N) : bool :=
  match s with
  | [] => nullable r
  | c :: s' => fullmatch (deriv c r) s'
  end.

(** The class of decimal digits of a pattern on text: the decimal digits
    of every script. *)
Definition is_digit (c : N) : bool :=
  match to_decimal c with
  | Some _ => true
  | None => false
  end.

(** The plus and the minus sign. *)
Definition is_sign (c : N) : bool := (c =? 43)%N || (c =? 45)%N.

(** The full stop. *)
Definition is_dot (c : N) : bool := (c =? 46)%N.

(** The body of the pattern, between the anchors: an optional sign,
    then either one or more digits with an optional fraction (a dot and
    any number of digits), or a dot and one or more digits. *)
Definition numeric_literal : regex :=
  Seq (Opt (Chr is_sign))
      (Alt (Seq (Plus (Chr is_digit))
                (Opt (Seq (Chr is_dot) (Star (Chr is_digit)))))
           (Seq (Chr is_dot) (Plus (Chr is_digit)))).

Definition newline : ascii := ascii_of_N 10.

(** [s] without a final line feed, when it has one. *)
Fixpoint chomp (s : list N) : option (list N) :=
  match s with
  | [] => None
  | c :: s' =>
      match s' with
      | [] => if (c =? 10)%N then Some [] else None
      | _ :: _ => cons c <$> chomp s'
      end
  end.

(** [re.match("^" r "$", s) is not None]: [$] matches at the end of the
    string and also just before a line feed that ends the string. *)
Definition re_match_anchored (r : regex) (s : string) : bool :=
  match utf8_decode s with
  | Some cps =>
      fullmatch r cps ||
      match chomp cps with
      | Some cps' => fullmatch r cps'
      | None => false
      end
  | None => false
  end.

(** *** [float] on decimal literals

    [float] first turns the text into ASCII: a character below 127 stays,
    any other space becomes a blank, a decimal digit of any script becomes
    the ASCII digit of its value, and the first character that is none of
    these becomes a question mark that ends the text.  It then strips
    ASCII white space and reads the number.

    Python's [float] reads more than decimal literals (exponents, [inf],
    [nan], underscores); those forms raise [ValueError] here.  None of
    them passes the pattern above, which guards the one call of
    [float]. *)

Definition to_ascii_char (c : N) : option ascii :=
  if (c <? 127)%N then Some (ascii_of_N c)
  else if is_unicode_space c then Some " "%char
  else (fun d => ascii_of_N (48 + d)) <$> to_decimal c.

Fixpoint to_ascii (cps : list N) : string :=
  match cps with
  | [] => EmptyString
  | c :: cps' =>
      match to_ascii_char c with
      | Some a => String a (to_ascii cps')
      | None => String "?" EmptyString
      end
  end.

(** [Py_ISSPACE] *)
Definition is_space (c : ascii) : bool :=
  let n := N_of_ascii c in
  (n =? 32)%N || ((9 <=? n)%N && (n <=? 13)%N).

Fixpoint lstrip (s : string) : string :=
  match s with
  | String c s' => if is_space c then lstrip s' else s
  | EmptyString => EmptyString
  end.

Fixpoint rstrip (s : string) : string :=
  match s with
  | EmptyString => EmptyString
  | String c s' =>
      match rstrip s' with
      | EmptyString => if is_space c then EmptyString else String c EmptyString
      | t => String c t
      end
  end.

Definition strip (s : string) : string := rstrip (lstrip s).

Definition ascii_digit (c : ascii) : bool :=
  let n := N_of_ascii c in (48 <=? n)%N && (n <=? 57)%N.

Definition ascii_sign (c : ascii) : bool :=
  Ascii.eqb c "+" || Ascii.eqb c "-".

Definition ascii_dot (c : ascii) : bool := Ascii.eqb c ".".

(** The leading digits of [s], with their value and count, and the rest
    of [s]. *)
Fixpoint digits (acc : N) (n : nat) (s : string) : N * nat * string :=
  match s with
  | String c s' =>
      if ascii_digit c then digits (10 * acc + (N_of_ascii c - 48))%N (S n) s'
      else (acc, n, s)
  | EmptyString => (acc, n, s)
  end.

Definition unsigned_decimal (s : string) : option Q :=
  let '(i, ni, rest) := digits 0 0 s in
  match rest with
  | EmptyString =>
      if Nat.eqb ni 0 then None else Some (inject_Z (Z.of_N i))
  | String c rest' =>
      if ascii_dot c then
        let '(f, nf, rest'') := digits i 0 rest' in
        match rest'' with
        | EmptyString =>
            if Nat.eqb ni 0 && Nat.eqb nf 0 then None
            else Some (Qred (Z.of_N f # Z.to_pos (10 ^ Z.of_nat nf)))
        | String _ _ => None
        end
      else None
  end.

Definition decimal (s : string) : option Q :=
  match s with
  | String c s' =>
      if Ascii.eqb c "-" then Qopp <$> unsigned_decimal s'
      else if Ascii.eqb c "+" then unsigned_decimal s'
      else unsigned_decimal s
  | EmptyString => None
  end.

Definition py_float (s : string) : res Q :=
  match utf8_decode s with
  | Some cps =>
      match decimal (strip (to_ascii cps)) with
      | Some q => Ok q
      | None => Raise ValueError
      end
  | None => Raise ValueError
  end.

(** *** String slicing *)

(** [sep in s] *)
Fixpoint contains (sep : ascii) (s : string) : bool :=
  match s with
  | EmptyString => false
  | String c s' => Ascii.eqb c sep || contains sep s'
  end.

(** [s.find(sep)] when [sep in s]; the length of [s] otherwise. *)
Fixpoint find (sep : ascii) (s : string) : nat :=
  match s with
  | EmptyString => O
  | String c s' => if Ascii.eqb c sep then O else S (find sep s')
  end.

(** [s[:n]] and [s[n:]] *)
Fixpoint take_str (n : nat) (s : string) : string :=
  match n, s with
  | S n', String c s' => String c (take_str n' s')
  | _, _ => EmptyString
  end.

Fixpoint drop_str (n : nat) (s : string) : string :=
  match n, s with
  | S n', String _ s' => drop_str n' s'
  | _, _ => s
  end.

(** [s.split(sep)] *)
Fixpoint split (sep : ascii) (s : string) : list string :=
  match s with
  | EmptyString => [EmptyString]
  | String c s' =>
      if Ascii.eqb c sep then EmptyString :: split sep s'
      else match split sep s' with
           | h :: t => String c h :: t
           | [] => [String c EmptyString]
           end
  end.

(** *** The parser *)

Inductive optim : Set :=
| Adadelta | Adagrad | Adam | Adamax | ASGD | RMSprop | Rprop | SGD.

(** One turn of the loop over the items after the method name. *)
Definition parse_item (optim_params : gmap string Q) (x : string)
  : res (gmap string Q) :=
  let split := split "=" x in
  _ ← py_assert (Nat.eqb (length split) 2);
  match split with
  | [name; value] =>
      _ ← py_assert (re_match_anchored numeric_literal value);
      v ← py_float value;
      Ok (<[name := v]> optim_params)
  | _ => Raise AssertionError
  end.

Fixpoint parse_items (optim_params : gmap string Q) (items : list string)
  : res (gmap string Q) :=
  match items with
  | [] => Ok optim_params
  | x :: items' =>
      d ← parse_item optim_params x;
      parse_items d items'
  end.

(** The items the loop runs over: [s[s.find(',') + 1:].split(',')]. *)
Definition items_of (s : string) : list string :=
  split "," (drop_str (find "," s + 1) s).

Definition method_of (s : string) : string :=
  if contains "," s then take_str (find "," s) s else s.

Definition select_optim (method : string) (optim_params : gmap string Q)
  : res optim :=
  if String.eqb method "adadelta" then Ok Adadelta
  else if String.eqb method "adagrad" then Ok Adagrad
  else if String.eqb method "adam" then Ok Adam
  else if String.eqb method "adamax" then Ok Adamax
  else if String.eqb method "asgd" then Ok ASGD
  else if String.eqb method "rmsprop" then Ok RMSprop
  else if String.eqb method "rprop" then Ok Rprop
  else if String.eqb method "sgd" then
    _ ← py_assert (bool_decide (is_Some (optim_params !! "lr"%string)));
    Ok SGD
  else Raise Exception.

Definition accepted (expected_args : list string) (k : string) : bool :=
  existsb (String.eqb k) (drop 2 expected_args).

Section Signature.

(** The parameter names of [optim_fn.__init__], as
    [inspect.signature] lists them. *)
Variable signature : optim -> list string.

Definition get_optimizer (s : string) : res (optim * gmap string Q) :=
  optim_params ←
    (if contains "," s then parse_items ∅ (items_of s) else Ok ∅);
  let method := method_of s in
  optim_fn ← select_optim method optim_params;
  let expected_args := signature optim_fn in
  _ ← py_assert (bool_decide (take 2 expected_args = ["self"; "params"]%string));
  if forallb (accepted expected_args) (map fst (map_to_list optim_params))
  then Ok (optim_fn, optim_params)
  else Raise Exception.

End Signature.

End Mutils.

(** ** The files the InferSent scripts write

    [construct_model_name], [write_results_to_csv] and [write_to_csv] of
    [mutils.py].  A dictionary is the list of its items in insertion
    order; the output file is its content, a missing file being the empty
    content that opening it for appending creates.  A call returns its
    result together with the content of the file when it ends: what was
    written before an exception is in the file, since leaving the [with]
    block closes it.  Lines end in a line feed, as on POSIX systems. *)

Module Files.

Local Open Scope string_scope.

Definition nl : string := String Mutils.newline "".

(** [s[:-1]] *)
Fixpoint but_last (s : string) : string :=
  match s with
  | EmptyString => EmptyString
  | String c s' =>
      match s' with
      | EmptyString => EmptyString
      | String _ _ => String c (but_last s')
      end
  end.

Definition dict (A : Type) : Type := list (string * A).

(** [d.keys()] *)
Definition keys {A} (d : dict A) : list string := map fst d.

(** [d.get(k)] *)
Definition get {A} (d : dict A) (k : string) : option A :=
  snd <$> List.find (fun kv => String.eqb (fst kv) k) d.

(** [d[k]] *)
Definition getitem {A} (d : dict A) (k : string) : res A :=
  match get d k with
  | Some a => Ok a
  | None => Raise KeyError
  end.

(** [l[i]] at an index that is not negative. *)
Definition index {A} (l : list A) (i : nat) : res A :=
  match l !! i with
  | Some a => Ok a
  | None => Raise IndexError
  end.

(** [os.stat(outputfile).st_size == 0] *)
Definition empty_file (file : string) : bool :=
  Nat.eqb (String.length file) 0.

(** The ending of item [i] of [n] in the loops over [enumerate]. *)
Definition ending (sep : string) (i n : nat) : string :=
  if (Z.of_nat i <? Z.of_nat n - 1)%Z then sep else "".

Section Str.

Context {V : Type}.

(** [str] on the values of the dictionaries. *)
Variable str : V -> string.

(** *** [construct_model_name] *)

Section Names.

Context {N : Type}.

(** [str] on the elements of [names_params]. *)
Variable str_name : N -> string.

Fixpoint name_parts (params_dict : dict V) (names : list N)
    (outputmodelname : string) : res string :=
  match names with
  | [] => Ok outputmodelname
  | n :: names' =>
      v ← getitem params_dict (str_name n);
      name_parts params_dict names'
        (outputmodelname +:+ (((str_name n +:+ ":") +:+ str v) +:+ "-"))
  end.

(** With one name the result is that element of the list, otherwise a
    string. *)
Definition construct_model_name (params_dict : dict V)
    (names_params : list N) : res (N + string) :=
  if Nat.eqb (length names_params) 1 then inl <$> index names_params 0
  else inr <$> name_parts params_dict names_params "".

End Names.

(** *** [write_results_to_csv] *)

Definition header_line (results : dict (list V)) : string :=
  but_last (fold_left (fun line key => line +:+ (key +:+ ";"))
              (keys results) "") +:+ nl.

(** The inner loop over the keys, for row [i]. *)
Fixpoint row_fields (results : dict (list V)) (ks : list string) (i : nat)
    (line : string) : res string :=
  match ks with
  | [] => Ok line
  | key :: ks' =>
      col ← getitem results key;
      v ← index col i;
      row_fields results ks' i (line +:+ (str v +:+ ";"))
  end.

(** The loop over the rows. *)
Fixpoint write_rows (results : dict (list V)) (rows : list nat)
    (file : string) : res unit * string :=
  match rows with
  | [] => (Ok tt, file)
  | i :: rows' =>
      match row_fields results (keys results) i "" with
      | Ok line => write_rows results rows' (file +:+ (but_last line +:+ nl))
      | Raise e => (Raise e, file)
      end
  end.

Definition write_results_to_csv (results : dict (list V)) (file : string)
  : res unit * string :=
  let file1 :=
    if empty_file file then file +:+ header_line results else file in
  match getitem results "datapoint_idx" with
  | Ok col => write_rows results (seq 0 (length col)) file1
  | Raise e => (Raise e, file1)
  end.

(** *** [write_to_csv] *)

Section Reader.

(** [next(csv.reader(f, delimiter=';'))] on a file of the given
    content. *)
Variable csv_first_row : string -> res (list string).

Fixpoint write_score_keys (n i : nat) (ks : list string) (file : string)
  : string :=
  match ks with
  | [] => file
  | key :: ks' =>
      write_score_keys n (S i) ks' (file +:+ (key +:+ ending "," i n))
  end.

Definition write_header (scores params_dict : dict V) (file : string)
  : string :=
  let file1 :=
    fold_left (fun f key => f +:+ (key +:+ ",")) (keys params_dict) file in
  let file2 :=
    write_score_keys (length (keys scores)) 0 (keys scores) file1 in
  file2 +:+ nl.

(** The loop over the header names. *)
Fixpoint write_values (scores params_dict : dict V) (n i : nat)
    (headers : list string) (file : string) : res unit * string :=
  match headers with
  | [] => (Ok tt, file)
  | key :: headers' =>
      match get params_dict key with
      | Some v =>
          write_values scores params_dict n (S i) headers'
            (file +:+ (str v +:+ ending ";" i n))
      | None =>
          match get scores key with
          | Some v =>
              write_values scores params_dict n (S i) headers'
                (file +:+ (str v +:+ ending ";" i n))
          | None => (Raise AssertionError, file)
          end
      end
  end.

Definition write_to_csv (scores params_dict : dict V) (file : string)
  : res unit * string :=
  let file1 :=
    if empty_file file then write_header scores params_dict file else file in
  match csv_first_row file1 with
  | Raise e => (Raise e, file1)
  | Ok headers =>
      match write_values scores params_dict (length headers) 0 headers file1
      with
      | (Ok _, file2) => (Ok tt, file2 +:+ nl)
      | (Raise e, file2) => (Raise e, file2)
      end
  end.

End Reader.

End Str.

(** A line that the csv reader takes as it is: no quote, no carriage
    return, no line feed and no NUL. *)
Fixpoint csv_plain (line : string) : bool :=
  match line with
  | EmptyString => true
  | String c line' =>
      negb (Ascii.eqb c (ascii_of_N 34) || Ascii.eqb c (ascii_of_N 13)
            || Ascii.eqb c Mutils.newline || Ascii.eqb c (ascii_of_N 0))
      && csv_plain line'
  end.

End Files.

(** * Specification-side definitions *)

(** The two-way HANS vector the specification describes: the first entry
    kept, the contradiction mass added to the neutral entry, nothing
    else. *)
Definition two_way (p : Q * Q * Q) : list Q :=
  [Bert.col0 p; (Bert.col1 p + Bert.col2 p)%Q].

(** A softmax row: non-negative entries that sum to 1. *)
Definition is_distribution (p : Q * Q * Q) : Prop :=
  (0 <= Bert.col0 p /\ 0 <= Bert.col1 p /\ 0 <= Bert.col2 p /\
   Bert.col0 p + Bert.col1 p + Bert.col2 p == 1)%Q.

#[global] Instance exn_eq_dec : EqDecision exn.
Proof. solve_decision. Defined.

#[global] Instance res_eq_dec {A} `{EqDecision A} : EqDecision (res A).
Proof. solve_decision. Defined.

(** The shape of a batch as the data loader delivers it and the network
    answers it: one matrix of logits per example, one row of it per target
    position, every target a valid index into its row, one loss per target
    position, and a softmax that keeps the length of its row. *)
Definition well_shaped
    (forward_logits : T5.batch -> list (list (list Q)))
    (softmax : list Q -> list Q)
    (loss_criterion : list (list Q) -> list Z -> list Q)
    (pad : positive) (b : T5.batch) : Prop :=
  Forall2 (Forall2 (fun (row : list Q) (i : Z) => 0 <= i < Z.of_nat (length row)))
    (forward_logits b) (T5.target_input_ids b) /\
  length (loss_criterion (concat (forward_logits b))
            (concat (T5.target_input_ids b)))
  = (length (T5.target_input_ids b) * Pos.to_nat pad)%nat /\
  (forall l, length (softmax l) = length l).

(** [row.argmax()] on a row known not to be empty. *)
Definition argmax_row (row : list Q) : Z :=
  match row with
  | [] => 0
  | x :: l => Tensor.argmax_from x 0 1 l
  end.

(** The examples of a table, one tuple per example: heuristic, label,
    loss, prediction. *)
Definition examples (t : Epoch.table) : list (Z * Z * Q * Z) :=
  zip (zip (zip (Epoch.t_heuristic t) (Epoch.t_label t)) (Epoch.t_loss t))
    (Epoch.t_pred t).

Definition ex_heuristic (e : Z * Z * Q * Z) : Z := e.1.1.1.
Definition ex_label (e : Z * Z * Q * Z) : Z := e.1.1.2.
Definition ex_loss (e : Z * Z * Q * Z) : Q := e.1.2.
Definition ex_pred (e : Z * Z * Q * Z) : Z := e.2.

(** The examples with a given heuristic and a given two-way label. *)
Definition in_group (heuristic_idx target_label : Z) (e : Z * Z * Q * Z) : Prop :=
  ex_heuristic e = heuristic_idx /\ ex_label e = target_label.

#[global] Instance in_group_dec h tl e : Decision (in_group h tl e).
Proof. unfold in_group. apply _. Defined.

Definition hans_group (t : Epoch.table) (heuristic_idx target_label : Z)
  : list (Z * Z * Q * Z) :=
  filter (in_group heuristic_idx target_label) (examples t).

(** What the specification asks to be logged for one pair of a label and
    a heuristic: nothing for an empty group, else the mean loss and the
    share of examples whose prediction is their label. *)
Definition hans_entries (prefix : string) (t : Epoch.table)
    (tl : Z * string) (h : string * Z) : metric_log :=
  match hans_group t (snd h) (fst tl) with
  | [] => []
  | grp =>
      [(Epoch.hans_loss_key prefix (snd tl) (fst h),
        Tensor.mean (map ex_loss grp));
       (Epoch.hans_acc_key prefix (snd tl) (fst h),
        Tensor.mean (map (fun e => Tensor.b2q (Z.eqb (ex_pred e) (ex_label e))) grp))]
  end.

(** The per-type means the specification describes: the mean of an array
    under the mask of the examples whose handcrafted type is [v]. *)
Definition type_mask (t : Epoch.table) (v : Z) : list bool :=
  map (fun x => Z.eqb x v) (Epoch.t_handcrafted_type t).

Definition loss_of_type (t : Epoch.table) (v : Z) : option Q :=
  Tensor.mean (Numpy.select (Epoch.t_loss t) (type_mask t v)).

Definition acc_of_type (t : Epoch.table) (v : Z) : option Q :=
  Tensor.mean (Numpy.select (Epoch.t_true_pred t) (type_mask t v)).

Definition mnli_loss_key (prefix dataset_str name : string) : string :=
  prefix +:+ "/HandcraftedType/" +:+ dataset_str +:+ "_" +:+ lower name
    +:+ "_loss".

Definition mnli_acc_key (prefix dataset_str name : string) : string :=
  prefix +:+ "/HandcraftedType/" +:+ dataset_str +:+ "_" +:+ lower name
    +:+ "_accuracy".

(** A result dictionary whose correctness flags are the comparison of its
    predictions with its labels. *)
Definition flags_follow_pred (r : results) : Prop :=
  length (datapoint_pred r) = length (datapoint_label r) /\
  datapoint_true_pred r
  = map Tensor.b2q (zip_with Z.eqb (datapoint_pred r) (datapoint_label r)).

Definition known_names (hp : hparams) : Prop :=
  (optimizer_name hp = "adamw" \/ optimizer_name hp = "adam")%string /\
  (scheduler_name hp = "linear" \/ scheduler_name hp = "polynomial")%string.

(** The method names [get_optimizer] knows, with their classes. *)
Definition known_methods : list (string * Mutils.optim) :=
  [("adadelta", Mutils.Adadelta); ("adagrad", Mutils.Adagrad);
   ("adam", Mutils.Adam); ("adamax", Mutils.Adamax); ("asgd", Mutils.ASGD);
   ("rmsprop", Mutils.RMSprop); ("rprop", Mutils.Rprop);
   ("sgd", Mutils.SGD)]%string.

Definition optim_of_method (method : string) : option Mutils.optim :=
  snd <$> List.find (fun p => String.eqb method (fst p)) known_methods.

(** An item [name=value] whose value has the numeric format. *)
Definition well_formed_item (x : string) : Prop :=
  exists name value v,
    Mutils.split "=" x = [name; value] /\
    Mutils.re_match_anchored Mutils.numeric_literal value = true /\
    Mutils.py_float value = Ok v.

(** The value of the last item of [items] that is named [k]. *)
Fixpoint last_value (items : list string) (k : string) : option string :=
  match items with
  | [] => None
  | x :: items' =>
      match last_value items' k with
      | Some value => Some value
      | None =>
          match Mutils.split "=" x with
          | [name; value] => if String.eqb name k then Some value else None
          | _ => None
          end
      end
  end.

(** The items [get_optimizer] parses: none when the string has no comma. *)
Definition parsed_items (s : string) : list string :=
  if Mutils.contains "," s then Mutils.items_of s else [].

(** The dictionary the specification describes: each parsed name mapped to
    its value as a float; the last item of a name decides. *)
Definition float_of_last (items : list string) (k : string) : option Q :=
  match last_value items k with
  | Some value =>
      match Mutils.py_float value with
      | Ok v => Some v
      | Raise _ => None
      end
  | None => None
  end.

Ltac destruct_bind H :=
  repeat match type of H with
         | mbind _ ?m = Ok _ =>
             let E := fresh "E" in
             destruct m eqn:E; simpl in H; [|discriminate H]
         | (_ ← ?m; _) = Ok _ =>
             let E := fresh "E" in
             destruct m eqn:E; simpl in H; [|discriminate H]
         end.

(** What the first remapping does to one example. *)
Definition remap_row (hans_train : Z) (d : Z) (p : Q * Q * Q) : Q * Q * Q :=
  (Bert.col0 p,
   (Bert.col1 p + Tensor.b2q (Z.eqb d hans_train) * Bert.col2 p)%Q,
   (Tensor.b2q (negb (Z.eqb d hans_train)) * Bert.col2 p
    + Tensor.b2q (Z.eqb d hans_train) * Bert.eps)%Q).

(** The mask [(heuristics == heuristic_idx) & (labels == target_label)]. *)
Definition hans_mask (heuristic_idx target_label : Z) (hs ls : list Z)
  : list bool :=
  zip_with andb (map (fun x => Z.eqb x heuristic_idx) hs)
    (map (fun x => Z.eqb x target_label) ls).

(** ** The numeric format as a language *)

(** The language of a regular expression. *)
Inductive lang : Mutils.regex -> list N -> Prop :=
| lang_eps : lang Mutils.Eps []
| lang_chr p c : p c = true -> lang (Mutils.Chr p) [c]
| lang_seq r1 r2 s1 s2 :
    lang r1 s1 -> lang r2 s2 -> lang (Mutils.Seq r1 r2) (s1 ++ s2)
| lang_alt_l r1 r2 s : lang r1 s -> lang (Mutils.Alt r1 r2) s
| lang_alt_r r1 r2 s : lang r2 s -> lang (Mutils.Alt r1 r2) s
| lang_star_nil r : lang (Mutils.Star r) []
| lang_star_cons r s1 s2 :
    lang r s1 -> lang (Mutils.Star r) s2 -> lang (Mutils.Star r) (s1 ++ s2).

(** The texts of the numeric format without their sign: digits of any
    script around at most one full stop. *)
Definition unsigned_text (body : list N) : Prop :=
  (exists c ds fs,
     body = c :: ds ++ fs /\ Mutils.is_digit c = true /\
     forallb Mutils.is_digit ds = true /\
     (fs = [] \/ exists fd, fs = 46%N :: fd /\
                            forallb Mutils.is_digit fd = true)) \/
  (exists c fd,
     body = 46%N :: c :: fd /\ Mutils.is_digit c = true /\
     forallb Mutils.is_digit fd = true).

Fixpoint all_digits (s : string) : bool :=
  match s with
  | EmptyString => true
  | String c s' => Mutils.ascii_digit c && all_digits s'
  end.

(** What [float] makes of such a text: ASCII digits around at most one
    full stop. *)
Definition unsigned_shape (body : string) : Prop :=
  (exists c ds fs,
     body = String c ds +:+ fs /\ Mutils.ascii_digit c = true /\
     all_digits ds = true /\
     (fs = ""%string \/ exists fd, fs = String "." fd /\ all_digits fd = true)) \/
  (exists c fd,
     body = String "." (String c fd) /\ Mutils.ascii_digit c = true /\
     all_digits fd = true).

(** The characters of a numeric literal. *)
Definition literal_char (c : ascii) : bool :=
  Mutils.ascii_sign c || Mutils.ascii_digit c || Mutils.ascii_dot c.

Fixpoint literal_chars (s : string) : bool :=
  match s with
  | EmptyString => true
  | String c s' => literal_char c && literal_chars s'
  end.

(** ** Further specification-side definitions *)

(** [sub] occurs in [s]. *)
Definition occurs_in (sub s : string) : Prop :=
  exists pre post, s = (pre +:+ sub +:+ post)%string.

(** Exactly one warm-up hyper-parameter is given. *)
Definition exactly_one_warmup (hp : hparams) : Prop :=
  (is_Some (warmup_steps hp) /\ warmup_ratio hp = None) \/
  (warmup_steps hp = None /\ is_Some (warmup_ratio hp)).

(** The only warm-up hyper-parameter given is a zero. *)
Definition zero_only (hp : hparams) : bool :=
  match warmup_steps hp, warmup_ratio hp with
  | Some ws, None => Z.eqb ws 0
  | None, Some wr => Qeq_bool wr 0
  | _, _ => false
  end.

(** A result dictionary as [T5ForNLI._step] builds it: every prediction
    is the filler -1, no label is -1, and the correctness flags are
    zeros and ones, one per label. *)
Definition filler_predictions (r : results) : Prop :=
  Forall (fun p => p = -1) (datapoint_pred r) /\
  Forall (fun l => l <> -1) (datapoint_label r) /\
  length (datapoint_pred r) = length (datapoint_label r) /\
  exists flags : list bool, datapoint_true_pred r = map Tensor.b2q flags.

(** A batch as the data loader of the generative model delivers it: well
    shaped, with one class label per example, none of them -1. *)
Definition labelled
    (forward_logits : T5.batch -> list (list (list Q)))
    (softmax : list Q -> list Q)
    (loss_criterion : list (list Q) -> list Z -> list Q)
    (pad : positive) (b : T5.batch) : Prop :=
  well_shaped forward_logits softmax loss_criterion pad b /\
  length (T5.labels b) = length (T5.target_input_ids b) /\
  Forall (fun l => l <> -1) (T5.labels b).

(** The number of examples of a [datapoint_prob] tensor. *)
Definition prob_length (p : prob_tensor) : nat :=
  match p with
  | Prob1 v => length v
  | Prob2 rows => length rows
  end.

(** A computation that only adds metrics to the log, whatever it
    returns. *)
Definition appends {A} (m : M A) : Prop :=
  forall st r st', m st = (r, st') -> exists l, st' = st ++ l.

(** What [argmax] returns: the index of an entry that no entry exceeds
    and that every earlier entry is below. *)
Definition first_maximum (row : list Q) (k : Z) : Prop :=
  0 <= k < Z.of_nat (length row) /\
  exists x,
    row !! Z.to_nat k = Some x /\
    (forall (j : nat) y, row !! j = Some y -> (y <= x)%Q) /\
    (forall (j : nat) y, (j < Z.to_nat k)%nat -> row !! j = Some y -> (y < x)%Q).

(** An item [name=value] whose value has the numeric format and whose name
    is one of [args]. *)
Definition accepted_item (args : list string) (x : string) : Prop :=
  exists name value,
    Mutils.split "=" x = [name; value] /\
    Mutils.re_match_anchored Mutils.numeric_literal value = true /\
    In name args.

(** ** Specification-side definitions for the result files *)

(** [sep.join(l)] *)
Fixpoint join (sep : string) (l : list string) : string :=
  match l with
  | [] => ""%string
  | x :: l' =>
      match l' with
      | [] => x
      | _ :: _ => (x +:+ (sep +:+ join sep l'))%string
      end
  end.

(** Every element of [l] followed by [sep]. *)
Fixpoint suffixed (sep : string) (l : list string) : string :=
  match l with
  | [] => ""%string
  | x :: l' => (x +:+ (sep +:+ suffixed sep l'))%string
  end.

(** The texts of [l] one after the other. *)
Fixpoint concat_str (l : list string) : string :=
  match l with
  | [] => ""%string
  | x :: l' => (x +:+ concat_str l')%string
  end.

(** A text that holds no semicolon and no line feed. *)
Definition csv_field (s : string) : Prop :=
  Mutils.contains ";" s = false /\ Mutils.contains Mutils.newline s = false.

(** Reading a table back: the lines of the text, and in each line the
    fields between semicolons. *)
Definition read_table (text : string) : list (list string) :=
  map (Mutils.split ";") (removelast (Mutils.split Mutils.newline text)).

(** The text of the cell of column [k] in row [i]. *)
Definition cell {V} (str : V -> string) (results : Files.dict (list V))
    (i : nat) (k : string) : option string :=
  col ← Files.get results k; str <$> col !! i.

(** The fields of row [i], when every column has one. *)
Definition row {V} (str : V -> string) (results : Files.dict (list V))
    (i : nat) : option (list string) :=
  mapM (cell str results i) (Files.keys results).

(** The first [i] rows of a table. *)
Definition first_rows {V} (i : nat) (results : Files.dict (list V))
  : Files.dict (list V) :=
  map (fun kc => (fst kc, take i (snd kc))) results.

(** What is known of the csv reader: a first line without quotes,
    carriage returns and NULs is cut at the semicolons, and an empty
    first line is a row without fields. *)
Definition reads_plain_lines (csv_first_row : string -> res (list string))
  : Prop :=
  forall line rest,
    Files.csv_plain line = true ->
    csv_first_row (line +:+ (Files.nl +:+ rest))%string
    = Ok (if Files.empty_file line then [] else Mutils.split ";" line).

(** A key that holds no quote, carriage return, line feed, NUL or
    semicolon. *)
Definition plain_key (k : string) : Prop :=
  Files.csv_plain k = true /\ Mutils.contains ";" k = false.

(** The value [write_to_csv] writes under a header name: the parameter of
    that name, or else the score of that name. *)
Definition value_of {V} (str : V -> string) (scores params_dict : Files.dict V)
    (key : string) : option string :=
  match Files.get params_dict key with
  | Some v => Some (str v)
  | None => str <$> Files.get scores key
  end.

(** The text of the rows with the given fields. *)
Definition rows_text (rows : list (list string)) : string :=
  concat_str (map (fun fields => join ";" fields +:+ Files.nl)%string rows).

(** The names in the first line of a file. *)
Definition header_names (hline : string) : list string :=
  if Files.empty_file hline then [] else Mutils.split ";" hline.

Arguments cell : simpl never.
Arguments row : simpl never.
Arguments value_of : simpl never.

(** * Concrete inputs for the examples *)

Module BertExample.

(** A stand-in network: the same three logits for every example. *)
Definition forward_logits (b : Bert.batch) : list (Q * Q * Q) :=
  map (fun _ => (1, 2, 1)%Q) (Bert.dataset b).

(** A stand-in for the softmax: the entries divided by their sum. *)
Definition softmax (p : Q * Q * Q) : Q * Q * Q :=
  let s := (p.1.1 + p.1.2 + p.2)%Q in
  (Qred (p.1.1 / s), Qred (p.1.2 / s), Qred (p.2 / s)).

Definition ln (x : Q) : Q := (x - 1)%Q.

Definition loss_criterion (logits onehot : list (list Q)) : list Q :=
  zip_with (fun l o => Qred (- Tensor.sum (zip_with Qmult l o))) logits onehot.

(** Data set identifiers: 4 for the HANS training split, 5 for the HANS
    validation split. *)
Definition hans_train : Z := 4.
Definition hans_validation : Z := 5.

Definition hans_validation_batch : Bert.batch :=
  {| Bert.input_ids := [[101; 7; 102]; [101; 9; 102]];
     Bert.attention_mask := [[1; 1; 1]; [1; 1; 1]];
     Bert.token_type_ids := [[0; 0; 0]; [0; 0; 0]];
     Bert.labels := [1; 0];
     Bert.dataset := [5; 5];
     Bert.idx := [10; 11];
     Bert.handcrafted_type := [0; 0];
     Bert.heuristic := Some [0; 1] |}.

End BertExample.

Module T5Example.

(** A stand-in network that puts the largest logit on the target token,
    over a vocabulary of three tokens. *)
Definition forward_logits (b : T5.batch) : list (list (list Q)) :=
  map (map (fun t => map (fun v => if Z.eqb v t then 2%Q else 0%Q) [0; 1; 2]))
    (T5.target_input_ids b).

(** A stand-in for the softmax: shifted entries divided by their sum. *)
Definition softmax (row : list Q) : list Q :=
  let s := Tensor.sum (map (fun x => x + 1)%Q row) in
  map (fun x => Qred ((x + 1) / s)) row.

Definition loss_criterion (logits : list (list Q)) (targets : list Z) : list Q :=
  map (fun _ => 1%Q) targets.

Definition pad : positive := 2.

Definition hans_ids : list Z := [4; 5].

Definition mnli_batch : T5.batch :=
  {| T5.input_ids := [[8; 9]; [8; 7]];
     T5.attention_mask := [[1; 1]; [1; 1]];
     T5.target_input_ids := [[1; 0]; [2; 0]];
     T5.target_attention_mask := [[1; 1]; [1; 1]];
     T5.labels := [1; 2];
     T5.dataset := [1; 1];
     T5.idx := [20; 21];
     T5.handcrafted_type := [0; 1];
     T5.heuristic := None |}.

Definition hans_batch : T5.batch :=
  {| T5.input_ids := [[8; 9]; [8; 7]];
     T5.attention_mask := [[1; 1]; [1; 1]];
     T5.target_input_ids := [[1; 0]; [2; 0]];
     T5.target_attention_mask := [[1; 1]; [1; 1]];
     T5.labels := [1; 0];
     T5.dataset := [5; 5];
     T5.idx := [30; 31];
     T5.handcrafted_type := [0; 0];
     T5.heuristic := Some [0; 2] |}.

End T5Example.

Module EpochExample.

(** Stand-ins for the tables of [src.constants]. *)
Definition INTEGER_TO_DATASET : gmap Z string :=
  list_to_map [(0, "mnli_train"); (1, "mnli_validation_matched");
               (4, "hans_train"); (5, "hans_validation")]%string.

Definition HEURISTIC_TO_INTEGER : list (string * Z) :=
  [("lexical_overlap", 0); ("subsequence", 1); ("constituent", 2)]%string.

Definition INTEGER_TO_HEURISTIC : gmap Z string :=
  list_to_map [(-1, "none"); (0, "lexical_overlap"); (1, "subsequence");
               (2, "constituent")]%string.

Definition HandcraftedType : list (string * Z) :=
  [("STANDARD", 0); ("NEGATION", 1)]%string.

Definition MNLI_DATASET_INTEGER_IDENTIFIERS : list Z := [0; 1].
Definition SNLI_DATASET_INTEGER_IDENTIFIERS : list Z := [2; 3].
Definition HANS_DATASET_INTEGER_IDENTIFIERS : list Z := [4; 5].

(** Three HANS examples: two entailment examples with the heuristic
    [lexical_overlap], one of them predicted right, and one
    non-entailment example with the heuristic [subsequence]. *)
Definition hans_table : Epoch.table :=
  {| Epoch.t_idx := [0; 1; 2];
     Epoch.t_dataset := [5; 5; 5];
     Epoch.t_label := [0; 0; 1];
     Epoch.t_handcrafted_type := [0; 0; 0];
     Epoch.t_heuristic := [0; 0; 1];
     Epoch.t_loss := [1; 3; 2]%Q;
     Epoch.t_pred := [0; 1; 1];
     Epoch.t_true_pred := [1; 0; 1]%Q;
     Epoch.t_prob := Prob2 [[1; 0]; [0; 1]; [0; 1]]%Q;
     Epoch.t_true_prob := [1; 0; 1]%Q |}.

(** Two MNLI examples of different handcrafted types, with different
    losses, the first predicted right and the second wrong. *)
Definition mnli_table : Epoch.table :=
  {| Epoch.t_idx := [0; 1];
     Epoch.t_dataset := [1; 1];
     Epoch.t_label := [0; 2];
     Epoch.t_handcrafted_type := [0; 1];
     Epoch.t_heuristic := [-1; -1];
     Epoch.t_loss := [1; 3]%Q;
     Epoch.t_pred := [0; 1];
     Epoch.t_true_pred := [1; 0]%Q;
     Epoch.t_prob := Prob2 [[1; 0; 0]; [0; 1; 0]]%Q;
     Epoch.t_true_prob := [1; 0]%Q |}.

End EpochExample.

Module WarmupExample.

(** Only [warmup_steps] is given, and it is 0: no warm-up. *)
Definition zero_steps : hparams :=
  {| optimizer_name := "adamw";
     scheduler_name := "linear";
     learning_rate := 2 # 100000;
     weight_decay := 1 # 100;
     adam_epsilon := 1 # 100000000;
     warmup_steps := Some 0;
     warmup_ratio := None |}.

(** Only [warmup_ratio] is given, and it is 0.0. *)
Definition zero_ratio : hparams :=
  {| optimizer_name := "adamw";
     scheduler_name := "linear";
     learning_rate := 2 # 100000;
     weight_decay := 1 # 100;
     adam_epsilon := 1 # 100000000;
     warmup_steps := None;
     warmup_ratio := Some 0%Q |}.

Definition named_parameters : list string :=
  ["encoder.layer.0.weight"; "encoder.layer.0.bias";
   "encoder.LayerNorm.weight"]%string.

End WarmupExample.

Module MutilsExample.

(** The constructor arguments of the optimizer classes, as a recent
    release of the tensor library lists them. *)
Definition signature (o : Mutils.optim) : list string :=
  match o with
  | Mutils.SGD =>
      ["self"; "params"; "lr"; "momentum"; "dampening"; "weight_decay";
       "nesterov"]
  | Mutils.Adam | Mutils.Adamax =>
      ["self"; "params"; "lr"; "betas"; "eps"; "weight_decay"]
  | Mutils.Adagrad =>
      ["self"; "params"; "lr"; "lr_decay"; "weight_decay";
       "initial_accumulator_value"; "eps"]
  | Mutils.Adadelta => ["self"; "params"; "lr"; "rho"; "eps"; "weight_decay"]
  | Mutils.ASGD =>
      ["self"; "params"; "lr"; "lambd"; "alpha"; "t0"; "weight_decay"]
  | Mutils.RMSprop =>
      ["self"; "params"; "lr"; "alpha"; "eps"; "weight_decay"; "momentum";
       "centered"]
  | Mutils.Rprop => ["self"; "params"; "lr"; "etas"; "step_sizes"]
  end%string.

End MutilsExample.

Module BertCases.

(** Three MNLI examples. *)
Definition mnli_batch : Bert.batch :=
  {| Bert.input_ids := [[101; 7; 102]; [101; 9; 102]; [101; 4; 102]];
     Bert.attention_mask := [[1; 1; 1]; [1; 1; 1]; [1; 1; 1]];
     Bert.token_type_ids := [[0; 0; 0]; [0; 0; 0]; [0; 0; 0]];
     Bert.labels := [1; 0; 2];
     Bert.dataset := [1; 1; 1];
     Bert.idx := [40; 41; 42];
     Bert.handcrafted_type := [0; 1; 0];
     Bert.heuristic := None |}.

(** The second label is no class. *)
Definition bad_label_batch : Bert.batch :=
  {| Bert.input_ids := [[101; 7; 102]; [101; 9; 102]];
     Bert.attention_mask := [[1; 1; 1]; [1; 1; 1]];
     Bert.token_type_ids := [[0; 0; 0]; [0; 0; 0]];
     Bert.labels := [1; 3];
     Bert.dataset := [1; 1];
     Bert.idx := [50; 51];
     Bert.handcrafted_type := [0; 0];
     Bert.heuristic := None |}.

(** A HANS validation batch whose second label is the three-way label
    of a contradiction. *)
Definition hans_validation_label_2 : Bert.batch :=
  {| Bert.input_ids := [[101; 7; 102]; [101; 9; 102]];
     Bert.attention_mask := [[1; 1; 1]; [1; 1; 1]];
     Bert.token_type_ids := [[0; 0; 0]; [0; 0; 0]];
     Bert.labels := [0; 2];
     Bert.dataset := [5; 5];
     Bert.idx := [60; 61];
     Bert.handcrafted_type := [0; 0];
     Bert.heuristic := Some [1; 2] |}.

Definition empty_batch : Bert.batch :=
  {| Bert.input_ids := [];
     Bert.attention_mask := [];
     Bert.token_type_ids := [];
     Bert.labels := [];
     Bert.dataset := [];
     Bert.idx := [];
     Bert.handcrafted_type := [];
     Bert.heuristic := None |}.

(** [_step] with the stand-in network of [BertExample]. *)
Definition step : Bert.batch -> res results :=
  Bert._step BertExample.forward_logits BertExample.softmax BertExample.ln
    BertExample.loss_criterion BertExample.hans_train
    BertExample.hans_validation.

End BertCases.

Module T5Cases.

(** A stand-in network that is always wrong: its largest logit is on the
    token after the target token. *)
Definition wrong_logits (b : T5.batch) : list (list (list Q)) :=
  map (map (fun t => map (fun v => if Z.eqb v ((t + 1) mod 3) then 2%Q else 0%Q)
                       [0; 1; 2]))
    (T5.target_input_ids b).

End T5Cases.

Module FilesExample.

(** A stand-in for the csv reader that knows unquoted lines only: the
    text before the first line feed, cut at the semicolons. *)
Definition csv_first_row (content : string) : res (list string) :=
  if Files.empty_file content then Raise Exception
  else
    let line := Mutils.take_str (Mutils.find Mutils.newline content) content in
    Ok (if Files.empty_file line then [] else Mutils.split ";" line).

Definition results : Files.dict (list string) :=
  [("datapoint_idx", ["0"; "1"]); ("loss", ["5"; "6"])]%string.

Definition short_results : Files.dict (list string) :=
  [("datapoint_idx", ["0"; "1"]); ("loss", ["5"])]%string.

Definition scores : Files.dict string := [("acc", "1"); ("f1", "3")]%string.

Definition params_dict : Files.dict string :=
  [("lr", "2"); ("acc", "9")]%string.

Definition str (v : string) : string := v.

End FilesExample.

(** * Theorems *)

(** ** Tensor helpers *)

Lemma broadcast2_same_length {A B C} (f : A -> B -> C) xs ys :
  length xs = length ys ->
  Tensor.broadcast2 f xs ys = Ok (zip_with f xs ys).
Proof.
  intros H. unfold Tensor.broadcast2.
  by rewrite H, Nat.eqb_refl.
Qed.

Lemma stack3_same_length a b c :
  length a = length b -> length b = length c ->
  Tensor.stack3 a b c
  = Ok (zip_with (fun ab z => (ab.1, ab.2, z)) (zip_with pair a b) c).
Proof.
  intros H1 H2. unfold Tensor.stack3.
  by rewrite H1, H2, !Nat.eqb_refl.
Qed.

Lemma traverse_ok_length {A B} (f : A -> res B) l l' :
  Tensor.traverse f l = Ok l' -> length l' = length l.
Proof.
  revert l'. induction l as [|a l IH]; intros l' H; simpl in H.
  - by inversion H.
  - destruct (f a) as [b|e]; simpl in H; [|discriminate].
    destruct (Tensor.traverse f l) as [bs|e]; simpl in H; [|discriminate].
    inversion H; subst. simpl. f_equal. by apply IH.
Qed.

Lemma traverse_ok_lookup {A B} (f : A -> res B) l l' i a :
  Tensor.traverse f l = Ok l' -> l !! i = Some a ->
  exists b, l' !! i = Some b /\ f a = Ok b.
Proof.
  revert l' i. induction l as [|x l IH]; intros l' i H Hi; [done|].
  simpl in H.
  destruct (f x) as [b|e] eqn:Hx; simpl in H; [|discriminate].
  destruct (Tensor.traverse f l) as [bs|e]; simpl in H; [|discriminate].
  inversion H; subst. destruct i as [|i]; simpl in *.
  - inversion Hi; subst. eauto.
  - eapply IH; eauto.
Qed.

Lemma traverse_total {A B} (f : A -> res B) (g : A -> B) l :
  Forall (fun a => f a = Ok (g a)) l ->
  Tensor.traverse f l = Ok (map g l).
Proof.
  induction 1 as [|a l Ha _ IH]; [done|].
  simpl. by rewrite Ha, IH.
Qed.

(** ** Label harmonisation in [BertForNLI._step] *)

Section BertHarmonisation.

Variable hans_train : Z.
Variable hans_validation : Z.

Lemma remap_hans_train_rows ds prob_raw :
  length ds = length prob_raw ->
  Bert.remap_hans_train hans_train ds prob_raw
  = Ok (zip_with (remap_row hans_train) ds prob_raw).
Proof.
  intros Hlen. unfold Bert.remap_hans_train.
  rewrite broadcast2_same_length by (by rewrite length_map).
  simpl.
  rewrite broadcast2_same_length
    by (rewrite length_zip_with, !length_map; lia).
  simpl.
  rewrite broadcast2_same_length by (by rewrite length_map).
  simpl.
  rewrite broadcast2_same_length
    by (rewrite length_zip_with, !length_map; lia).
  simpl.
  rewrite stack3_same_length
    by (rewrite ?length_zip_with, ?length_map; lia).
  f_equal.
  revert prob_raw Hlen.
  induction ds as [|d ds IH]; intros [|p prob_raw] Hlen; simpl in *; try done.
  f_equal. apply IH. lia.
Qed.


End BertHarmonisation.


Lemma gather_total t index :
  (length index <= length t)%nat ->
  (forall (i : nat) row l,
     t !! i = Some row -> index !! i = Some l ->
     0 <= l < Z.of_nat (length row)) ->
  exists g, Tensor.gather t index = Ok g.
Proof.
  revert t. induction index as [|l index IH]; intros t Hlen Hrows.
  { exists []. by destruct t. }
  destruct t as [|row t]; simpl in Hlen; [lia|].
  destruct (IH t) as [g Hg]; [lia | |].
  { intros i r k Hr Hk. by apply (Hrows (S i)). }
  specialize (Hrows 0%nat row l eq_refl eq_refl).
  simpl. unfold Tensor.gather1.
  destruct (Z.ltb_spec l 0) as [?|_]; [lia|].
  destruct (row !! Z.to_nat l) as [x|] eqn:Hx.
  - simpl. rewrite Hg. simpl. by eexists.
  - apply lookup_ge_None in Hx. lia.
Qed.

Lemma gather_lookup t index g (i : nat) row l :
  Tensor.gather t index = Ok g ->
  t !! i = Some row -> index !! i = Some l ->
  0 <= l /\ g !! i = row !! Z.to_nat l /\ is_Some (g !! i).
Proof.
  revert t g i. induction index as [|k index IH]; intros t g i Hg Hrow Hl; [done|].
  destruct t as [|r t]; [done|]. simpl in Hg.
  unfold Tensor.gather1 in Hg.
  destruct (Z.ltb_spec k 0) as [?|Hk]; [discriminate|].
  destruct (r !! Z.to_nat k) as [x|] eqn:Hx; [|discriminate].
  simpl in Hg.
  destruct (Tensor.gather t index) as [xs|] eqn:Hxs; [|discriminate].
  simpl in Hg. inversion Hg; subst.
  destruct i as [|i]; simpl in *.
  - inversion Hrow; inversion Hl; subst. rewrite Hx. eauto.
  - eapply IH; eauto.
Qed.

Lemma gather_ok_length t index g :
  Tensor.gather t index = Ok g -> length g = length index.
Proof.
  revert t g. induction index as [|k index IH]; intros t g Hg; simpl in Hg.
  - by inversion Hg.
  - destruct t as [|r t]; [discriminate|].
    destruct (Tensor.gather1 r k); [|discriminate]. simpl in Hg.
    destruct (Tensor.gather t index) eqn:Hxs; [|discriminate].
    simpl in Hg. inversion Hg; subst. simpl. f_equal. eauto.
Qed.

Lemma one_hot3_total l :
  0 <= l < 3 ->
  Bert.one_hot3 l = Ok (map (fun c => Tensor.b2q (Z.eqb l c)) [0; 1; 2]).
Proof.
  intros H. unfold Bert.one_hot3.
  destruct (Z.ltb_spec l 0); [lia|].
  destruct (Z.leb_spec 3 l); [lia|]. done.
Qed.

Lemma argmax_two_way prob3 :
  Tensor.traverse Tensor.argmax (map two_way prob3)
  = Ok (map (fun p : Q * Q * Q =>
               if Qlt_le_dec (Bert.col0 p) (Bert.col1 p + Bert.col2 p)
               then 1 else 0) prob3).
Proof.
  induction prob3 as [|p prob3 IH]; [done|].
  simpl. rewrite IH. simpl. by destruct (Qlt_le_dec _ _).
Qed.

Section BertStep.

Variable forward_logits : Bert.batch -> list (Q * Q * Q).
Variable softmax : Q * Q * Q -> Q * Q * Q.
Variable ln : Q -> Q.
Variable loss_criterion : list (list Q) -> list (list Q) -> list Q.
Variable hans_train : Z.
Variable hans_validation : Z.

Abbreviation step := (Bert._step forward_logits softmax ln loss_criterion
                    hans_train hans_validation).

Lemma remap_hans_validation_two_way prob3 :
  Bert.remap_hans_validation hans_validation hans_validation prob3
  = map two_way prob3.
Proof.
  unfold Bert.remap_hans_validation. rewrite Z.eqb_refl.
  apply map_ext. by intros [[p0 p1] p2].
Qed.

(** The vector [_step] returns as [datapoint_prob] is the stacked vector
    of the first remapping, passed through the second. *)
Lemma bert_step_prob (b : Bert.batch) (r : results) :
  step b = Ok r ->
  exists prob3 dataset0,
    Bert.remap_hans_train hans_train (Bert.dataset b)
      (map softmax (forward_logits b)) = Ok prob3 /\
    Tensor.first_item (Bert.dataset b) = Ok dataset0 /\
    datapoint_prob r
    = Prob2 (Bert.remap_hans_validation hans_validation dataset0 prob3).
Proof.
  intros H. unfold Bert._step in H. destruct_bind H.
  inversion H; subst. simpl. eauto.
Qed.

(** C2.  On a batch whose first example is of the HANS validation split,
    [BertForNLI._step] returns; the probability vector of every example
    has two entries, the entailment entry and the sum of the neutral and
    the contradiction entries of the stacked vector; the gold-label
    probability is read from, and the prediction is the arg-max of, this
    two-entry vector. *)
Theorem hans_validation_step (b : Bert.batch) (ds' : list Z) :
  Bert.dataset b = hans_validation :: ds' ->
  length (forward_logits b) = length (Bert.dataset b) ->
  length (Bert.labels b) = length (Bert.dataset b) ->
  Forall (fun l => 0 <= l < 2) (Bert.labels b) ->
  exists r prob3,
    Bert.remap_hans_train hans_train (Bert.dataset b)
      (map softmax (forward_logits b)) = Ok prob3 /\
    step b = Ok r /\
    datapoint_prob r = Prob2 (map two_way prob3) /\
    Tensor.gather (map two_way prob3) (Bert.labels b)
      = Ok (datapoint_true_prob r) /\
    Tensor.traverse Tensor.argmax (map two_way prob3)
      = Ok (datapoint_pred r) /\
    forall (i : nat) p l,
      prob3 !! i = Some p -> Bert.labels b !! i = Some l ->
      datapoint_true_prob r !! i
        = Some (if Z.eqb l 0 then Bert.col0 p
                else (Bert.col1 p + Bert.col2 p)%Q) /\
      datapoint_pred r !! i
        = Some (if Qlt_le_dec (Bert.col0 p) (Bert.col1 p + Bert.col2 p)
                then 1 else 0).
Proof.
  intros Hds Hlen Hlab Hrange.
  set (prob3 := zip_with (remap_row hans_train) (Bert.dataset b)
                  (map softmax (forward_logits b))).
  assert (Hprob3 : Bert.remap_hans_train hans_train (Bert.dataset b)
                     (map softmax (forward_logits b)) = Ok prob3).
  { apply remap_hans_train_rows. by rewrite length_map. }
  assert (Hlen3 : length prob3 = length (Bert.dataset b)).
  { unfold prob3. rewrite length_zip_with, length_map. lia. }
  destruct (gather_total (map two_way prob3) (Bert.labels b)) as [g Hg].
  { rewrite length_map. lia. }
  { intros i row l Hrow Hl. rewrite list_lookup_fmap in Hrow.
    destruct (prob3 !! i); [|done]. inversion Hrow; subst. simpl.
    pose proof (proj1 (Forall_lookup _ _) Hrange i l Hl). simpl in *. lia. }
  set (pred := map (fun p : Q * Q * Q =>
                      if Qlt_le_dec (Bert.col0 p) (Bert.col1 p + Bert.col2 p)
                      then 1 else 0) prob3).
  assert (Hpred : Tensor.traverse Tensor.argmax (map two_way prob3) = Ok pred).
  { apply argmax_two_way. }
  assert (Hoh : Tensor.traverse Bert.one_hot3 (Bert.labels b)
                = Ok (map (fun l => map (fun c => Tensor.b2q (Z.eqb l c)) [0; 1; 2])
                        (Bert.labels b))).
  { apply traverse_total. eapply Forall_impl; [exact Hrange|].
    intros l Hl. simpl in Hl. apply one_hot3_total. lia. }
  eexists. exists prob3.
  split; [exact Hprob3|].
  unfold Bert._step. rewrite Hoh. simpl. rewrite Hprob3. simpl.
  rewrite Hds. simpl. rewrite remap_hans_validation_two_way.
  rewrite Hg. simpl. rewrite Hpred. simpl.
  rewrite broadcast2_same_length
    by (unfold pred; rewrite length_map; lia).
  simpl. split; [reflexivity|]. simpl.
  split; [reflexivity|]. split; [reflexivity|]. split; [reflexivity|].
  intros i p l Hp Hl. split.
  - destruct (gather_lookup _ _ _ i (two_way p) l Hg) as [H0 [Hgi _]].
    { by rewrite list_lookup_fmap, Hp. }
    { exact Hl. }
    rewrite Hgi.
    pose proof (proj1 (Forall_lookup _ _) Hrange i l Hl) as Hr. simpl in Hr.
    assert (l = 0 \/ l = 1) as [-> | ->] by lia; reflexivity.
  - unfold pred. by rewrite list_lookup_fmap, Hp.
Qed.

End BertStep.

Lemma hans_validation_step_witness :
  Bert.dataset BertExample.hans_validation_batch = 5 :: [5] /\
  exists r prob3,
    Bert._step BertExample.forward_logits BertExample.softmax BertExample.ln
      BertExample.loss_criterion BertExample.hans_train BertExample.hans_validation
      BertExample.hans_validation_batch = Ok r /\
    datapoint_prob r = Prob2 (map two_way prob3) /\
    Tensor.traverse Tensor.argmax (map two_way prob3) = Ok (datapoint_pred r).
Proof.
  split; [reflexivity|].
  destruct (hans_validation_step BertExample.forward_logits BertExample.softmax
              BertExample.ln BertExample.loss_criterion BertExample.hans_train
              BertExample.hans_validation BertExample.hans_validation_batch [5]
              eq_refl eq_refl eq_refl)
    as (r & prob3 & _ & Hstep & Hprob & _ & Hpred & _).
  { repeat (constructor; [simpl; lia|]). constructor. }
  exists r, prob3. split; [exact Hstep|]. split; [exact Hprob | exact Hpred].
Defined.

(** ** Sums of the remapped probabilities *)


Section HansSums.

Variable hans_train : Z.
Variable hans_validation : Z.


End HansSums.


(** ** [T5ForNLI._step] *)

Lemma traverse_argmax_rows (m : list (list Q)) (ix : list Z) :
  Forall2 (fun (row : list Q) (i : Z) => 0 <= i < Z.of_nat (length row)) m ix ->
  Tensor.traverse Tensor.argmax m = Ok (map argmax_row m).
Proof.
  induction 1 as [|row i m ix Hi _ IH]; [done|].
  simpl. destruct row as [|x row]; [simpl in Hi; lia|].
  simpl. by rewrite IH.
Qed.

Lemma traverse_argmax_logits logits targets :
  Forall2 (Forall2 (fun (row : list Q) (i : Z) => 0 <= i < Z.of_nat (length row)))
    logits targets ->
  Tensor.traverse (Tensor.traverse Tensor.argmax) logits
  = Ok (map (map argmax_row) logits).
Proof.
  induction 1 as [|m ix logits targets Hm _ IH]; [done|].
  simpl. rewrite (traverse_argmax_rows m ix Hm). simpl. by rewrite IH.
Qed.

Lemma eq2_same_shape (a b : list (list Z)) :
  Forall2 (fun r s => length r = length s) a b ->
  T5.eq2 a b = Ok (zip_with (zip_with Z.eqb) a b).
Proof.
  intros H. unfold T5.eq2.
  rewrite broadcast2_same_length by (by eapply Forall2_length).
  simpl. induction H as [|r s a b Hrs _ IH]; [done|].
  simpl. rewrite broadcast2_same_length by done. simpl.
  by rewrite IH.
Qed.

Lemma gather_rows_total (softmax : list Q -> list Q) (m : list (list Q)) ix :
  (forall l, length (softmax l) = length l) ->
  Forall2 (fun (row : list Q) (i : Z) => 0 <= i < Z.of_nat (length row)) m ix ->
  exists g, Tensor.gather (map softmax m) ix = Ok g.
Proof.
  intros Hsm H. apply gather_total.
  - rewrite length_map. apply Forall2_length in H. lia.
  - intros i row l Hrow Hl. rewrite list_lookup_fmap in Hrow.
    destruct (m !! i) as [r|] eqn:Hr; [|done]. inversion Hrow; subst.
    rewrite Hsm. by apply (Forall2_lookup_lr _ _ _ _ _ _ H Hr Hl).
Qed.

Lemma gather3_total (softmax : list Q -> list Q) logits targets :
  (forall l, length (softmax l) = length l) ->
  Forall2 (Forall2 (fun (row : list Q) (i : Z) => 0 <= i < Z.of_nat (length row)))
    logits targets ->
  exists g, T5.gather3 (map (map softmax) logits) targets = Ok g.
Proof.
  intros Hsm. induction 1 as [|m ix logits targets Hm _ [g Hg]]; [by exists []|].
  destruct (gather_rows_total softmax m ix Hsm Hm) as [r Hr].
  simpl. rewrite Hr. simpl. rewrite Hg. simpl. by eexists.
Qed.

Lemma forallb_zip_eqb (a b : list Z) :
  length a = length b ->
  forallb (fun x => x) (zip_with Z.eqb a b) = bool_decide (a = b).
Proof.
  revert b. induction a as [|x a IH]; intros [|y b] Hlen; simpl in *; try done.
  rewrite IH by lia.
  destruct (Z.eqb_spec x y) as [->|Hne]; simpl.
  - apply bool_decide_ext. split; [by intros -> | by inversion 1].
  - symmetry. apply bool_decide_eq_false. by inversion 1.
Qed.

Lemma existsb_eqb_In (d : Z) (l : list Z) :
  existsb (Z.eqb d) l = true <-> In d l.
Proof.
  rewrite existsb_exists. split.
  - intros [x [Hin Heq]]. apply Z.eqb_eq in Heq. by subst.
  - intros Hin. exists d. split; [done | apply Z.eqb_refl].
Qed.

Section T5Step.

Variable forward_logits : T5.batch -> list (list (list Q)).
Variable softmax : list Q -> list Q.
Variable loss_criterion : list (list Q) -> list Z -> list Q.
Variable T5_LABEL_PAD_LENGTH : positive.
Variable HANS_DATASET_INTEGER_IDENTIFIERS : list Z.

Abbreviation t5_step := (T5._step forward_logits softmax loss_criterion
                           T5_LABEL_PAD_LENGTH HANS_DATASET_INTEGER_IDENTIFIERS).

Abbreviation t5_well_shaped := (well_shaped forward_logits softmax
                                  loss_criterion T5_LABEL_PAD_LENGTH).

(** What [_step] does once the tensor operations before the data-set test
    have gone through. *)
Lemma t5_step_well_shaped (b : T5.batch) :
  t5_well_shaped b ->
  exists loss g,
    T5.gather3 (map (map softmax) (forward_logits b)) (T5.target_input_ids b)
      = Ok g /\
    t5_step b =
      (dataset0 ← Tensor.first_item (T5.dataset b);
       _ ← (if existsb (Z.eqb dataset0) HANS_DATASET_INTEGER_IDENTIFIERS
            then Raise NotImplementedError else Ok tt);
       let true_pred :=
         zip_with (fun m ix => Tensor.b2q (bool_decide (map argmax_row m = ix)))
           (forward_logits b) (T5.target_input_ids b) in
       Ok {| loss := Tensor.mean loss;
             acc := Tensor.mean true_pred;
             count := inject_Z (Z.of_nat (length (T5.target_input_ids b)));
             datapoint_idx := T5.idx b;
             datapoint_dataset := T5.dataset b;
             datapoint_label := T5.labels b;
             datapoint_handcrafted_type := T5.handcrafted_type b;
             datapoint_heuristic :=
               match T5.heuristic b with
               | Some h => h
               | None => map (fun _ => -1) true_pred
               end;
             datapoint_loss := loss;
             datapoint_pred := replicate (length (T5.target_input_ids b)) (-1);
             datapoint_true_pred := true_pred;
             datapoint_prob :=
               Prob1 (replicate (length (T5.target_input_ids b)) (-1));
             datapoint_true_prob := map Tensor.qprod g |}).
Proof.
  intros (Hshape & Hloss & Hsm).
  destruct (gather3_total softmax _ _ Hsm Hshape) as [g Hg].
  eexists _, g. split; [exact Hg|].
  unfold T5._step, T5.resize. rewrite Hloss, Nat.eqb_refl. simpl.
  rewrite (traverse_argmax_logits _ _ Hshape). simpl.
  rewrite eq2_same_shape.
  2:{ clear -Hshape. induction Hshape as [|m ix l t Hm _ IH]; simpl; constructor.
      - rewrite length_map. by eapply Forall2_length.
      - exact IH. }
  simpl. rewrite Hg. simpl.
  replace (map (fun r => Tensor.b2q (forallb (fun x => x) r))
             (zip_with (zip_with Z.eqb) (map (map argmax_row) (forward_logits b))
                (T5.target_input_ids b)))
    with (zip_with (fun m ix => Tensor.b2q (bool_decide (map argmax_row m = ix)))
            (forward_logits b) (T5.target_input_ids b)).
  2:{ clear -Hshape. induction Hshape as [|m ix l t Hm _ IH]; simpl; [done|].
      rewrite IH. f_equal. f_equal. symmetry. apply forallb_zip_eqb.
      rewrite length_map. by eapply Forall2_length. }
  unfold T5.full. rewrite fmap_replicate, length_replicate. reflexivity.
Qed.

(** C9.  On a batch whose first example belongs to a HANS data set,
    [T5ForNLI._step] returns no result dictionary, whatever the network
    answers; on a well-shaped batch the exception is
    [NotImplementedError]. *)
Theorem t5_step_hans_not_implemented (b : T5.batch) (d0 : Z) (ds' : list Z) :
  T5.dataset b = d0 :: ds' ->
  In d0 HANS_DATASET_INTEGER_IDENTIFIERS ->
  is_ok (t5_step b) = false /\
  (t5_well_shaped b -> t5_step b = Raise NotImplementedError).
Proof.
  intros Hds Hin. apply existsb_eqb_In in Hin. split.
  - destruct (t5_step b) as [r|e] eqn:Hstep; [|done].
    exfalso. unfold T5._step in Hstep. destruct_bind Hstep.
    rewrite Hds in *. simpl in *.
    match goal with H : Ok d0 = Ok _ |- _ => inversion H; subst end.
    match goal with H : (if existsb _ _ then _ else _) = Ok _ |- _ =>
      rewrite Hin in H; discriminate H end.
  - intros Hw. destruct (t5_step_well_shaped b Hw) as (loss & g & _ & ->).
    rewrite Hds. simpl. by rewrite Hin.
Qed.

(** C10.  On a well-shaped batch whose first example belongs to no HANS
    data set, [T5ForNLI._step] returns a dictionary whose [datapoint_pred]
    and [datapoint_prob] hold -1 for every example, while
    [datapoint_true_pred] says whether the arg-max token of every target
    position is the target token and [datapoint_true_prob] is the product
    of the softmax probabilities of the target tokens. *)
Theorem t5_step_sentinels (b : T5.batch) (d0 : Z) (ds' : list Z) :
  T5.dataset b = d0 :: ds' ->
  ~ In d0 HANS_DATASET_INTEGER_IDENTIFIERS ->
  t5_well_shaped b ->
  exists r g,
    t5_step b = Ok r /\
    datapoint_pred r = replicate (length (T5.target_input_ids b)) (-1) /\
    datapoint_prob r = Prob1 (replicate (length (T5.target_input_ids b)) (-1)) /\
    datapoint_true_pred r
      = zip_with (fun m ix => Tensor.b2q (bool_decide (map argmax_row m = ix)))
          (forward_logits b) (T5.target_input_ids b) /\
    T5.gather3 (map (map softmax) (forward_logits b)) (T5.target_input_ids b)
      = Ok g /\
    datapoint_true_prob r = map Tensor.qprod g.
Proof.
  intros Hds Hnin Hw.
  destruct (t5_step_well_shaped b Hw) as (loss & g & Hg & ->).
  rewrite Hds. simpl.
  destruct (existsb (Z.eqb d0) HANS_DATASET_INTEGER_IDENTIFIERS) eqn:He.
  { apply existsb_eqb_In in He. by destruct Hnin. }
  simpl. eexists _, g. by repeat split.
Qed.

End T5Step.

Lemma t5_example_well_shaped (b : T5.batch) :
  T5.target_input_ids b = [[1; 0]; [2; 0]] ->
  well_shaped T5Example.forward_logits T5Example.softmax
    T5Example.loss_criterion T5Example.pad b.
Proof.
  intros Ht. unfold well_shaped, T5Example.forward_logits. rewrite Ht.
  split; [|split].
  - repeat (constructor; [repeat (constructor; [simpl; lia|]); constructor|]).
    constructor.
  - reflexivity.
  - intros l. unfold T5Example.softmax. by rewrite length_map.
Defined.

Lemma t5_step_hans_not_implemented_witness :
  T5.dataset T5Example.hans_batch = 5 :: [5] /\
  In 5 T5Example.hans_ids /\
  is_ok (T5._step T5Example.forward_logits T5Example.softmax
           T5Example.loss_criterion T5Example.pad T5Example.hans_ids
           T5Example.hans_batch) = false /\
  T5._step T5Example.forward_logits T5Example.softmax
    T5Example.loss_criterion T5Example.pad T5Example.hans_ids
    T5Example.hans_batch = Raise NotImplementedError.
Proof.
  assert (Hin : In 5 T5Example.hans_ids) by (simpl; tauto).
  split; [reflexivity|]. split; [exact Hin|].
  destruct (t5_step_hans_not_implemented T5Example.forward_logits
              T5Example.softmax T5Example.loss_criterion T5Example.pad
              T5Example.hans_ids T5Example.hans_batch 5 [5] eq_refl Hin)
    as [H1 H2].
  split; [exact H1|].
  apply H2. by apply t5_example_well_shaped.
Defined.

Lemma t5_step_sentinels_witness :
  T5.dataset T5Example.mnli_batch = 1 :: [1] /\
  ~ In 1 T5Example.hans_ids /\
  exists r,
    T5._step T5Example.forward_logits T5Example.softmax
      T5Example.loss_criterion T5Example.pad T5Example.hans_ids
      T5Example.mnli_batch = Ok r /\
    datapoint_pred r = [-1; -1] /\
    datapoint_prob r = Prob1 [-1; -1] /\
    datapoint_true_pred r = [1%Q; 1%Q].
Proof.
  assert (Hnin : ~ In 1 T5Example.hans_ids).
  { simpl. intros [H|[H|[]]]; discriminate H. }
  split; [reflexivity|]. split; [exact Hnin|].
  destruct (t5_step_sentinels T5Example.forward_logits
              T5Example.softmax T5Example.loss_criterion T5Example.pad
              T5Example.hans_ids T5Example.mnli_batch 1 [1] eq_refl Hnin)
    as (r & g & Hstep & Hpred & Hprob & Htp & _).
  { by apply t5_example_well_shaped. }
  exists r. split; [exact Hstep|]. split; [exact Hpred|].
  split; [exact Hprob|]. rewrite Htp. reflexivity.
Defined.

(** ** Epoch-end breakdowns *)

Lemma for_each_appends {A} (l : list A) (body : A -> M unit)
    (f : A -> metric_log) :
  (forall a st, In a l -> body a st = (Ok tt, st ++ f a)) ->
  forall st, for_each l body st = (Ok tt, st ++ concat (map f l)).
Proof.
  induction l as [|a l IH]; intros Hbody st; simpl.
  - by rewrite app_nil_r.
  - unfold bindM. rewrite Hbody by (by left).
    rewrite IH by (intros; apply Hbody; by right).
    by rewrite <- app_assoc.
Qed.

Section Masks.

Variable heuristic_idx : Z.
Variable target_label : Z.

Lemma select_group (hs ls : list Z) (los : list Q) (ps : list Z) :
  length hs = length ls -> length ls = length los -> length los = length ps ->
  let grp := filter (in_group heuristic_idx target_label)
               (zip (zip (zip hs ls) los) ps) in
  Numpy.select los (hans_mask heuristic_idx target_label hs ls) = map ex_loss grp /\
  Numpy.select ps (hans_mask heuristic_idx target_label hs ls) = map ex_pred grp /\
  Numpy.select ls (hans_mask heuristic_idx target_label hs ls) = map ex_label grp /\
  Numpy.count (hans_mask heuristic_idx target_label hs ls) = length grp.
Proof.
  revert ls los ps.
  induction hs as [|h hs IH]; intros [|l ls] [|lo los] [|p ps] H1 H2 H3;
    simpl in *; try done.
  destruct (IH ls los ps) as (IHa & IHb & IHc & IHd); [lia..|].
  unfold hans_mask in *. simpl.
  unfold Numpy.count in *. rewrite !filter_cons.
  destruct (Z.eqb_spec h heuristic_idx) as [Hh|Hh];
    destruct (Z.eqb_spec l target_label) as [Hl|Hl]; simpl.
  - destruct (decide (in_group heuristic_idx target_label (h, l, lo, p))) as [_|Hn];
      [|destruct Hn; by split].
    destruct (decide (true = true)); [|done].
    simpl. by rewrite IHa, IHb, IHc, IHd.
  - destruct (decide (in_group heuristic_idx target_label (h, l, lo, p))) as [[_ Hc]|_]; [by destruct Hl|].
    destruct (decide (false = true)); [done|].
    by rewrite IHa, IHb, IHc, IHd.
  - destruct (decide (in_group heuristic_idx target_label (h, l, lo, p))) as [[Hc _]|_]; [by destruct Hh|].
    destruct (decide (false = true)); [done|].
    by rewrite IHa, IHb, IHc, IHd.
  - destruct (decide (in_group heuristic_idx target_label (h, l, lo, p))) as [[Hc _]|_]; [by destruct Hh|].
    destruct (decide (false = true)); [done|].
    by rewrite IHa, IHb, IHc, IHd.
Qed.

End Masks.

Lemma zip_with_eqb_group (grp : list (Z * Z * Q * Z)) :
  zip_with Z.eqb (map ex_pred grp) (map ex_label grp)
  = map (fun e => Z.eqb (ex_pred e) (ex_label e)) grp.
Proof. induction grp as [|e grp IH]; simpl; [done | by rewrite IH]. Qed.

Lemma numpy_and_same_length (a b : list bool) :
  length a = length b -> Numpy.and a b = Ok (zip_with andb a b).
Proof. intros H. unfold Numpy.and. by rewrite H, Nat.eqb_refl. Qed.

Lemma numpy_eq_same_length (a b : list Z) :
  length a = length b -> Numpy.eq a b = Ok (zip_with Z.eqb a b).
Proof. intros H. unfold Numpy.eq. by rewrite H, Nat.eqb_refl. Qed.

Lemma getmask_same_length {A} (a : list A) (mask : list bool) :
  length a = length mask -> Numpy.getmask a mask = Ok (Numpy.select a mask).
Proof. intros H. unfold Numpy.getmask. by rewrite H, Nat.eqb_refl. Qed.

Section HansEpochEnd.

Variable HEURISTIC_TO_INTEGER : list (string * Z).

(** C8.  On a table whose arrays have one length, [_log_hans_epoch_end]
    raises nothing and appends to the log, for every pair of a two-way
    label and a heuristic in loop order: nothing when no example has that
    label and that heuristic, and otherwise the mean loss of these
    examples followed by the mean of [pred == label] over them. *)
Theorem log_hans_epoch_end_spec (prefix dataset_str : string)
    (t : Epoch.table) (st : metric_log) :
  length (Epoch.t_heuristic t) = length (Epoch.t_label t) ->
  length (Epoch.t_label t) = length (Epoch.t_loss t) ->
  length (Epoch.t_loss t) = length (Epoch.t_pred t) ->
  Epoch._log_hans_epoch_end HEURISTIC_TO_INTEGER prefix dataset_str t st
  = (Ok tt,
     st ++ concat (map (fun tl =>
                          concat (map (hans_entries prefix t tl)
                                    HEURISTIC_TO_INTEGER))
                     Epoch.hans_labels)) /\
  forall tl h,
    (hans_group t (snd h) (fst tl) = [] -> hans_entries prefix t tl h = []) /\
    (hans_group t (snd h) (fst tl) <> [] ->
     hans_entries prefix t tl h
     = [(Epoch.hans_loss_key prefix (snd tl) (fst h),
         Tensor.mean (map ex_loss (hans_group t (snd h) (fst tl))));
        (Epoch.hans_acc_key prefix (snd tl) (fst h),
         Tensor.mean (map (fun e => Tensor.b2q (Z.eqb (ex_pred e) (ex_label e)))
                        (hans_group t (snd h) (fst tl))))]).
Proof.
  intros H1 H2 H3. split.
  - unfold Epoch._log_hans_epoch_end.
    apply for_each_appends. intros tl st1 _.
    apply for_each_appends. intros h st2 _.
    destruct (select_group (snd h) (fst tl) (Epoch.t_heuristic t)
                (Epoch.t_label t) (Epoch.t_loss t) (Epoch.t_pred t) H1 H2 H3)
      as (Hlo & Hp & Hl & Hc).
    fold (examples t) in Hlo, Hp, Hl, Hc.
    fold (hans_group t (snd h) (fst tl)) in Hlo, Hp, Hl, Hc.
    unfold bindM, lift.
    rewrite numpy_and_same_length by (rewrite !length_map; lia).
    fold (hans_mask (snd h) (fst tl) (Epoch.t_heuristic t) (Epoch.t_label t)).
    rewrite Hc. unfold hans_entries.
    destruct (hans_group t (snd h) (fst tl)) as [|e grp] eqn:Hg.
    + simpl. unfold retM. by rewrite app_nil_r.
    + assert (Hm : length (hans_mask (snd h) (fst tl) (Epoch.t_heuristic t)
                             (Epoch.t_label t)) = length (Epoch.t_label t)).
      { unfold hans_mask. rewrite length_zip_with, !length_map. lia. }
      cbn [length Nat.eqb].
      rewrite !getmask_same_length by lia.
      rewrite Hlo, Hp, Hl.
      rewrite numpy_eq_same_length by (by rewrite !length_map).
      rewrite zip_with_eqb_group, map_map.
      unfold log_metric. by rewrite <- app_assoc.
  - intros tl h. unfold hans_entries. split.
    + by intros ->.
    + intros Hne. by destruct (hans_group t (snd h) (fst tl)).
Qed.

End HansEpochEnd.

Lemma log_hans_epoch_end_spec_witness :
  length (Epoch.t_heuristic EpochExample.hans_table)
    = length (Epoch.t_label EpochExample.hans_table) /\
  length (Epoch.t_label EpochExample.hans_table)
    = length (Epoch.t_loss EpochExample.hans_table) /\
  length (Epoch.t_loss EpochExample.hans_table)
    = length (Epoch.t_pred EpochExample.hans_table) /\
  Epoch._log_hans_epoch_end EpochExample.HEURISTIC_TO_INTEGER
    "Valid" "hans_validation" EpochExample.hans_table []
  = (Ok tt,
     [("Valid/Hans_loss/entailment__lexical_overlap"%string, Some (4 # 2)%Q);
      ("Valid/Hans_acc/entailment__lexical_overlap"%string, Some (1 # 2)%Q);
      ("Valid/Hans_loss/non_entailment__subsequence"%string, Some (2 # 1)%Q);
      ("Valid/Hans_acc/non_entailment__subsequence"%string, Some (1 # 1)%Q)]).
Proof.
  split; [reflexivity|]. split; [reflexivity|]. split; [reflexivity|].
  destruct (log_hans_epoch_end_spec EpochExample.HEURISTIC_TO_INTEGER
              "Valid" "hans_validation" EpochExample.hans_table []
              eq_refl eq_refl eq_refl) as [H _].
  rewrite H. vm_compute. reflexivity.
Defined.

(** X21.  What [_log_mnli_epoch_end] logs on any table: for every
    handcrafted type, the means over all examples.  The three arrays are bound as
    one-element tuples, so the comparison with the type is [False] and
    indexes the tuple at 0. *)
Lemma log_mnli_epoch_end_overall (HandcraftedType : list (string * Z))
    (prefix dataset_str : string) (t : Epoch.table) (st : metric_log) :
  Epoch._log_mnli_epoch_end HandcraftedType prefix dataset_str t st
  = (Ok tt,
     st ++ concat (map (fun m =>
                          [(mnli_loss_key prefix dataset_str (fst m),
                            Tensor.mean (Epoch.t_loss t));
                           (mnli_acc_key prefix dataset_str (fst m),
                            Tensor.mean (Epoch.t_true_pred t))])
                     HandcraftedType)).
Proof.
  unfold Epoch._log_mnli_epoch_end.
  apply for_each_appends. intros m st1 _.
  unfold bindM, lift, log_metric, tuple1_getitem, tuple1_eq_int.
  by rewrite <- app_assoc.
Qed.

(** C5 at a failing input.  On two MNLI examples with handcrafted types 0
    and 1, losses 1 and 3, and correctness flags 1 and 0, the loss logged
    for each type is the mean 2 of both losses and the accuracy logged for
    each type is 1/2, whereas the means under the mask of type 0 are 1 and
    1, and those under the mask of type 1 are 3 and 0. *)
Theorem log_mnli_epoch_end_ignores_mask :
  Epoch._log_mnli_epoch_end EpochExample.HandcraftedType "Valid"
    "mnli_validation_matched" EpochExample.mnli_table []
  = (Ok tt,
     [("Valid/HandcraftedType/mnli_validation_matched_standard_loss"%string,
       Some (4 # 2)%Q);
      ("Valid/HandcraftedType/mnli_validation_matched_standard_accuracy"%string,
       Some (1 # 2)%Q);
      ("Valid/HandcraftedType/mnli_validation_matched_negation_loss"%string,
       Some (4 # 2)%Q);
      ("Valid/HandcraftedType/mnli_validation_matched_negation_accuracy"%string,
       Some (1 # 2)%Q)]) /\
  loss_of_type EpochExample.mnli_table 0 = Some (1 # 1)%Q /\
  acc_of_type EpochExample.mnli_table 0 = Some (1 # 1)%Q /\
  loss_of_type EpochExample.mnli_table 1 = Some (3 # 1)%Q /\
  acc_of_type EpochExample.mnli_table 1 = Some (0 # 1)%Q /\
  Tensor.float_eqb (Some (4 # 2)%Q) (loss_of_type EpochExample.mnli_table 0)
    = false.
Proof. vm_compute. repeat split; reflexivity. Qed.

(** ** The accuracy cross-check of [_epoch_end] *)

Section EpochEnd.

Variable INTEGER_TO_DATASET : gmap Z string.
Variable INTEGER_TO_HEURISTIC : gmap Z string.
Variable HEURISTIC_TO_INTEGER : list (string * Z).
Variable HandcraftedType : list (string * Z).
Variable MNLI_DATASET_INTEGER_IDENTIFIERS : list Z.
Variable SNLI_DATASET_INTEGER_IDENTIFIERS : list Z.
Variable HANS_DATASET_INTEGER_IDENTIFIERS : list Z.

Abbreviation epoch_end :=
  (Epoch._epoch_end INTEGER_TO_DATASET INTEGER_TO_HEURISTIC
     HEURISTIC_TO_INTEGER HandcraftedType MNLI_DATASET_INTEGER_IDENTIFIERS
     SNLI_DATASET_INTEGER_IDENTIFIERS HANS_DATASET_INTEGER_IDENTIFIERS).

(** The assertion is a run-time check: [_epoch_end] completes only if the
    mean of the correctness flags equals the mean of [pred == label]. *)
Lemma epoch_end_ok_cross_check (split : string) (results_list : list results)
    (st st' : metric_log) :
  epoch_end split results_list st = (Ok tt, st') ->
  exists t e a a',
    Epoch.parse_results results_list = Ok t /\
    Numpy.eq (Epoch.t_pred t) (Epoch.t_label t) = Ok e /\
    Tensor.mean (Epoch.t_true_pred t) = Some a /\
    Tensor.mean (map Tensor.b2q e) = Some a' /\
    (a == a')%Q.
Proof.
  unfold Epoch._epoch_end, bindM, lift. intros H.
  destruct results_list as [|first rest]; [discriminate|].
  destruct (Tensor.first_item (datapoint_dataset first)); [|discriminate].
  destruct (Epoch.dict_get INTEGER_TO_DATASET a); [|discriminate].
  destruct (Epoch.parse_results (first :: rest)) as [t|] eqn:Ht;
    [|discriminate].
  destruct (py_assert _); [|discriminate].
  destruct (Tensor.traverse _ (Epoch.t_heuristic t)); [|discriminate].
  destruct (Tensor.traverse _ (Epoch.t_handcrafted_type t)); [|discriminate].
  unfold Epoch.acc_cross_check in *.
  destruct (Numpy.eq (Epoch.t_pred t) (Epoch.t_label t)) as [e|] eqn:He;
    [|discriminate].
  simpl in H.
  destruct (Tensor.mean (Epoch.t_true_pred t)) as [x|] eqn:Hx;
    [|discriminate].
  destruct (Tensor.mean (map Tensor.b2q e)) as [y|] eqn:Hy;
    [|discriminate].
  simpl in H. destruct (Qeq_bool x y) eqn:Hxy; [|discriminate].
  exists t, e, x, y. repeat split; try done. by apply Qeq_bool_iff.
Qed.

End EpochEnd.

(** C1 at a failing input.  The stand-in network predicts both target
    sequences of an MNLI batch right; [T5ForNLI._step] then returns
    correctness flags 1 and 1 next to the predictions -1 and -1, which
    equal neither label; the cross-check compares the means 1 and 0, and
    [_epoch_end] raises [AssertionError] on this result list, before it
    logs anything. *)
Theorem epoch_end_rejects_t5_results :
  exists r,
    T5._step T5Example.forward_logits T5Example.softmax
      T5Example.loss_criterion T5Example.pad T5Example.hans_ids
      T5Example.mnli_batch = Ok r /\
    datapoint_true_pred r = [1; 1]%Q /\
    datapoint_pred r = [-1; -1] /\
    datapoint_label r = [1; 2] /\
    (t ← Epoch.parse_results [r]; Epoch.acc_cross_check t) = Ok false /\
    Epoch._epoch_end EpochExample.INTEGER_TO_DATASET
      EpochExample.INTEGER_TO_HEURISTIC EpochExample.HEURISTIC_TO_INTEGER
      EpochExample.HandcraftedType
      EpochExample.MNLI_DATASET_INTEGER_IDENTIFIERS
      EpochExample.SNLI_DATASET_INTEGER_IDENTIFIERS
      EpochExample.HANS_DATASET_INTEGER_IDENTIFIERS
      "Train" [r] []
    = (Raise AssertionError, []).
Proof.
  eexists. split; [vm_compute; reflexivity|].
  vm_compute. repeat split; reflexivity.
Qed.

Lemma bert_step_flags_follow_pred
    (forward_logits : Bert.batch -> list (Q * Q * Q))
    (softmax : Q * Q * Q -> Q * Q * Q) (ln : Q -> Q)
    (loss_criterion : list (list Q) -> list (list Q) -> list Q)
    (hans_train hans_validation : Z) (b : Bert.batch) (r : results) :
  length (forward_logits b) = length (Bert.dataset b) ->
  length (Bert.labels b) = length (Bert.dataset b) ->
  Bert._step forward_logits softmax ln loss_criterion hans_train
    hans_validation b = Ok r ->
  flags_follow_pred r.
Proof.
  intros Hlen Hlab Hstep. unfold Bert._step in Hstep.
  rewrite remap_hans_train_rows in Hstep by (by rewrite length_map).
  destruct_bind Hstep.
  inversion Hstep; subst r; clear Hstep.
  match goal with
  | H : Tensor.traverse Tensor.argmax _ = Ok ?p,
    Hb : Tensor.broadcast2 _ ?p _ = Ok ?tp |- _ =>
      apply traverse_ok_length in H;
      assert (Hlp : length p = length (Bert.labels b));
      [ rewrite H; unfold Bert.remap_hans_validation;
        destruct (Z.eqb _ _);
        rewrite length_map, length_zip_with, length_map; lia
      | rewrite broadcast2_same_length in Hb by exact Hlp;
        inversion Hb; subst tp ]
  end.
  by split.
Qed.

Lemma zip_with_concat_eqb (rs : list results) :
  Forall (fun r => length (datapoint_pred r) = length (datapoint_label r)) rs ->
  length (Epoch.cat datapoint_pred rs) = length (Epoch.cat datapoint_label rs) /\
  zip_with Z.eqb (Epoch.cat datapoint_pred rs) (Epoch.cat datapoint_label rs)
  = concat (map (fun r => zip_with Z.eqb (datapoint_pred r) (datapoint_label r)) rs).
Proof.
  unfold Epoch.cat. induction 1 as [|r rs Hr _ [IH1 IH2]]; [done|].
  simpl. split.
  - rewrite !length_app. lia.
  - rewrite zip_with_app by exact Hr. by rewrite IH2.
Qed.

(** The cross-check holds on every non-empty table concatenated from
    dictionaries whose flags follow their predictions, as those of
    [BertForNLI._step] do. *)
Lemma cross_check_passes (rs : list results) (t : Epoch.table) :
  Forall flags_follow_pred rs ->
  Epoch.parse_results rs = Ok t ->
  Epoch.t_true_pred t <> [] ->
  Epoch.acc_cross_check t = Ok true.
Proof.
  intros Hrs Ht Hne. unfold Epoch.parse_results in Ht.
  destruct (Epoch.cat_prob _); [|discriminate]. simpl in Ht.
  inversion Ht; subst t; clear Ht. simpl in *.
  destruct (zip_with_concat_eqb rs) as [Hlen Hzip].
  { eapply Forall_impl; [exact Hrs|]. by intros r [H _]. }
  unfold Epoch.acc_cross_check. simpl.
  rewrite numpy_eq_same_length by exact Hlen. simpl. rewrite Hzip.
  assert (Heq : map Tensor.b2q
                  (concat (map (fun r => zip_with Z.eqb (datapoint_pred r)
                                           (datapoint_label r)) rs))
                = Epoch.catq datapoint_true_pred rs).
  { unfold Epoch.catq. clear -Hrs.
    induction Hrs as [|r rs [_ Hr] _ IH]; [done|].
    simpl. by rewrite map_app, IH, Hr. }
  rewrite Heq.
  destruct (Epoch.catq datapoint_true_pred rs) as [|x l] eqn:Hc; [done|].
  simpl. f_equal. apply Qeq_bool_iff. reflexivity.
Qed.

(** ** Warm-up configuration *)

(** [BertForNLI.configure_optimizers] takes exactly one of the two warm-up
    hyper-parameters: both or neither is a [ValueError]; one of them, with
    known optimizer and scheduler names, gives the warm-up step count. *)
Lemma bert_configure_optimizers_warmup (hp : hparams)
    (named_parameters : list string) (train_steps : Z) :
  match warmup_steps hp, warmup_ratio hp with
  | Some _, Some _ | None, None =>
      Bert.configure_optimizers hp named_parameters train_steps
      = Raise ValueError
  | Some ws, None =>
      known_names hp ->
      exists c,
        Bert.configure_optimizers hp named_parameters train_steps = Ok c /\
        oc_num_warmup_steps c = inject_Z ws
  | None, Some wr =>
      known_names hp ->
      exists c,
        Bert.configure_optimizers hp named_parameters train_steps = Ok c /\
        oc_num_warmup_steps c = (inject_Z train_steps * wr)%Q
  end.
Proof.
  unfold Bert.configure_optimizers, known_names.
  destruct (warmup_steps hp) as [ws|], (warmup_ratio hp) as [wr|].
  - by repeat destruct (String.eqb _ _).
  - intros [[-> | ->] [-> | ->]]; simpl; by eexists.
  - intros [[-> | ->] [-> | ->]]; simpl; by eexists.
  - by repeat destruct (String.eqb _ _).
Qed.

(** [T5ForNLI.configure_optimizers] does the same as long as the one
    hyper-parameter given is not zero. *)
Lemma t5_configure_optimizers_warmup (hp : hparams)
    (named_parameters : list string) (train_steps : Z) :
  match warmup_steps hp, warmup_ratio hp with
  | Some _, Some _ | None, None =>
      T5.configure_optimizers hp named_parameters train_steps
      = Raise ValueError
  | Some ws, None =>
      known_names hp ->
      if Z.eqb ws 0
      then T5.configure_optimizers hp named_parameters train_steps
           = Raise ValueError
      else exists c,
          T5.configure_optimizers hp named_parameters train_steps = Ok c /\
          oc_num_warmup_steps c = inject_Z ws
  | None, Some wr =>
      known_names hp ->
      if Qeq_bool wr 0
      then T5.configure_optimizers hp named_parameters train_steps
           = Raise ValueError
      else exists c,
          T5.configure_optimizers hp named_parameters train_steps = Ok c /\
          oc_num_warmup_steps c = (inject_Z train_steps * wr)%Q
  end.
Proof.
  unfold T5.configure_optimizers, known_names, T5.truthy_int, T5.truthy_float.
  destruct (warmup_steps hp) as [ws|], (warmup_ratio hp) as [wr|].
  - by repeat destruct (String.eqb _ _).
  - intros [[-> | ->] [-> | ->]]; simpl; destruct (Z.eqb ws 0); simpl;
      try done; by eexists.
  - intros [[-> | ->] [-> | ->]]; simpl; destruct (Qeq_bool wr 0); simpl;
      try done; by eexists.
  - by repeat destruct (String.eqb _ _).
Qed.

(** C4 at a failing input.  With [warmup_steps = 0] and no
    [warmup_ratio], or with [warmup_ratio = 0.0] and no [warmup_steps],
    exactly one of the two is given: [BertForNLI.configure_optimizers]
    returns with a warm-up of 0 steps, and
    [T5ForNLI.configure_optimizers] raises [ValueError]. *)
Theorem t5_configure_optimizers_rejects_zero :
  T5.configure_optimizers WarmupExample.zero_steps
    WarmupExample.named_parameters 1000 = Raise ValueError /\
  T5.configure_optimizers WarmupExample.zero_ratio
    WarmupExample.named_parameters 1000 = Raise ValueError /\
  (oc_num_warmup_steps <$>
     Bert.configure_optimizers WarmupExample.zero_steps
       WarmupExample.named_parameters 1000) = Ok (0 # 1)%Q /\
  (oc_num_warmup_steps <$>
     Bert.configure_optimizers WarmupExample.zero_ratio
       WarmupExample.named_parameters 1000) = Ok (0 # 1)%Q.
Proof. vm_compute. repeat split; reflexivity. Qed.

(** ** The optimizer-string parser *)

Lemma parse_item_ok d x d' :
  Mutils.parse_item d x = Ok d' ->
  exists name value v,
    Mutils.split "=" x = [name; value] /\
    Mutils.re_match_anchored Mutils.numeric_literal value = true /\
    Mutils.py_float value = Ok v /\
    d' = <[name := v]> d.
Proof.
  unfold Mutils.parse_item. intros H.
  destruct (Mutils.split "=" x) as [|name [|value [|? ?]]]; try discriminate.
  simpl in H.
  destruct (Mutils.re_match_anchored Mutils.numeric_literal value) eqn:Hre;
    [|discriminate].
  simpl in H. destruct (Mutils.py_float value) as [v|] eqn:Hv; [|discriminate].
  simpl in H. inversion H. by exists name, value, v.
Qed.

Lemma parse_items_ok items : forall d d',
  Mutils.parse_items d items = Ok d' ->
  Forall well_formed_item items /\
  forall k,
    d' !! k = match last_value items k with
              | Some value =>
                  match Mutils.py_float value with
                  | Ok v => Some v
                  | Raise _ => None
                  end
              | None => d !! k
              end.
Proof.
  induction items as [|x items IH]; intros d d' H; simpl in H.
  - inversion H; subst. by split.
  - destruct (Mutils.parse_item d x) as [d1|] eqn:Hx; [|discriminate].
    simpl in H. destruct (IH d1 d' H) as [Hall Hlook].
    destruct (parse_item_ok _ _ _ Hx) as (name & value & v & Hs & Hre & Hv & ->).
    split.
    + constructor; [|exact Hall]. by exists name, value, v.
    + intros k. rewrite Hlook. simpl.
      destruct (last_value items k); [done|].
      rewrite Hs. destruct (String.eqb_spec name k) as [->|Hne].
      * by rewrite Hv, lookup_insert_eq.
      * by rewrite lookup_insert_ne.
Qed.

Lemma last_value_is_some items x name value :
  In x items -> Mutils.split "=" x = [name; value] ->
  is_Some (last_value items name).
Proof.
  induction items as [|y items IH]; intros Hin Hs; [done|].
  simpl. destruct Hin as [->|Hin].
  - destruct (last_value items name); [by eexists|].
    rewrite Hs, String.eqb_refl. by eexists.
  - destruct (IH Hin Hs) as [v ->]. by eexists.
Qed.

Lemma last_value_from_item items k value :
  last_value items k = Some value ->
  exists x, In x items /\ Mutils.split "=" x = [k; value].
Proof.
  induction items as [|y items IH]; [done|]. simpl.
  destruct (last_value items k) as [v'|] eqn:Hl.
  - intros H; inversion H; subst. destruct (IH eq_refl) as (x & Hin & Hs).
    exists x. split; [by right | done].
  - destruct (Mutils.split "=" y) as [|name [|val [|? ?]]] eqn:Hs; try done.
    destruct (String.eqb_spec name k) as [->|]; [|done].
    intros H; inversion H; subst. exists y. split; [by left | done].
Qed.

Lemma select_optim_known method d o :
  Mutils.select_optim method d = Ok o ->
  optim_of_method method = Some o /\
  (o = Mutils.SGD -> is_Some (d !! "lr"%string)).
Proof.
  unfold Mutils.select_optim, optim_of_method. simpl.
  repeat match goal with
         | |- context [String.eqb method ?m] =>
             destruct (String.eqb method m); simpl;
             [first [ intros H; inversion H; subst; split;
                      [reflexivity | discriminate]
                    | idtac ] |]
         end.
  - destruct (bool_decide _) eqn:Hlr; simpl; [|discriminate].
    intros H; inversion H; subst. split; [done|].
    intros _. by apply bool_decide_eq_true in Hlr.
  - discriminate.
Qed.

Lemma select_optim_complete method (d : gmap string Q) o :
  optim_of_method method = Some o ->
  (o = Mutils.SGD -> is_Some (d !! "lr"%string)) ->
  Mutils.select_optim method d = Ok o.
Proof.
  unfold Mutils.select_optim, optim_of_method. simpl.
  repeat match goal with
         | |- context [String.eqb method ?m] =>
             destruct (String.eqb method m); simpl;
             [first [ by intros H; inversion H | idtac ] |]
         end.
  - intros H Hlr. inversion H; subst.
    rewrite bool_decide_eq_true_2 by (by apply Hlr). done.
  - discriminate.
Qed.

(** *** The pattern and [float] *)

Lemma nullable_lang r : Mutils.nullable r = true -> lang r [].
Proof.
  induction r; simpl; intros H; try discriminate.
  - constructor.
  - apply andb_true_iff in H as [H1 H2].
    change (@nil N) with (@nil N ++ []). constructor; auto.
  - apply orb_true_iff in H as [H|H]; [apply lang_alt_l | apply lang_alt_r]; auto.
  - constructor.
Qed.

Lemma deriv_lang r c : forall s, lang (Mutils.deriv c r) s -> lang r (c :: s).
Proof.
  induction r; simpl; intros s H.
  - inversion H.
  - inversion H.
  - destruct (p c) eqn:Hp; inversion H; subst. by constructor.
  - destruct (Mutils.nullable r1) eqn:Hn.
    + inversion H; subst.
      * match goal with H' : lang (Mutils.Seq _ _) _ |- _ => inversion H'; subst end.
        change (c :: s1 ++ s2) with ((c :: s1) ++ s2).
        constructor; auto.
      * change (c :: s) with ([] ++ c :: s).
        constructor; [by apply nullable_lang | auto].
    + inversion H; subst.
      change (c :: s1 ++ s2) with ((c :: s1) ++ s2).
      constructor; auto.
  - inversion H; subst; [apply lang_alt_l | apply lang_alt_r]; auto.
  - inversion H; subst.
    change (c :: s1 ++ s2) with ((c :: s1) ++ s2).
    constructor; auto.
Qed.

Lemma fullmatch_lang s : forall r, Mutils.fullmatch r s = true -> lang r s.
Proof.
  induction s as [|c s IH]; simpl; intros r H.
  - by apply nullable_lang.
  - by apply deriv_lang, IH.
Qed.

Lemma append_nil_l (s : string) : ("" +:+ s)%string = s.
Proof. reflexivity. Qed.

Lemma append_cons c (s1 s2 : string) :
  (String c s1 +:+ s2)%string = String c (s1 +:+ s2).
Proof. reflexivity. Qed.

Lemma append_nil_r (s : string) : (s +:+ "")%string = s.
Proof. induction s as [|c s IH]; [done|]. by rewrite append_cons, IH. Qed.

Lemma lang_star_digits s :
  lang (Mutils.Star (Mutils.Chr Mutils.is_digit)) s ->
  forallb Mutils.is_digit s = true.
Proof.
  remember (Mutils.Star (Mutils.Chr Mutils.is_digit)) as r eqn:Hr.
  induction 1 as [| | | | | |r' s1 s2 H1 _ H2 IH2]; try discriminate; [done|].
  inversion Hr; subst. inversion H1; subst.
  simpl. rewrite (IH2 eq_refl). by apply andb_true_iff.
Qed.

Lemma lang_plus_digits s :
  lang (Mutils.Plus (Mutils.Chr Mutils.is_digit)) s ->
  exists c s', s = c :: s' /\ Mutils.is_digit c = true /\
               forallb Mutils.is_digit s' = true.
Proof.
  intros H. inversion H as [| |r1 r2 s1 s2 H1 H2| | | |]; subst.
  inversion H1; subst. apply lang_star_digits in H2.
  simpl. eauto.
Qed.

Lemma lang_numeric_literal s :
  lang Mutils.numeric_literal s ->
  exists sg body,
    s = sg ++ body /\
    (sg = [] \/ exists c, sg = [c] /\ Mutils.is_sign c = true) /\
    unsigned_text body.
Proof.
  intros H. inversion H as [| |r1 r2 sg body Hsg Hbody| | | |]; subst.
  exists sg, body. split; [done|]. split.
  - inversion Hsg as [| | |? ? ? Hc|? ? ? He| |]; subst.
    + inversion Hc; subst. right. eauto.
    + inversion He. by left.
  - inversion Hbody as [| | |? ? ? Hl|? ? ? Hr| |]; subst.
    + left. inversion Hl as [| |? ? ds fs Hds Hfs| | | |]; subst.
      apply lang_plus_digits in Hds as (c & ds' & -> & Hc & Hds').
      exists c, ds', fs. repeat split; try done.
      inversion Hfs as [| | |? ? ? Hf|? ? ? He| |]; subst.
      * right. inversion Hf as [| |? ? d fd Hd Hfd| | | |]; subst.
        inversion Hd as [|? c' Hc'| | | | |]; subst.
        apply N.eqb_eq in Hc'. subst c'.
        apply lang_star_digits in Hfd. simpl. eauto.
      * inversion He. by left.
    + right. inversion Hr as [| |? ? d fd Hd Hfd| | | |]; subst.
      inversion Hd as [|? c' Hc'| | | | |]; subst.
      apply N.eqb_eq in Hc'. subst c'.
      apply lang_plus_digits in Hfd as (c & fd' & -> & Hc & Hfd').
      simpl. eauto.
Qed.

(** What [float] makes of the characters of the pattern. *)

Lemma to_decimal_spec c d :
  Mutils.to_decimal c = Some d ->
  (d < 10)%N /\ ((c < 127)%N -> (48 <= c <= 57)%N /\ d = (c - 48)%N).
Proof.
  unfold Mutils.to_decimal.
  destruct (List.find _ Mutils.digit_zeros) as [z|] eqn:Hz; [|done].
  simpl. intros H; inversion H; subst d; clear H.
  apply find_some in Hz as [Hin Hz].
  apply andb_true_iff in Hz as [H1 H2].
  apply N.leb_le in H1. apply N.ltb_lt in H2.
  split; [lia|]. intros Hc.
  assert (Hzeros : forallb (fun z => (z =? 48)%N || (1632 <=? z)%N)
                     Mutils.digit_zeros = true) by (vm_compute; reflexivity).
  rewrite forallb_forall in Hzeros. specialize (Hzeros z Hin).
  apply orb_true_iff in Hzeros as [Hz|Hz].
  - apply N.eqb_eq in Hz. subst z. lia.
  - apply N.leb_le in Hz. lia.
Qed.

Lemma space_not_decimal c :
  Mutils.is_unicode_space c = true -> Mutils.to_decimal c = None.
Proof.
  unfold Mutils.is_unicode_space. intros H.
  apply existsb_exists in H as (x & Hin & Hx). apply N.eqb_eq in Hx. subst x.
  assert (Hall : forallb (fun x => match Mutils.to_decimal x with
                                   | None => true
                                   | Some _ => false
                                   end) Mutils.unicode_spaces = true)
    by (vm_compute; reflexivity).
  rewrite forallb_forall in Hall. specialize (Hall c Hin).
  by destruct (Mutils.to_decimal c).
Qed.

Lemma to_ascii_digit c :
  Mutils.is_digit c = true ->
  exists a, Mutils.to_ascii_char c = Some a /\ Mutils.ascii_digit a = true.
Proof.
  unfold Mutils.is_digit, Mutils.to_ascii_char.
  destruct (Mutils.to_decimal c) as [d|] eqn:Hd; [|done]. intros _.
  destruct (to_decimal_spec c d Hd) as [Hlt Hascii].
  destruct (N.ltb_spec c 127) as [Hc|Hc].
  - destruct (Hascii Hc) as [Hr _]. eexists. split; [done|].
    unfold Mutils.ascii_digit. rewrite N_ascii_embedding by lia.
    apply andb_true_iff. split; apply N.leb_le; lia.
  - destruct (Mutils.is_unicode_space c) eqn:Hs.
    + apply space_not_decimal in Hs. congruence.
    + simpl. eexists. split; [done|].
      unfold Mutils.ascii_digit. rewrite N_ascii_embedding by lia.
      apply andb_true_iff. split; apply N.leb_le; lia.
Qed.

Lemma to_ascii_digits ds :
  forallb Mutils.is_digit ds = true ->
  all_digits (Mutils.to_ascii ds) = true /\
  forall rest, Mutils.to_ascii (ds ++ rest)
               = (Mutils.to_ascii ds +:+ Mutils.to_ascii rest)%string.
Proof.
  induction ds as [|c ds IH]; [done|]. simpl. intros H.
  apply andb_true_iff in H as [Hc Hds].
  destruct (to_ascii_digit c Hc) as (a & -> & Ha).
  destruct (IH Hds) as [IH1 IH2]. simpl. rewrite Ha, IH1.
  split; [done|]. intros rest. by rewrite IH2.
Qed.

Lemma to_ascii_sign c :
  Mutils.is_sign c = true ->
  exists a, Mutils.to_ascii_char c = Some a /\ Mutils.ascii_sign a = true.
Proof.
  unfold Mutils.is_sign. intros H.
  apply orb_true_iff in H as [H|H]; apply N.eqb_eq in H; subst c;
    by eexists.
Qed.

Lemma to_ascii_unsigned body :
  unsigned_text body ->
  unsigned_shape (Mutils.to_ascii body) /\
  forall rest, Mutils.to_ascii (body ++ rest)
               = (Mutils.to_ascii body +:+ Mutils.to_ascii rest)%string.
Proof.
  intros [(c & ds & fs & -> & Hc & Hds & Hfs)|(c & fd & -> & Hc & Hfd)].
  - destruct (to_ascii_digit c Hc) as (a & Hca & Ha).
    destruct (to_ascii_digits ds Hds) as [Hd1 Hd2].
    assert (Hfs' : (Mutils.to_ascii fs = ""%string \/
                    exists fd', Mutils.to_ascii fs = String "." fd' /\
                                all_digits fd' = true) /\
                   forall rest, Mutils.to_ascii (fs ++ rest)
                                = (Mutils.to_ascii fs
                                   +:+ Mutils.to_ascii rest)%string).
    { destruct Hfs as [->|(fd & -> & Hfd)]; [by split; [left|]|].
      destruct (to_ascii_digits fd Hfd) as [Hf1 Hf2].
      split; [right; by exists (Mutils.to_ascii fd)|].
      intros rest. simpl. change (Mutils.to_ascii_char 46) with (Some "."%char).
      by rewrite Hf2. }
    destruct Hfs' as [Hfs1 Hfs2].
    assert (Happ : forall rest,
              Mutils.to_ascii ((c :: ds ++ fs) ++ rest)
              = (String a (Mutils.to_ascii ds +:+ Mutils.to_ascii fs)
                 +:+ Mutils.to_ascii rest)%string).
    { intros rest. simpl. rewrite Hca, <- app_assoc, Hd2, Hfs2.
      rewrite append_cons. f_equal.
      clear. induction (Mutils.to_ascii ds) as [|x s IH]; [done|].
      by rewrite !append_cons, IH. }
    assert (Hself : Mutils.to_ascii (c :: ds ++ fs)
                    = String a (Mutils.to_ascii ds +:+ Mutils.to_ascii fs)).
    { simpl. by rewrite Hca, Hd2. }
    split.
    + rewrite Hself. left.
      exists a, (Mutils.to_ascii ds), (Mutils.to_ascii fs).
      by rewrite append_cons.
    + intros rest. rewrite Happ. by rewrite Hself.
  - destruct (to_ascii_digit c Hc) as (a & Hca & Ha).
    destruct (to_ascii_digits fd Hfd) as [Hf1 Hf2].
    split.
    + right. exists a, (Mutils.to_ascii fd). simpl.
      change (Mutils.to_ascii_char 46) with (Some "."%char). by rewrite Hca.
    + intros rest. simpl.
      change (Mutils.to_ascii_char 46) with (Some "."%char).
      rewrite Hca, Hf2. by rewrite !append_cons.
Qed.

Lemma to_ascii_literal sg body :
  (sg = [] \/ exists c, sg = [c] /\ Mutils.is_sign c = true) ->
  unsigned_text body ->
  exists sg' body',
    (sg' = ""%string \/
     exists a, sg' = String a "" /\ Mutils.ascii_sign a = true) /\
    unsigned_shape body' /\
    forall rest, Mutils.to_ascii ((sg ++ body) ++ rest)
                 = ((sg' +:+ body') +:+ Mutils.to_ascii rest)%string.
Proof.
  intros Hsg Hbody. destruct (to_ascii_unsigned body Hbody) as [Hshape Happ].
  destruct Hsg as [->|(c & -> & Hc)].
  - exists ""%string, (Mutils.to_ascii body). split; [by left|].
    split; [done|]. intros rest. simpl. by rewrite Happ, append_nil_l.
  - destruct (to_ascii_sign c Hc) as (a & Hca & Ha).
    exists (String a ""), (Mutils.to_ascii body). split; [right; by exists a|].
    split; [done|]. intros rest. simpl. rewrite Hca, Happ.
    by rewrite !append_cons, !append_nil_l.
Qed.

Lemma digit_not_other c :
  Mutils.ascii_digit c = true ->
  Ascii.eqb c "-" = false /\ Ascii.eqb c "+" = false /\
  Mutils.ascii_dot c = false /\ Mutils.is_space c = false.
Proof.
  intros H. unfold Mutils.ascii_digit, Mutils.ascii_dot, Mutils.is_space in *.
  apply andb_true_iff in H as [H1 H2].
  apply N.leb_le in H1. apply N.leb_le in H2.
  repeat split.
  - destruct (Ascii.eqb_spec c "-"); [subst; simpl in *; lia | done].
  - destruct (Ascii.eqb_spec c "+"); [subst; simpl in *; lia | done].
  - destruct (Ascii.eqb_spec c "."); [subst; simpl in *; lia | done].
  - apply orb_false_iff. split.
    + apply N.eqb_neq. lia.
    + apply andb_false_iff. right. apply N.leb_gt. lia.
Qed.

Lemma digits_app ds : forall rest acc n,
  all_digits ds = true ->
  (rest = ""%string \/
   exists c r, rest = String c r /\ Mutils.ascii_digit c = false) ->
  exists acc',
    Mutils.digits acc n (ds +:+ rest) = (acc', (n + String.length ds)%nat, rest).
Proof.
  induction ds as [|c ds IH]; intros rest acc n Hds Hrest;
    rewrite ?append_cons, ?append_nil_l; simpl in *.
  - exists acc. rewrite Nat.add_0_r.
    destruct Hrest as [->|(c & r & -> & Hc)]; simpl; [done|]. by rewrite Hc.
  - apply andb_true_iff in Hds as [Hc Hds]. rewrite Hc.
    destruct (IH rest (10 * acc + (N_of_ascii c - 48))%N (S n) Hds Hrest)
      as [acc' ->].
    exists acc'. f_equal. f_equal. lia.
Qed.

Lemma unsigned_decimal_shape body :
  unsigned_shape body -> is_Some (Mutils.unsigned_decimal body).
Proof.
  intros [(c & ds & fs & -> & Hc & Hds & Hfs)|(c & fd & -> & Hc & Hfd)];
    unfold Mutils.unsigned_decimal.
  - destruct (digits_app (String c ds) fs 0%N 0%nat) as [i Hi].
    { simpl. by rewrite Hc, Hds. }
    { destruct Hfs as [->|(fd & -> & _)]; [by left|]. right. eauto. }
    rewrite Hi. destruct Hfs as [->|(fd & -> & Hfd)]; simpl; [by eexists|].
    destruct (digits_app fd "" i 0%nat Hfd) as [f Hf]; [by left|].
    rewrite append_nil_r in Hf. rewrite Hf. simpl. by eexists.
  - simpl.
    destruct (digits_app (String c fd) "" 0%N 0%nat) as [f Hf].
    { simpl. by rewrite Hc, Hfd. }
    { by left. }
    rewrite append_nil_r in Hf. simpl in Hf. rewrite Hf. simpl. by eexists.
Qed.

Lemma decimal_shape sg body :
  (sg = ""%string \/ exists c, sg = String c "" /\ Mutils.ascii_sign c = true) ->
  unsigned_shape body ->
  is_Some (Mutils.decimal (sg +:+ body)).
Proof.
  intros Hsg Hbody. pose proof (unsigned_decimal_shape body Hbody) as [q Hq].
  destruct Hsg as [->|(c & -> & Hc)].
  - rewrite append_nil_l. unfold Mutils.decimal.
    destruct Hbody as [(c & ds & fs & -> & Hc & _)|(c & fd & -> & _)].
    + rewrite append_cons in *.
      destruct (digit_not_other c Hc) as (-> & -> & _). by eexists.
    + simpl. by eexists.
  - rewrite append_cons, append_nil_l. unfold Mutils.decimal.
    unfold Mutils.ascii_sign in Hc. apply orb_true_iff in Hc.
    destruct (Ascii.eqb c "-") eqn:Hm.
    + rewrite Hq. by eexists.
    + destruct Hc as [Hc|Hc]; [|discriminate]. rewrite Hc. by eexists.
Qed.

Lemma literal_char_not_space c :
  literal_char c = true -> Mutils.is_space c = false.
Proof.
  unfold literal_char, Mutils.ascii_sign, Mutils.ascii_dot. intros H.
  apply orb_true_iff in H as [H|H]; [apply orb_true_iff in H as [H|H]|].
  - apply orb_true_iff in H as [H|H]; apply Ascii.eqb_eq in H; by subst.
  - by apply digit_not_other.
  - apply Ascii.eqb_eq in H; by subst.
Qed.

Lemma literal_chars_app s1 s2 :
  literal_chars (s1 +:+ s2) = literal_chars s1 && literal_chars s2.
Proof.
  induction s1 as [|c s1 IH]; [done|].
  rewrite append_cons. simpl. by rewrite IH, andb_assoc.
Qed.

Lemma all_digits_literal s : all_digits s = true -> literal_chars s = true.
Proof.
  induction s as [|c s IH]; [done|]. simpl. intros H.
  apply andb_true_iff in H as [Hc Hs]. rewrite (IH Hs).
  unfold literal_char. by rewrite Hc, orb_true_r.
Qed.

Lemma shape_literal_chars sg body :
  (sg = ""%string \/ exists c, sg = String c "" /\ Mutils.ascii_sign c = true) ->
  unsigned_shape body ->
  literal_chars (sg +:+ body) = true /\ (sg +:+ body)%string <> ""%string.
Proof.
  intros Hsg Hbody.
  assert (Hb : literal_chars body = true /\ body <> ""%string).
  { destruct Hbody as [(c & ds & fs & -> & Hc & Hds & Hfs)|(c & fd & -> & Hc & Hfd)].
    - split; [|by rewrite append_cons].
      rewrite literal_chars_app. simpl.
      rewrite (all_digits_literal _ Hds). unfold literal_char at 1.
      rewrite Hc, orb_true_r. simpl.
      destruct Hfs as [->|(fd & -> & Hfd)]; [done|].
      simpl. by rewrite (all_digits_literal _ Hfd).
    - split; [|done]. simpl. rewrite (all_digits_literal _ Hfd).
      unfold literal_char. by rewrite Hc, orb_true_r. }
  destruct Hb as [Hb1 Hb2]. rewrite literal_chars_app, Hb1.
  destruct Hsg as [->|(c & -> & Hc)].
  - by rewrite append_nil_l.
  - split; [|by rewrite append_cons]. simpl. unfold literal_char. by rewrite Hc.
Qed.

Lemma rstrip_literal s : literal_chars s = true -> Mutils.rstrip s = s.
Proof.
  induction s as [|c s IH]; [done|]. simpl. intros H.
  apply andb_true_iff in H as [Hc Hs]. rewrite (IH Hs).
  destruct s; [|done]. by rewrite (literal_char_not_space c Hc).
Qed.

Lemma lstrip_literal s s' :
  literal_chars s = true -> s <> ""%string -> Mutils.lstrip (s +:+ s') = s +:+ s'.
Proof.
  destruct s as [|c s]; [done|]. intros H _. simpl in H.
  apply andb_true_iff in H as [Hc _]. rewrite append_cons. simpl.
  by rewrite (literal_char_not_space c Hc).
Qed.

Lemma rstrip_literal_newline s :
  literal_chars s = true ->
  Mutils.rstrip (s +:+ String Mutils.newline "") = s.
Proof.
  induction s as [|c s IH]; [done|]. intros H. simpl in H.
  apply andb_true_iff in H as [Hc Hs].
  rewrite append_cons. simpl. rewrite (IH Hs).
  destruct s; [|done]. by rewrite (literal_char_not_space c Hc).
Qed.

Lemma chomp_some s s' :
  Mutils.chomp s = Some s' -> s = s' ++ [10%N].
Proof.
  revert s'. induction s as [|c s IH]; intros s' H; [done|].
  simpl in H. destruct s as [|c' s].
  - destruct (N.eqb_spec c 10); [|done].
    inversion H; subst. done.
  - destruct (Mutils.chomp (c' :: s)) as [t|] eqn:Ht; [|done].
    simpl in H. inversion H; subst. simpl. f_equal. by apply IH.
Qed.

(** Every value that passes the pattern is a literal [float] reads,
    whatever the scripts of its digits. *)
Lemma re_match_py_float (value : string) :
  Mutils.re_match_anchored Mutils.numeric_literal value = true ->
  exists v, Mutils.py_float value = Ok v.
Proof.
  unfold Mutils.re_match_anchored, Mutils.py_float, Mutils.strip.
  destruct (Mutils.utf8_decode value) as [cps|]; [|done]. intros H.
  assert (Hs : exists s, Mutils.rstrip (Mutils.lstrip (Mutils.to_ascii cps)) = s /\
                         is_Some (Mutils.decimal s)).
  { apply orb_true_iff in H as [H|H].
    - apply fullmatch_lang, lang_numeric_literal in H
        as (sg & body & -> & Hsg & Hbody).
      destruct (to_ascii_literal sg body Hsg Hbody)
        as (sg' & body' & Hsg' & Hbody' & Happ).
      specialize (Happ []). rewrite app_nil_r in Happ. simpl in Happ.
      rewrite Happ.
      destruct (shape_literal_chars sg' body' Hsg' Hbody') as [Hl Hne].
      exists (sg' +:+ body')%string. split; [|by apply decimal_shape].
      rewrite lstrip_literal by done. rewrite append_nil_r.
      by apply rstrip_literal.
    - destruct (Mutils.chomp cps) as [s'|] eqn:Hc; [|done].
      apply chomp_some in Hc. subst cps.
      apply fullmatch_lang, lang_numeric_literal in H
        as (sg & body & -> & Hsg & Hbody).
      destruct (to_ascii_literal sg body Hsg Hbody)
        as (sg' & body' & Hsg' & Hbody' & Happ).
      rewrite (Happ [10%N]).
      change (Mutils.to_ascii [10%N]) with (String Mutils.newline "").
      destruct (shape_literal_chars sg' body' Hsg' Hbody') as [Hl Hne].
      exists (sg' +:+ body')%string. split; [|by apply decimal_shape].
      rewrite lstrip_literal by done. by apply rstrip_literal_newline. }
  destruct Hs as (s & -> & [q ->]). by exists q.
Qed.

Section GetOptimizer.

Variable signature : Mutils.optim -> list string.

Lemma get_optimizer_ok (s : string) (o : Mutils.optim) (d : gmap string Q) :
  Mutils.get_optimizer signature s = Ok (o, d) ->
  optim_of_method (Mutils.method_of s) = Some o /\
  Forall well_formed_item (parsed_items s) /\
  (forall k, d !! k = float_of_last (parsed_items s) k) /\
  (forall k, is_Some (d !! k) -> In k (drop 2 (signature o))) /\
  (o = Mutils.SGD -> is_Some (d !! "lr"%string)).
Proof.
  unfold Mutils.get_optimizer, parsed_items, float_of_last. intros H.
  destruct_bind H.
  destruct (forallb _ _) eqn:Hall; [|discriminate].
  inversion H; subst; clear H.
  match goal with H : Mutils.select_optim _ _ = Ok _ |- _ =>
    apply select_optim_known in H; destruct H as [Hm Hlr] end.
  split; [exact Hm|].
  assert (Hd : Forall well_formed_item
                 (if Mutils.contains "," s then Mutils.items_of s else []) /\
               forall k, d !! k
                 = match last_value
                           (if Mutils.contains "," s then Mutils.items_of s
                            else []) k with
                   | Some value =>
                       match Mutils.py_float value with
                       | Ok v => Some v
                       | Raise _ => None
                       end
                   | None => None
                   end).
  { destruct (Mutils.contains "," s).
    - match goal with H : Mutils.parse_items _ _ = Ok _ |- _ =>
        apply parse_items_ok in H; destruct H as [Ha Hb] end.
      split; [exact Ha|]. intros k. rewrite Hb.
      destruct (last_value _ k); [done | apply lookup_empty].
    - match goal with H : Ok _ = Ok _ |- _ => inversion H; subst end.
      split; [constructor|]. intros k. apply lookup_empty. }
  destruct Hd as [Hd1 Hd2].
  split; [exact Hd1|]. split; [exact Hd2|]. split; [|exact Hlr].
  intros k [v Hk].
  rewrite forallb_forall in Hall.
  specialize (Hall k). unfold Mutils.accepted in Hall.
  rewrite existsb_exists in Hall.
  destruct Hall as [k' [Hin Heq]].
  { apply in_map_iff. exists (k, v). split; [done|].
    apply list_elem_of_In. by apply elem_of_map_to_list. }
  apply String.eqb_eq in Heq. by subst.
Qed.

(** C6.  [get_optimizer] raises when the value of an item does not match
    the numeric format, when the name of an item is not among the
    constructor arguments of the selected class after [self] and
    [params], and when the method name is unknown; when it returns, the
    class is the one of the method name and the dictionary maps every
    parsed name, and nothing else, to the float of its value. *)
Theorem get_optimizer_spec (s : string) :
  (forall x,
     In x (parsed_items s) -> ~ well_formed_item x ->
     is_ok (Mutils.get_optimizer signature s) = false) /\
  (forall x name value,
     In x (parsed_items s) ->
     Mutils.split "=" x = [name; value] ->
     Mutils.re_match_anchored Mutils.numeric_literal value = false ->
     is_ok (Mutils.get_optimizer signature s) = false) /\
  (forall x name value o,
     In x (parsed_items s) ->
     Mutils.split "=" x = [name; value] ->
     optim_of_method (Mutils.method_of s) = Some o ->
     ~ In name (drop 2 (signature o)) ->
     is_ok (Mutils.get_optimizer signature s) = false) /\
  (optim_of_method (Mutils.method_of s) = None ->
   is_ok (Mutils.get_optimizer signature s) = false) /\
  (forall o d,
     Mutils.get_optimizer signature s = Ok (o, d) ->
     optim_of_method (Mutils.method_of s) = Some o /\
     (forall k, d !! k = float_of_last (parsed_items s) k) /\
     (forall x name value,
        In x (parsed_items s) -> Mutils.split "=" x = [name; value] ->
        is_Some (d !! name))).
Proof.
  assert (Hok : forall o d,
            Mutils.get_optimizer signature s = Ok (o, d) ->
            forall x name value,
              In x (parsed_items s) -> Mutils.split "=" x = [name; value] ->
              is_Some (d !! name)).
  { intros o d H x name value Hin Hs.
    destruct (get_optimizer_ok s o d H) as (_ & Hwf & Hd & _).
    rewrite Hd. unfold float_of_last.
    destruct (last_value_is_some _ _ _ _ Hin Hs) as [val Hval].
    rewrite Hval.
    destruct (last_value_from_item _ _ _ Hval) as (y & Hy & Hsy).
    rewrite List.Forall_forall in Hwf.
    destruct (Hwf y Hy) as (n' & v' & q & Hs' & _ & Hq).
    rewrite Hsy in Hs'. inversion Hs'; subst. rewrite Hq. by eexists. }
  repeat split.
  - intros x Hin Hnwf.
    destruct (Mutils.get_optimizer signature s) as [[o d]|] eqn:H; [|done].
    exfalso. destruct (get_optimizer_ok s o d H) as (_ & Hwf & _).
    rewrite List.Forall_forall in Hwf. by apply Hnwf, Hwf.
  - intros x name value Hin Hs Hre.
    destruct (Mutils.get_optimizer signature s) as [[o d]|] eqn:H; [|done].
    exfalso. destruct (get_optimizer_ok s o d H) as (_ & Hwf & _).
    rewrite List.Forall_forall in Hwf.
    destruct (Hwf x Hin) as (n' & v' & q & Hs' & Hre' & _).
    rewrite Hs in Hs'. inversion Hs'; subst. congruence.
  - intros x name value o Hin Hs Hm Hnot.
    destruct (Mutils.get_optimizer signature s) as [[o' d]|] eqn:H; [|done].
    exfalso. destruct (get_optimizer_ok s o' d H) as (Hm' & _ & _ & Hacc & _).
    rewrite Hm in Hm'. inversion Hm'; subst o'.
    apply Hnot, Hacc. by eapply Hok.
  - intros Hm.
    destruct (Mutils.get_optimizer signature s) as [[o d]|] eqn:H; [|done].
    destruct (get_optimizer_ok s o d H) as (Hm' & _). congruence.
  - by destruct (get_optimizer_ok s o d H) as (Hm' & _).
  - by destruct (get_optimizer_ok s o d H) as (_ & _ & Hd & _).
  - by eapply Hok.
Qed.

(** The converse: a string is accepted when its method is known, every
    item is a name among the arguments of the class and a value of the
    numeric format, and [sgd] comes with a learning rate. *)
Lemma get_optimizer_accepts (s : string) (o : Mutils.optim) :
  optim_of_method (Mutils.method_of s) = Some o ->
  Forall (fun x => exists name value,
            Mutils.split "=" x = [name; value] /\
            Mutils.re_match_anchored Mutils.numeric_literal value = true /\
            In name (drop 2 (signature o))) (parsed_items s) ->
  take 2 (signature o) = ["self"; "params"]%string ->
  (o = Mutils.SGD ->
   exists x value, In x (parsed_items s) /\
                   Mutils.split "=" x = ["lr"%string; value]) ->
  exists d, Mutils.get_optimizer signature s = Ok (o, d).
Proof.
  intros Hm Hitems Hsig Hlr.
  assert (Hparse : exists d, Mutils.parse_items ∅ (parsed_items s) = Ok d).
  { clear Hm Hsig Hlr. generalize (∅ : gmap string Q).
    induction Hitems as [|x items (name & value & Hs & Hre & _) _ IH];
      intros d0; [by eexists|].
    simpl. unfold Mutils.parse_item. rewrite Hs. simpl. rewrite Hre. simpl.
    destruct (re_match_py_float value Hre) as [v ->]. simpl. apply IH. }
  destruct Hparse as [d Hd]. exists d.
  destruct (parse_items_ok _ _ _ Hd) as [Hwf Hlook].
  assert (Hkeys : forall k v, d !! k = Some v ->
            exists x value, In x (parsed_items s) /\
                            Mutils.split "=" x = [k; value]).
  { intros k v Hk. rewrite Hlook in Hk.
    destruct (last_value (parsed_items s) k) as [value|] eqn:Hl.
    - destruct (last_value_from_item _ _ _ Hl) as (x & Hin & Hs). eauto.
    - by rewrite lookup_empty in Hk. }
  unfold Mutils.get_optimizer.
  replace (if Mutils.contains "," s
           then Mutils.parse_items ∅ (Mutils.items_of s) else Ok ∅)
    with (Mutils.parse_items ∅ (parsed_items s))
    by (unfold parsed_items; by destruct (Mutils.contains "," s)).
  rewrite Hd. simpl.
  rewrite (select_optim_complete _ d o Hm).
  2:{ intros Ho. destruct (Hlr Ho) as (x & value & Hin & Hs).
      rewrite Hlook.
      destruct (last_value_is_some _ _ _ _ Hin Hs) as [val Hval]. rewrite Hval.
      destruct (last_value_from_item _ _ _ Hval) as (y & Hy & Hsy).
      rewrite List.Forall_forall in Hwf.
      destruct (Hwf y Hy) as (n' & v' & q & Hs' & _ & Hq).
      rewrite Hsy in Hs'. inversion Hs'; subst. rewrite Hq. by eexists. }
  simpl. rewrite Hsig. simpl.
  rewrite (proj2 (forallb_forall _ _)); [done|].
  intros k Hk. apply in_map_iff in Hk as [[k' v] [<- Hkv]]. simpl.
  apply list_elem_of_In, elem_of_map_to_list in Hkv.
  destruct (Hkeys k' v Hkv) as (x & value & Hin & Hs).
  rewrite List.Forall_forall in Hitems.
  destruct (Hitems x Hin) as (n' & v' & Hs' & _ & Hacc).
  rewrite Hs in Hs'. inversion Hs'; subst.
  unfold Mutils.accepted. apply existsb_exists. exists n'.
  split; [done | apply String.eqb_refl].
Qed.

End GetOptimizer.

(** The two inputs of the docstring are accepted. *)
Example get_optimizer_sgd :
  Mutils.get_optimizer MutilsExample.signature "sgd,lr=0.01"
  = Ok (Mutils.SGD, {[ "lr"%string := (1 # 100)%Q ]}).
Proof. vm_compute. reflexivity. Qed.

Example get_optimizer_adagrad :
  Mutils.get_optimizer MutilsExample.signature "adagrad,lr=0.1,lr_decay=0.05"
  = Ok (Mutils.Adagrad,
        <[ "lr_decay"%string := (1 # 20)%Q ]> {[ "lr"%string := (1 # 10)%Q ]}).
Proof. vm_compute. reflexivity. Qed.

(** A value with an exponent, a name that is no argument of the class, a
    method that does not exist, and an item with two equals signs are
    rejected. *)
Example get_optimizer_rejects :
  Mutils.get_optimizer MutilsExample.signature "adam,lr=1e-3"
    = Raise AssertionError /\
  Mutils.get_optimizer MutilsExample.signature "adam,momentum=0.9"
    = Raise Exception /\
  Mutils.get_optimizer MutilsExample.signature "lion,lr=0.1"
    = Raise Exception /\
  Mutils.get_optimizer MutilsExample.signature "adam,lr=0.1=0.2"
    = Raise AssertionError /\
  Mutils.get_optimizer MutilsExample.signature "sgd"
    = Raise AssertionError.
Proof. vm_compute. repeat split; reflexivity. Qed.

(** Digits of other scripts pass the pattern and are read by [float]:
    the value of [lr] is first the Arabic-Indic digit one (U+0661, the
    bytes 217 and 161), then the fullwidth digits three and five (U+FF13
    and U+FF15) around an ASCII full stop. *)
Example get_optimizer_unicode_digits :
  Mutils.get_optimizer MutilsExample.signature
    ("adam,lr=" +:+ String (ascii_of_N 217) (String (ascii_of_N 161) ""))
    = Ok (Mutils.Adam, {[ "lr"%string := 1%Q ]}) /\
  Mutils.get_optimizer MutilsExample.signature
    ("adam,lr=" +:+ String (ascii_of_N 239) (String (ascii_of_N 188)
                      (String (ascii_of_N 147) (String "."
                      (String (ascii_of_N 239) (String (ascii_of_N 188)
                      (String (ascii_of_N 149) "")))))))
    = Ok (Mutils.Adam, {[ "lr"%string := (7 # 2)%Q ]}).
Proof. vm_compute. split; reflexivity. Qed.

(** * Further properties *)

(** ** [configure_optimizers] *)

Lemma string_append_nil_l (s : string) : ("" +:+ s)%string = s.
Proof. reflexivity. Qed.

Lemma string_append_cons c (s1 s2 : string) :
  (String c s1 +:+ s2)%string = String c (s1 +:+ s2).
Proof. reflexivity. Qed.

Lemma is_prefix_spec (p s : string) :
  is_prefix p s = true <-> exists post, s = (p +:+ post)%string.
Proof.
  revert s. induction p as [|a p IH]; intros s; simpl.
  - split; [intros _; by exists s | done].
  - destruct s as [|b s].
    + split; [done | intros [post H]; discriminate H].
    + rewrite andb_true_iff, IH. split.
      * intros [Hab [post ->]]. apply Ascii.eqb_eq in Hab. subst.
        by exists post.
      * intros [post H]. rewrite string_append_cons in H.
        inversion H; subst. split; [apply Ascii.eqb_refl | by exists post].
Qed.

Lemma is_substring_spec (sub s : string) :
  is_substring sub s = true <-> occurs_in sub s.
Proof.
  unfold occurs_in. induction s as [|c s IH].
  - simpl. rewrite orb_false_r, is_prefix_spec. split.
    + intros [post ->]. by exists ""%string, post.
    + intros (pre & post & H). destruct pre as [|a pre]; [|discriminate H].
      rewrite string_append_nil_l in H. by exists post.
  - simpl. rewrite orb_true_iff, is_prefix_spec, IH. split.
    + intros [[post ->]|(pre & post & ->)].
      * by exists ""%string, post.
      * by exists (String c pre), post.
    + intros (pre & post & H). destruct pre as [|a pre].
      * left. by exists post.
      * right. rewrite string_append_cons in H. inversion H; subst.
        by exists pre, post.
Qed.

Lemma in_no_decay_spec (n : string) :
  in_no_decay n = true <->
  occurs_in "bias" n \/ occurs_in "LayerNorm.weight" n.
Proof.
  unfold in_no_decay, no_decay. simpl.
  rewrite orb_false_r, orb_true_iff, !is_substring_spec. done.
Qed.

Lemma no_decay_split (names : list string) :
  filter (fun n => negb (in_no_decay n) = true) names
    ++ filter (fun n => in_no_decay n = true) names ≡ₚ names.
Proof.
  induction names as [|n names IH]; [done|].
  rewrite !filter_cons. destruct (in_no_decay n) eqn:Hn; simpl.
  - destruct (decide (false = true)); [done|].
    destruct (decide (true = true)); [|done].
    rewrite <- Permutation_middle. by constructor.
  - destruct (decide (true = true)); [|done].
    destruct (decide (false = true)); [done|].
    simpl. by constructor.
Qed.

Lemma bert_configure_groups hp names steps c :
  Bert.configure_optimizers hp names steps = Ok c ->
  oc_decay_group c = filter (fun n => negb (in_no_decay n) = true) names /\
  oc_no_decay_group c = filter (fun n => in_no_decay n = true) names.
Proof.
  unfold Bert.configure_optimizers. intros H. destruct_bind H.
  by inversion H.
Qed.

Lemma t5_configure_groups hp names steps c :
  T5.configure_optimizers hp names steps = Ok c ->
  oc_decay_group c = filter (fun n => negb (in_no_decay n) = true) names /\
  oc_no_decay_group c = filter (fun n => in_no_decay n = true) names.
Proof.
  unfold T5.configure_optimizers. intros H. destruct_bind H.
  by inversion H.
Qed.

(** X1.  The two parameter groups of [configure_optimizers], of either
    class, split the named parameters: a parameter is in the no-decay
    group exactly when [bias] or [LayerNorm.weight] occurs in its name, in
    the decay group otherwise, and the two groups together are a
    rearrangement of all the parameters (none lost, none doubled). *)
Theorem configure_optimizers_groups (hp : hparams) (names : list string)
    (steps : Z) (c : optimizer_config) :
  Bert.configure_optimizers hp names steps = Ok c \/
  T5.configure_optimizers hp names steps = Ok c ->
  (forall n, In n (oc_no_decay_group c) <->
             In n names /\
             (occurs_in "bias" n \/ occurs_in "LayerNorm.weight" n)) /\
  (forall n, In n (oc_decay_group c) <->
             In n names /\
             ~ (occurs_in "bias" n \/ occurs_in "LayerNorm.weight" n)) /\
  oc_decay_group c ++ oc_no_decay_group c ≡ₚ names.
Proof.
  intros H.
  assert (Hg : oc_decay_group c
               = filter (fun n => negb (in_no_decay n) = true) names /\
               oc_no_decay_group c
               = filter (fun n => in_no_decay n = true) names).
  { destruct H as [H|H];
      [by eapply bert_configure_groups | by eapply t5_configure_groups]. }
  destruct Hg as [-> ->]. split; [|split].
  - intros n. rewrite <- !list_elem_of_In, list_elem_of_filter.
    rewrite in_no_decay_spec. tauto.
  - intros n. rewrite <- !list_elem_of_In, list_elem_of_filter.
    rewrite <- in_no_decay_spec. rewrite negb_true_iff.
    destruct (in_no_decay n); split; intros [? ?]; split; done.
  - apply no_decay_split.
Qed.

Lemma configure_optimizers_groups_witness :
  exists c,
    (Bert.configure_optimizers WarmupExample.zero_steps
       WarmupExample.named_parameters 1000 = Ok c \/
     T5.configure_optimizers WarmupExample.zero_steps
       WarmupExample.named_parameters 1000 = Ok c) /\
    oc_decay_group c ++ oc_no_decay_group c
      ≡ₚ WarmupExample.named_parameters /\
    oc_no_decay_group c
      = ["encoder.layer.0.bias"; "encoder.LayerNorm.weight"]%string.
Proof.
  eexists. split; [left; vm_compute; reflexivity|].
  split; [|reflexivity].
  eapply (configure_optimizers_groups WarmupExample.zero_steps
            WarmupExample.named_parameters 1000).
  left. vm_compute. reflexivity.
Defined.

(** The checks of the method itself, in the model, where the
    constructors of the library return. *)
Lemma bert_configure_optimizers_checks (hp : hparams)
    (names : list string) (steps : Z) :
  (is_ok (Bert.configure_optimizers hp names steps) = true <->
   known_names hp /\ exactly_one_warmup hp) /\
  (forall e, Bert.configure_optimizers hp names steps = Raise e ->
             e = ValueError).
Proof.
  unfold Bert.configure_optimizers, known_names, exactly_one_warmup.
  destruct (String.eqb_spec (optimizer_name hp) "adamw") as [Ho1|Ho1];
    destruct (String.eqb_spec (optimizer_name hp) "adam") as [Ho2|Ho2];
    destruct (String.eqb_spec (scheduler_name hp) "linear") as [Hs1|Hs1];
    destruct (String.eqb_spec (scheduler_name hp) "polynomial") as [Hs2|Hs2];
    destruct (warmup_steps hp) as [ws|], (warmup_ratio hp) as [wr|];
    simpl; (split; [split|]);
    try (intros e He; by inversion He);
    try discriminate;
    try (intros _; split; [tauto|]);
    try (intros [[? ?] [[? ?]|[? ?]]]);
    try (left; split; [by eexists | done]);
    try (right; split; [done | by eexists]);
    try done;
    repeat match goal with
           | H : is_Some None |- _ => by destruct H
           | H : _ \/ _ |- _ => destruct H
           end; try done.
Qed.

(** X2.  [BertForNLI.configure_optimizers] returns only when the
    optimizer name is [adamw] or [adam], the scheduler name is [linear] or
    [polynomial], and exactly one of [warmup_steps] and [warmup_ratio] is
    given; in every other configuration what it raises is [ValueError].
    Nothing is said of the configurations that pass these checks: there
    the constructors of the library decide. *)
Theorem bert_configure_optimizers_returns_only_if (hp : hparams)
    (names : list string) (steps : Z) :
  (is_ok (Bert.configure_optimizers hp names steps) = true ->
   known_names hp /\ exactly_one_warmup hp) /\
  (~ (known_names hp /\ exactly_one_warmup hp) ->
   Bert.configure_optimizers hp names steps = Raise ValueError).
Proof.
  destruct (bert_configure_optimizers_checks hp names steps) as [Hiff Hexn].
  split; [apply Hiff|].
  intros Hnot.
  destruct (Bert.configure_optimizers hp names steps) as [c|e] eqn:Hc.
  - exfalso. by apply Hnot, Hiff.
  - by rewrite (Hexn e eq_refl).
Qed.

(** X3.  [T5ForNLI.configure_optimizers] raises [ValueError] when the only
    warm-up hyper-parameter given is zero, and in every other case does
    what [BertForNLI.configure_optimizers] does: same result, same
    exception. *)
Theorem t5_configure_optimizers_vs_bert (hp : hparams)
    (names : list string) (steps : Z) :
  if zero_only hp
  then T5.configure_optimizers hp names steps = Raise ValueError
  else T5.configure_optimizers hp names steps
       = Bert.configure_optimizers hp names steps.
Proof.
  unfold zero_only, T5.configure_optimizers, Bert.configure_optimizers,
    T5.truthy_int, T5.truthy_float.
  destruct (warmup_steps hp) as [ws|], (warmup_ratio hp) as [wr|]; simpl;
    try reflexivity.
  - destruct (Z.eqb ws 0); simpl; [|reflexivity].
    by repeat destruct (String.eqb _ _).
  - destruct (Qeq_bool wr 0); simpl; [|reflexivity].
    by repeat destruct (String.eqb _ _).
Qed.

(** ** Further properties of [BertForNLI._step] *)

Lemma traverse_raises {A B} (f : A -> res B) (e : exn) (l : list A) a :
  (forall x e', f x = Raise e' -> e' = e) ->
  In a l -> f a = Raise e ->
  Tensor.traverse f l = Raise e.
Proof.
  intros Hall. induction l as [|x l IH]; intros Hin Ha; [done|].
  simpl. destruct (f x) as [y|e'] eqn:Hx.
  - simpl. destruct Hin as [->|Hin]; [congruence|].
    by rewrite (IH Hin Ha).
  - simpl. f_equal. by eapply Hall.
Qed.

Lemma gather_raises_runtime t index e :
  Tensor.gather t index = Raise e -> e = RuntimeError.
Proof.
  revert t. induction index as [|i index IH]; intros t H; [done|].
  destruct t as [|row t]; simpl in H; [by inversion H|].
  unfold Tensor.gather1 in H.
  destruct (i <? 0); simpl in H; [by inversion H|].
  destruct (row !! Z.to_nat i); simpl in H; [|by inversion H].
  destruct (Tensor.gather t index) eqn:Hg; simpl in H; [done|].
  inversion H; subst. by eapply IH.
Qed.

Lemma argmax_from_spec (l : list Q) : forall (pre : list Q) best besti,
  first_maximum pre besti ->
  pre !! Z.to_nat besti = Some best ->
  first_maximum (pre ++ l)
    (Tensor.argmax_from best besti (Z.of_nat (length pre)) l).
Proof.
  induction l as [|x l IH]; intros pre best besti Hfm Hbest; simpl.
  - by rewrite app_nil_r.
  - replace (pre ++ x :: l) with ((pre ++ [x]) ++ l)
      by (by rewrite <- app_assoc).
    replace (Z.of_nat (length pre) + 1) with (Z.of_nat (length (pre ++ [x])))
      by (rewrite length_app; simpl; lia).
    destruct Hfm as (Hr & b & Hb & Hmax & Hfirst).
    rewrite Hbest in Hb. inversion Hb; subst b; clear Hb.
    destruct (Qlt_le_dec best x) as [Hlt|Hle].
    + apply IH.
      * split; [rewrite length_app; simpl; lia|].
        exists x. rewrite Nat2Z.id.
        split; [by rewrite lookup_app_r, Nat.sub_diag by lia|].
        split.
        -- intros j y Hj. destruct (decide (j < length pre)%nat).
           ++ rewrite lookup_app_l in Hj by done.
              specialize (Hmax j y Hj). lra.
           ++ rewrite lookup_app_r in Hj by lia.
              destruct (j - length pre)%nat as [|[|?]]; simpl in Hj; try done.
              inversion Hj; subst. lra.
        -- intros j y Hjk Hj. rewrite lookup_app_l in Hj by done.
           specialize (Hmax j y Hj). lra.
      * rewrite Nat2Z.id. by rewrite lookup_app_r, Nat.sub_diag by lia.
    + apply IH.
      * split; [rewrite length_app; simpl; lia|].
        exists best. split; [rewrite lookup_app_l by lia; done|].
        split.
        -- intros j y Hj. destruct (decide (j < length pre)%nat).
           ++ rewrite lookup_app_l in Hj by done. by eapply Hmax.
           ++ rewrite lookup_app_r in Hj by lia.
              destruct (j - length pre)%nat as [|[|?]]; simpl in Hj; try done.
              by inversion Hj; subst.
        -- intros j y Hjk Hj. rewrite lookup_app_l in Hj by lia.
           by eapply Hfirst.
      * by rewrite lookup_app_l by lia.
Qed.

Lemma argmax_spec (row : list Q) (k : Z) :
  Tensor.argmax row = Ok k -> first_maximum row k.
Proof.
  destruct row as [|x l]; [done|]. simpl. intros H. inversion H; subst.
  apply (argmax_from_spec l [x] x 0); [|done].
  split; [simpl; lia|]. exists x. split; [done|]. split.
  - intros [|[|?]] y Hj; simpl in Hj; try done. inversion Hj; subst. lra.
  - intros j y Hj. simpl in Hj. lia.
Qed.

Lemma sum_b2q_bounds (l : list bool) :
  (0 <= Tensor.sum (map Tensor.b2q l) <= inject_Z (Z.of_nat (length l)))%Q.
Proof.
  induction l as [|b l IH]; simpl.
  - split; apply Qle_refl.
  - replace (Z.of_nat (S (length l))) with (1 + Z.of_nat (length l)) by lia.
    rewrite inject_Z_plus. change (inject_Z 1) with 1%Q.
    destruct IH as [IH0 IH1].
    destruct b;
      [change (Tensor.b2q true) with 1%Q | change (Tensor.b2q false) with 0%Q];
      lra.
Qed.

Lemma mean_b2q_bounds (l : list bool) (a : Q) :
  Tensor.mean (map Tensor.b2q l) = Some a -> (0 <= a <= 1)%Q.
Proof.
  destruct l as [|b l]; [done|]. intros H.
  pose proof (sum_b2q_bounds (b :: l)) as [H0 H1].
  simpl in H, H0, H1. inversion H; subst a; clear H.
  rewrite length_map.
  assert (Hn : (0 < inject_Z (Z.of_nat (S (length l))))%Q).
  { change 0%Q with (inject_Z 0). rewrite <- Zlt_Qlt. lia. }
  split.
  - apply Qle_shift_div_l; [done|]. lra.
  - apply Qle_shift_div_r; [done|]. lra.
Qed.

Section BertStepMore.

Variable forward_logits : Bert.batch -> list (Q * Q * Q).
Variable softmax : Q * Q * Q -> Q * Q * Q.
Variable ln : Q -> Q.
Variable loss_criterion : list (list Q) -> list (list Q) -> list Q.
Variable hans_train : Z.
Variable hans_validation : Z.

Abbreviation bstep := (Bert._step forward_logits softmax ln loss_criterion
                         hans_train hans_validation).

(** X4.  A label outside 0, 1, 2 makes [BertForNLI._step] raise
    [RuntimeError] (from [F.one_hot]), whatever the network answers and
    whatever the other examples are. *)
Theorem bert_step_rejects_label (b : Bert.batch) (l : Z) :
  In l (Bert.labels b) -> l < 0 \/ 3 <= l ->
  bstep b = Raise RuntimeError.
Proof.
  intros Hin Hl. unfold Bert._step.
  rewrite (traverse_raises Bert.one_hot3 RuntimeError (Bert.labels b) l);
    [done| |done|].
  - intros x e. unfold Bert.one_hot3.
    destruct (_ || _); [by inversion 1 | discriminate].
  - unfold Bert.one_hot3.
    destruct (Z.ltb_spec l 0); [done|].
    destruct (Z.leb_spec 3 l); [done | lia].
Qed.

(** X5.  A batch of the HANS validation split that holds a label 2
    (contradiction) makes [BertForNLI._step] raise [RuntimeError]: the
    gold-label lookup reads a vector of two entries. *)
Theorem bert_step_hans_validation_label_2 (b : Bert.batch) (ds' : list Z) :
  Bert.dataset b = hans_validation :: ds' ->
  length (forward_logits b) = length (Bert.dataset b) ->
  length (Bert.labels b) = length (Bert.dataset b) ->
  Forall (fun l => 0 <= l < 3) (Bert.labels b) ->
  In 2 (Bert.labels b) ->
  bstep b = Raise RuntimeError.
Proof.
  intros Hds Hlen Hlab Hrange Hin.
  assert (Hoh : Tensor.traverse Bert.one_hot3 (Bert.labels b)
                = Ok (map (fun l => map (fun c => Tensor.b2q (Z.eqb l c)) [0; 1; 2])
                        (Bert.labels b))).
  { apply traverse_total. eapply Forall_impl; [exact Hrange|].
    intros l Hl. by apply one_hot3_total. }
  assert (Hfirst : Tensor.first_item (Bert.dataset b) = Ok hans_validation)
    by (by rewrite Hds).
  unfold Bert._step. rewrite Hoh. simpl.
  rewrite remap_hans_train_rows by (by rewrite length_map). simpl.
  rewrite Hfirst. simpl. rewrite remap_hans_validation_two_way.
  set (prob3 := zip_with (remap_row hans_train) (Bert.dataset b)
                  (map softmax (forward_logits b))).
  destruct (Tensor.gather (map two_way prob3) (Bert.labels b)) as [g|e] eqn:Hg.
  - exfalso. apply list_elem_of_In, list_elem_of_lookup in Hin as [i Hi].
    assert (Hp : is_Some (prob3 !! i)).
    { apply lookup_lt_is_Some. unfold prob3.
      rewrite length_zip_with, length_map, Hlen.
      apply lookup_lt_Some in Hi. lia. }
    destruct Hp as [p Hp].
    destruct (gather_lookup _ _ _ i (two_way p) 2 Hg) as (_ & Hgi & [x Hx]);
      [by rewrite list_lookup_fmap, Hp | done |].
    rewrite Hx in Hgi. done.
  - simpl. f_equal. by eapply gather_raises_runtime.
Qed.

(** X6.  Every prediction [BertForNLI._step] returns is the index of a
    largest entry of the example's row of [datapoint_prob], and the first
    such index; in particular it is a valid class. *)
Theorem bert_step_pred_is_first_maximum (b : Bert.batch) (r : results) :
  bstep b = Ok r ->
  exists rows,
    datapoint_prob r = Prob2 rows /\
    length (datapoint_pred r) = length rows /\
    forall (i : nat) k row,
      datapoint_pred r !! i = Some k -> rows !! i = Some row ->
      first_maximum row k.
Proof.
  intros H. unfold Bert._step in H. destruct_bind H.
  inversion H; subst r; clear H. simpl.
  eexists. split; [reflexivity|].
  match goal with
  | H : Tensor.traverse Tensor.argmax _ = Ok _ |- _ => rename H into Hp
  end.
  split; [by apply traverse_ok_length in Hp|].
  intros i k row Hk Hrow.
  destruct (traverse_ok_lookup _ _ _ i row Hp Hrow) as (k' & Hk' & Harg).
  rewrite Hk in Hk'. inversion Hk'; subst k'. by apply argmax_spec.
Qed.

(** X7.  On a batch with one logit row and one label per example,
    [BertForNLI._step] returns a correctness flag that is 1 for an example
    whose prediction is its label and 0 otherwise, an accuracy between 0
    and 1, and the number of examples as [count]. *)
Theorem bert_step_accuracy (b : Bert.batch) (r : results) :
  length (forward_logits b) = length (Bert.dataset b) ->
  length (Bert.labels b) = length (Bert.dataset b) ->
  bstep b = Ok r ->
  datapoint_true_pred r
    = map Tensor.b2q (zip_with Z.eqb (datapoint_pred r) (Bert.labels b)) /\
  length (datapoint_pred r) = length (Bert.labels b) /\
  count r = inject_Z (Z.of_nat (length (Bert.labels b))) /\
  exists a, acc r = Some a /\ (0 <= a <= 1)%Q.
Proof.
  intros Hlen Hlab Hstep.
  destruct (bert_step_flags_follow_pred _ _ _ _ _ _ _ _ Hlen Hlab Hstep)
    as [Hl Hf].
  unfold Bert._step in Hstep. destruct_bind Hstep.
  inversion Hstep; subst r; clear Hstep. simpl in *.
  split; [exact Hf|]. split; [exact Hl|]. split; [by rewrite Hl|].
  match goal with
  | |- exists a, ?m = Some a /\ _ => destruct m as [x|] eqn:Hm
  end.
  - exists x. split; [done|]. by eapply mean_b2q_bounds.
  - exfalso. apply (f_equal length) in Hf.
    rewrite !length_map, length_zip_with in Hf.
    unfold Tensor.mean in Hm.
    match type of Hm with
    | match ?l with _ => _ end = None => destruct l eqn:Hmap; [|done]
    end.
    apply (f_equal length) in Hmap. rewrite length_map in Hmap.
    simpl in Hmap.
    match goal with
    | H : Tensor.first_item (Bert.dataset b) = Ok _ |- _ =>
        destruct (Bert.dataset b); [discriminate H|]
    end.
    simpl in *. lia.
Qed.

(** X8.  On an empty batch [BertForNLI._step] raises [IndexError]: it
    reads the data set of the first example. *)
Theorem bert_step_empty_batch (b : Bert.batch) :
  Bert.dataset b = [] -> Bert.labels b = [] -> forward_logits b = [] ->
  bstep b = Raise IndexError.
Proof.
  intros Hd Hl Hf. unfold Bert._step, Bert.remap_hans_train.
  by rewrite Hd, Hl, Hf.
Qed.

End BertStepMore.

Lemma argmax_from_Qeq (l l' : list Q) :
  Forall2 Qeq l l' ->
  forall best best' besti i,
    (best == best')%Q ->
    Tensor.argmax_from best besti i l = Tensor.argmax_from best' besti i l'.
Proof.
  induction 1 as [|x x' l l' Hx _ IH]; intros best best' besti i Hb; [done|].
  simpl. destruct (Qlt_le_dec best x), (Qlt_le_dec best' x'); try lra.
  - by apply IH.
  - by apply IH.
Qed.

Lemma argmax_row_Qeq (row row' : list Q) :
  Forall2 Qeq row row' -> argmax_row row = argmax_row row'.
Proof.
  destruct 1 as [|x x' l l' Hx Hl]; [done|]. simpl.
  by apply argmax_from_Qeq.
Qed.

Lemma remap_row_other (hans_train d : Z) (p : Q * Q * Q) :
  d <> hans_train ->
  Forall2 Qeq (Bert.row3 (remap_row hans_train d p)) (Bert.row3 p).
Proof.
  intros Hd. destruct p as [[p0 p1] p2].
  unfold Bert.row3, remap_row, Bert.col0, Bert.col1, Bert.col2. simpl.
  destruct (Z.eqb_spec d hans_train) as [?|_]; [done|]. simpl.
  repeat constructor; lra.
Qed.

Lemma remap_rows_other (hans_train : Z) (ds : list Z)
    (praw : list (Q * Q * Q)) :
  Forall (fun d => d <> hans_train) ds ->
  length praw = length ds ->
  Forall2 (fun row p => Forall2 Qeq row (Bert.row3 p))
    (map Bert.row3 (zip_with (remap_row hans_train) ds praw)) praw.
Proof.
  intros Hnt. revert praw.
  induction Hnt as [|d ds Hd _ IH]; intros [|p praw] Hlr; simpl in *;
    try done; constructor; [by apply remap_row_other | apply IH; lia].
Qed.

Lemma argmax_rows_Qeq (rows : list (list Q)) (praw : list (Q * Q * Q)) :
  Forall2 (fun row p => Forall2 Qeq row (Bert.row3 p)) rows praw ->
  map argmax_row rows = map (fun p => argmax_row (Bert.row3 p)) praw.
Proof.
  induction 1 as [|row p rows praw Hr _ IH]; [done|].
  cbn [map]. f_equal; [by apply argmax_row_Qeq | exact IH].
Qed.

Section BertOutsideHans.

Variable forward_logits : Bert.batch -> list (Q * Q * Q).
Variable softmax : Q * Q * Q -> Q * Q * Q.
Variable ln : Q -> Q.
Variable loss_criterion : list (list Q) -> list (list Q) -> list Q.
Variable hans_train : Z.
Variable hans_validation : Z.

(** X9.  On a batch that holds no example of the HANS training split and
    whose first example is not of the HANS validation split,
    [BertForNLI._step] returns; the probabilities it returns are the
    softmax probabilities, three per example, and each prediction is the
    arg-max of the softmax row. *)
Theorem bert_step_outside_hans (b : Bert.batch) (d0 : Z) (ds' : list Z) :
  Bert.dataset b = d0 :: ds' ->
  d0 <> hans_validation ->
  Forall (fun d => d <> hans_train) (Bert.dataset b) ->
  length (forward_logits b) = length (Bert.dataset b) ->
  length (Bert.labels b) = length (Bert.dataset b) ->
  Forall (fun l => 0 <= l < 3) (Bert.labels b) ->
  exists r rows,
    Bert._step forward_logits softmax ln loss_criterion hans_train
      hans_validation b = Ok r /\
    datapoint_prob r = Prob2 rows /\
    Forall2 (fun row p => Forall2 Qeq row (Bert.row3 p))
      rows (map softmax (forward_logits b)) /\
    datapoint_pred r
    = map (fun p => argmax_row (Bert.row3 p)) (map softmax (forward_logits b)).
Proof.
  intros Hds Hd0 Hnt Hlen Hlab Hrange.
  set (praw := map softmax (forward_logits b)).
  set (prob3 := zip_with (remap_row hans_train) (Bert.dataset b) praw).
  assert (Hlr : length praw = length (Bert.dataset b))
    by (unfold praw; by rewrite length_map).
  assert (Hrows : Forall2 (fun row p => Forall2 Qeq row (Bert.row3 p))
                    (map Bert.row3 prob3) praw).
  { by apply remap_rows_other. }
  assert (Hfirst : Tensor.first_item (Bert.dataset b) = Ok d0)
    by (by rewrite Hds).
  assert (Hoh : Tensor.traverse Bert.one_hot3 (Bert.labels b)
                = Ok (map (fun l => map (fun c => Tensor.b2q (Z.eqb l c)) [0; 1; 2])
                        (Bert.labels b))).
  { apply traverse_total. eapply Forall_impl; [exact Hrange|].
    intros l Hl. by apply one_hot3_total. }
  assert (Hv : Bert.remap_hans_validation hans_validation d0 prob3
               = map Bert.row3 prob3).
  { unfold Bert.remap_hans_validation.
    by destruct (Z.eqb_spec d0 hans_validation). }
  destruct (gather_total (map Bert.row3 prob3) (Bert.labels b)) as [g Hg].
  { unfold prob3. rewrite length_map, length_zip_with. lia. }
  { intros i row l Hrow Hl. rewrite list_lookup_fmap in Hrow.
    destruct (prob3 !! i); [|done]. inversion Hrow; subst. simpl.
    pose proof (proj1 (Forall_lookup _ _) Hrange i l Hl). simpl in *. lia. }
  assert (Hpred : Tensor.traverse Tensor.argmax (map Bert.row3 prob3)
                  = Ok (map argmax_row (map Bert.row3 prob3))).
  { apply traverse_total. apply List.Forall_forall. intros row Hin.
    apply in_map_iff in Hin as [p [<- _]]. done. }
  eexists. exists (map Bert.row3 prob3).
  unfold Bert._step. rewrite Hoh. simpl.
  fold praw. rewrite remap_hans_train_rows by lia. simpl.
  fold prob3. rewrite Hfirst. simpl. rewrite Hv, Hg. simpl.
  rewrite Hpred. simpl.
  rewrite broadcast2_same_length
    by (unfold prob3; rewrite !length_map, length_zip_with; lia).
  split; [reflexivity|]. unfold datapoint_prob, datapoint_pred.
  split; [reflexivity|]. split; [exact Hrows|].
  by apply argmax_rows_Qeq.
Qed.

End BertOutsideHans.

Lemma bert_step_rejects_label_witness :
  In 3 (Bert.labels BertCases.bad_label_batch) /\
  (3 < 0 \/ 3 <= 3) /\
  BertCases.step BertCases.bad_label_batch = Raise RuntimeError.
Proof.
  assert (Hin : In 3 (Bert.labels BertCases.bad_label_batch))
    by (simpl; tauto).
  assert (Hl : 3 < 0 \/ 3 <= 3) by lia.
  split; [exact Hin|]. split; [exact Hl|].
  exact (bert_step_rejects_label BertExample.forward_logits
           BertExample.softmax BertExample.ln BertExample.loss_criterion
           BertExample.hans_train BertExample.hans_validation
           BertCases.bad_label_batch 3 Hin Hl).
Defined.

Lemma bert_step_hans_validation_label_2_witness :
  Bert.dataset BertCases.hans_validation_label_2 = 5 :: [5] /\
  In 2 (Bert.labels BertCases.hans_validation_label_2) /\
  BertCases.step BertCases.hans_validation_label_2 = Raise RuntimeError.
Proof.
  assert (Hin : In 2 (Bert.labels BertCases.hans_validation_label_2))
    by (simpl; tauto).
  split; [reflexivity|]. split; [exact Hin|].
  apply (bert_step_hans_validation_label_2 BertExample.forward_logits
           BertExample.softmax BertExample.ln BertExample.loss_criterion
           BertExample.hans_train BertExample.hans_validation
           BertCases.hans_validation_label_2 [5]);
    [reflexivity | reflexivity | reflexivity | | exact Hin].
  repeat (constructor; [simpl; lia|]). constructor.
Defined.

Lemma bert_step_mnli_returns :
  exists r, BertCases.step BertCases.mnli_batch = Ok r.
Proof. eexists. vm_compute. reflexivity. Defined.

Lemma bert_step_pred_is_first_maximum_witness :
  exists r rows,
    BertCases.step BertCases.mnli_batch = Ok r /\
    datapoint_prob r = Prob2 rows /\
    length (datapoint_pred r) = length rows.
Proof.
  destruct bert_step_mnli_returns as [r Hr].
  destruct (bert_step_pred_is_first_maximum BertExample.forward_logits
              BertExample.softmax BertExample.ln BertExample.loss_criterion
              BertExample.hans_train BertExample.hans_validation
              BertCases.mnli_batch r Hr) as (rows & H1 & H2 & _).
  exists r, rows. split; [exact Hr|]. split; [exact H1 | exact H2].
Defined.

Lemma bert_step_accuracy_witness :
  exists r a,
    BertCases.step BertCases.mnli_batch = Ok r /\
    acc r = Some a /\ (0 <= a <= 1)%Q.
Proof.
  destruct bert_step_mnli_returns as [r Hr].
  destruct (bert_step_accuracy BertExample.forward_logits
              BertExample.softmax BertExample.ln BertExample.loss_criterion
              BertExample.hans_train BertExample.hans_validation
              BertCases.mnli_batch r eq_refl eq_refl Hr)
    as (_ & _ & _ & a & Ha & Hb).
  exists r, a. split; [exact Hr|]. split; [exact Ha | exact Hb].
Defined.

Lemma bert_step_empty_batch_witness :
  Bert.dataset BertCases.empty_batch = [] /\
  BertCases.step BertCases.empty_batch = Raise IndexError.
Proof.
  split; [reflexivity|].
  exact (bert_step_empty_batch BertExample.forward_logits
           BertExample.softmax BertExample.ln BertExample.loss_criterion
           BertExample.hans_train BertExample.hans_validation
           BertCases.empty_batch eq_refl eq_refl eq_refl).
Defined.

Lemma bert_step_outside_hans_witness :
  Bert.dataset BertCases.mnli_batch = 1 :: [1; 1] /\
  exists r,
    BertCases.step BertCases.mnli_batch = Ok r /\
    datapoint_pred r = [1; 1; 1].
Proof.
  split; [reflexivity|].
  destruct (bert_step_outside_hans BertExample.forward_logits
              BertExample.softmax BertExample.ln BertExample.loss_criterion
              BertExample.hans_train BertExample.hans_validation
              BertCases.mnli_batch 1 [1; 1] eq_refl)
    as (r & rows & Hr & _ & _ & Hp);
    [discriminate | | reflexivity | reflexivity | |].
  - repeat (constructor; [discriminate|]). constructor.
  - repeat (constructor; [simpl; lia|]). constructor.
  - exists r. split; [exact Hr|]. rewrite Hp. reflexivity.
Defined.

(** ** Further properties of [T5ForNLI._step] *)

Lemma sum_app (l1 l2 : list Q) :
  (Tensor.sum (l1 ++ l2) == Tensor.sum l1 + Tensor.sum l2)%Q.
Proof.
  induction l1 as [|x l1 IH]; simpl; [lra|]. rewrite IH. lra.
Qed.

Lemma chunks_concat (rows cols : nat) (l : list Q) :
  length l = (rows * cols)%nat ->
  concat (T5.chunks rows cols l) = l /\
  Forall (fun row => length row = cols) (T5.chunks rows cols l) /\
  length (T5.chunks rows cols l) = rows.
Proof.
  revert l. induction rows as [|rows IH]; intros l Hl; simpl in *.
  - destruct l; [done | discriminate].
  - destruct (IH (drop cols l)) as (Hc & Hf & Hn).
    { rewrite length_drop. lia. }
    split; [by rewrite Hc, take_drop|].
    split; [|by rewrite Hn].
    constructor; [rewrite length_take; lia | exact Hf].
Qed.

Lemma sum_row_means (rows : list (list Q)) (n : positive) :
  Forall (fun row => length row = Pos.to_nat n) rows ->
  (Tensor.sum (map T5.row_mean rows) * inject_Z (Z.pos n)
   == Tensor.sum (concat rows))%Q.
Proof.
  induction 1 as [|row rows Hrow _ IH]; simpl; [lra|].
  rewrite sum_app, <- IH. unfold T5.row_mean. rewrite Hrow.
  rewrite positive_nat_Z.
  assert (Hn : ~ (inject_Z (Z.pos n) == 0)%Q).
  { change 0%Q with (inject_Z 0). rewrite inject_Z_injective. lia. }
  field. exact Hn.
Qed.

Lemma sum_b2q_zero (flags : list bool) :
  (Tensor.sum (map Tensor.b2q flags) == 0)%Q ->
  Forall (fun f => f = 0%Q) (map Tensor.b2q flags).
Proof.
  induction flags as [|f flags IH]; simpl; intros H; [constructor|].
  pose proof (sum_b2q_bounds flags) as [H0 _].
  destruct f.
  - change (Tensor.b2q true) with 1%Q in H. lra.
  - change (Tensor.b2q false) with 0%Q in H.
    constructor; [done|]. apply IH. lra.
Qed.

Lemma filler_never_equal (preds labels : list Z) :
  Forall (fun p => p = -1) preds -> Forall (fun l => l <> -1) labels ->
  Forall (fun e => e = false) (zip_with Z.eqb preds labels).
Proof.
  intros Hp. revert labels.
  induction Hp as [|p preds -> _ IH]; intros [|l labels] Hl; cbn [zip_with];
    try constructor.
  - inversion Hl; subst. apply Z.eqb_neq. lia.
  - inversion Hl; subst. by apply IH.
Qed.

Lemma sum_all_false (e : list bool) :
  Forall (fun x => x = false) e -> (Tensor.sum (map Tensor.b2q e) == 0)%Q.
Proof.
  induction 1 as [|x e -> _ IH]; simpl; [lra|].
  change (Tensor.b2q false) with 0%Q. lra.
Qed.

Lemma filler_concat (rs : list results) :
  Forall filler_predictions rs ->
  Forall (fun p => p = -1) (Epoch.cat datapoint_pred rs) /\
  Forall (fun l => l <> -1) (Epoch.cat datapoint_label rs) /\
  length (Epoch.cat datapoint_pred rs) = length (Epoch.cat datapoint_label rs) /\
  exists flags : list bool,
    Epoch.catq datapoint_true_pred rs = map Tensor.b2q flags.
Proof.
  unfold Epoch.cat, Epoch.catq.
  induction 1 as [|r rs (Hp & Hl & Hn & flags & Hf) _
                    (IHp & IHl & IHn & fl & IHf)]; simpl.
  - repeat split; try constructor. by exists [].
  - repeat split.
    + by apply Forall_app.
    + by apply Forall_app.
    + rewrite !length_app. lia.
    + exists (flags ++ fl). by rewrite map_app, Hf, IHf.
Qed.

Lemma mean_some (l : list Q) (a : Q) :
  Tensor.mean l = Some a ->
  l <> [] /\ a = (Tensor.sum l / inject_Z (Z.of_nat (length l)))%Q.
Proof. destruct l; [done|]. intros H. inversion H. by split. Qed.

Lemma inject_nat_nonzero (l : list Q) :
  l <> [] -> ~ (inject_Z (Z.of_nat (length l)) == 0)%Q.
Proof.
  intros Hl. change 0%Q with (inject_Z 0). rewrite inject_Z_injective.
  destruct l; [done | simpl; lia].
Qed.

Lemma mean_zero_sum (l : list Q) (a : Q) :
  Tensor.mean l = Some a -> (a == 0)%Q -> (Tensor.sum l == 0)%Q.
Proof.
  intros H Ha. destruct (mean_some l a H) as [Hne Heq]. subst a.
  pose proof (inject_nat_nonzero l Hne) as Hn.
  transitivity ((Tensor.sum l / inject_Z (Z.of_nat (length l)))
                * inject_Z (Z.of_nat (length l)))%Q.
  - field. exact Hn.
  - setoid_rewrite Ha. ring.
Qed.

Lemma Forall_concat_flags (rs : list results) :
  Forall (fun f => f = 0%Q) (Epoch.catq datapoint_true_pred rs) ->
  Forall (fun r => Forall (fun f => f = 0%Q) (datapoint_true_pred r)) rs.
Proof.
  unfold Epoch.catq. induction rs as [|r rs IH]; simpl; [constructor|].
  intros H. apply Forall_app in H as [H1 H2]. constructor; auto.
Qed.

(** Result dictionaries with filler predictions pass the cross-check only
    when no example is flagged as right. *)
Lemma filler_cross_check (rs : list results) (t : Epoch.table) :
  Forall filler_predictions rs ->
  Epoch.parse_results rs = Ok t ->
  Epoch.acc_cross_check t = Ok true ->
  Forall (fun r => Forall (fun f => f = 0%Q) (datapoint_true_pred r)) rs.
Proof.
  intros Hrs Ht Hc. unfold Epoch.parse_results in Ht.
  destruct (Epoch.cat_prob _); [|discriminate]. simpl in Ht.
  inversion Ht; subst t; clear Ht.
  destruct (filler_concat rs Hrs) as (Hp & Hl & Hn & flags & Hf).
  unfold Epoch.acc_cross_check in Hc. simpl in Hc.
  rewrite numpy_eq_same_length in Hc by exact Hn. simpl in Hc.
  inversion Hc as [Hc']; clear Hc.
  destruct (Tensor.mean (Epoch.catq datapoint_true_pred rs)) as [x|] eqn:Ha;
    [|done].
  destruct (Tensor.mean (map Tensor.b2q _)) as [x'|] eqn:Ha' in Hc'; [|done].
  simpl in Hc'. apply Qeq_bool_iff in Hc'.
  apply Forall_concat_flags. rewrite Hf. apply sum_b2q_zero. rewrite <- Hf.
  apply (mean_zero_sum _ x Ha). rewrite Hc'.
  destruct (mean_some _ _ Ha') as [_ ->].
  rewrite (sum_all_false _ (filler_never_equal _ _ Hp Hl)).
  unfold Qdiv. lra.
Qed.

Section T5More.

Variable forward_logits : T5.batch -> list (list (list Q)).
Variable softmax : list Q -> list Q.
Variable loss_criterion : list (list Q) -> list Z -> list Q.
Variable T5_LABEL_PAD_LENGTH : positive.
Variable HANS_IDS : list Z.
Variable INTEGER_TO_DATASET : gmap Z string.
Variable INTEGER_TO_HEURISTIC : gmap Z string.
Variable HEURISTIC_TO_INTEGER : list (string * Z).
Variable HandcraftedType : list (string * Z).
Variable MNLI_DATASET_INTEGER_IDENTIFIERS : list Z.
Variable SNLI_DATASET_INTEGER_IDENTIFIERS : list Z.

Abbreviation t5step := (T5._step forward_logits softmax loss_criterion
                          T5_LABEL_PAD_LENGTH HANS_IDS).

Abbreviation t5shaped := (well_shaped forward_logits softmax loss_criterion
                            T5_LABEL_PAD_LENGTH).

Abbreviation t5labelled := (labelled forward_logits softmax loss_criterion
                              T5_LABEL_PAD_LENGTH).

Lemma t5_step_filler (b : T5.batch) (r : results) :
  t5labelled b -> t5step b = Ok r -> filler_predictions r.
Proof.
  intros (Hw & Hlen & Hlab) Hstep.
  destruct (t5_step_well_shaped _ _ _ _ HANS_IDS b Hw) as (loss & g & _ & Heq).
  rewrite Heq in Hstep. destruct_bind Hstep.
  inversion Hstep; subst r; clear Hstep.
  unfold filler_predictions. simpl.
  split; [by apply Forall_replicate|]. split; [exact Hlab|].
  split; [by rewrite length_replicate|].
  exists (zip_with (fun m ix => bool_decide (map argmax_row m = ix))
            (forward_logits b) (T5.target_input_ids b)).
  clear. generalize (T5.target_input_ids b).
  induction (forward_logits b) as [|m l IH]; intros [|ix t]; simpl;
    try done. by rewrite IH.
Qed.

(** X10.  [_epoch_end] completes on result dictionaries of
    [T5ForNLI._step] only if no example of any batch was predicted
    right: every prediction is the filler -1, so one correct example makes
    the accuracy cross-check fail. *)
Theorem epoch_end_t5_only_if_all_wrong (split : string)
    (rs : list results) (st st' : metric_log) :
  Forall (fun r => exists b, t5labelled b /\ t5step b = Ok r) rs ->
  Epoch._epoch_end INTEGER_TO_DATASET INTEGER_TO_HEURISTIC
    HEURISTIC_TO_INTEGER HandcraftedType MNLI_DATASET_INTEGER_IDENTIFIERS
    SNLI_DATASET_INTEGER_IDENTIFIERS HANS_IDS split rs st = (Ok tt, st') ->
  Forall (fun r => Forall (fun f => f = 0%Q) (datapoint_true_pred r)) rs.
Proof.
  intros Hrs Hend.
  destruct (epoch_end_ok_cross_check _ _ _ _ _ _ _ _ _ _ _ Hend)
    as (t & e & a & a' & Ht & He & Ha & Ha' & Haa).
  apply (filler_cross_check rs t); [|exact Ht|].
  - eapply Forall_impl; [exact Hrs|].
    intros r (b & Hb & Hr). by eapply t5_step_filler.
  - unfold Epoch.acc_cross_check. rewrite He. simpl. rewrite Ha, Ha'. simpl.
    f_equal. by apply Qeq_bool_iff.
Qed.

(** X11.  On a well-shaped batch with at least one example, the batch
    loss [T5ForNLI._step] returns is the mean of all the token losses of
    the criterion, and the loss of an example is the mean of its own
    [T5_LABEL_PAD_LENGTH] token losses. *)
Theorem t5_step_batch_loss (b : T5.batch) (r : results) :
  t5shaped b -> T5.target_input_ids b <> [] ->
  t5step b = Ok r ->
  let tokens := loss_criterion (concat (forward_logits b))
                  (concat (T5.target_input_ids b)) in
  datapoint_loss r
    = map T5.row_mean
        (T5.chunks (length (T5.target_input_ids b))
           (Pos.to_nat T5_LABEL_PAD_LENGTH) tokens) /\
  exists x,
    loss r = Some x /\
    (x == Tensor.sum tokens / inject_Z (Z.of_nat (length tokens)))%Q.
Proof.
  intros (Hshape & Hloss & Hsm) Hne Hstep tokens.
  unfold T5._step, T5.resize in Hstep. fold tokens in Hstep.
  fold tokens in Hloss. rewrite Hloss, Nat.eqb_refl in Hstep.
  simpl in Hstep. destruct_bind Hstep.
  inversion Hstep; subst r; clear Hstep. simpl.
  split; [reflexivity|].
  destruct (chunks_concat (length (T5.target_input_ids b))
              (Pos.to_nat T5_LABEL_PAD_LENGTH) tokens Hloss)
    as (Hc & Hf & Hn).
  set (rows := T5.chunks (length (T5.target_input_ids b))
                 (Pos.to_nat T5_LABEL_PAD_LENGTH) tokens) in *.
  pose proof (sum_row_means rows T5_LABEL_PAD_LENGTH Hf) as Hs.
  rewrite Hc in Hs.
  destruct (Tensor.mean (map T5.row_mean rows)) as [x|] eqn:Hm.
  - exists x. split; [done|].
    destruct (mean_some _ _ Hm) as [_ ->].
    rewrite length_map, Hn, Hloss, <- Hs.
    rewrite Nat2Z.inj_mul, inject_Z_mult, positive_nat_Z.
    assert (Hb : ~ (inject_Z (Z.of_nat (length (T5.target_input_ids b))) == 0)%Q).
    { change 0%Q with (inject_Z 0). rewrite inject_Z_injective.
      destruct (T5.target_input_ids b); [done | simpl; lia]. }
    assert (Hp : ~ (inject_Z (Z.pos T5_LABEL_PAD_LENGTH) == 0)%Q).
    { change 0%Q with (inject_Z 0). rewrite inject_Z_injective. lia. }
    field. split; done.
  - exfalso. unfold Tensor.mean in Hm.
    destruct (map T5.row_mean rows) eqn:Hmap; [|done].
    apply (f_equal length) in Hmap. rewrite length_map, Hn in Hmap.
    destruct (T5.target_input_ids b); [done | discriminate].
Qed.

End T5More.

Lemma t5_wrong_labelled :
  labelled T5Cases.wrong_logits T5Example.softmax T5Example.loss_criterion
    T5Example.pad T5Example.mnli_batch.
Proof.
  split; [|split].
  - split; [|split].
    + repeat (constructor; [repeat (constructor; [simpl; lia|]); constructor|]).
      constructor.
    + reflexivity.
    + intros l. unfold T5Example.softmax. by rewrite length_map.
  - reflexivity.
  - repeat (constructor; [discriminate|]). constructor.
Defined.

Lemma epoch_end_t5_only_if_all_wrong_witness :
  exists r st',
    T5._step T5Cases.wrong_logits T5Example.softmax T5Example.loss_criterion
      T5Example.pad EpochExample.HANS_DATASET_INTEGER_IDENTIFIERS
      T5Example.mnli_batch = Ok r /\
    Epoch._epoch_end EpochExample.INTEGER_TO_DATASET
      EpochExample.INTEGER_TO_HEURISTIC EpochExample.HEURISTIC_TO_INTEGER
      EpochExample.HandcraftedType
      EpochExample.MNLI_DATASET_INTEGER_IDENTIFIERS
      EpochExample.SNLI_DATASET_INTEGER_IDENTIFIERS
      EpochExample.HANS_DATASET_INTEGER_IDENTIFIERS
      "Train" [r] [] = (Ok tt, st') /\
    Forall (fun r => Forall (fun f => f = 0%Q) (datapoint_true_pred r)) [r].
Proof.
  assert (Hr : exists r,
             T5._step T5Cases.wrong_logits T5Example.softmax
               T5Example.loss_criterion T5Example.pad
               EpochExample.HANS_DATASET_INTEGER_IDENTIFIERS
               T5Example.mnli_batch = Ok r)
    by (eexists; vm_compute; reflexivity).
  destruct Hr as [r Hr].
  assert (He : exists st',
             Epoch._epoch_end EpochExample.INTEGER_TO_DATASET
               EpochExample.INTEGER_TO_HEURISTIC
               EpochExample.HEURISTIC_TO_INTEGER EpochExample.HandcraftedType
               EpochExample.MNLI_DATASET_INTEGER_IDENTIFIERS
               EpochExample.SNLI_DATASET_INTEGER_IDENTIFIERS
               EpochExample.HANS_DATASET_INTEGER_IDENTIFIERS
               "Train" [r] [] = (Ok tt, st')).
  { vm_compute in Hr. inversion Hr; subst r. eexists. vm_compute. reflexivity. }
  destruct He as [st' He].
  exists r, st'. split; [exact Hr|]. split; [exact He|].
  apply (epoch_end_t5_only_if_all_wrong T5Cases.wrong_logits
           T5Example.softmax T5Example.loss_criterion T5Example.pad
           EpochExample.HANS_DATASET_INTEGER_IDENTIFIERS
           EpochExample.INTEGER_TO_DATASET EpochExample.INTEGER_TO_HEURISTIC
           EpochExample.HEURISTIC_TO_INTEGER EpochExample.HandcraftedType
           EpochExample.MNLI_DATASET_INTEGER_IDENTIFIERS
           EpochExample.SNLI_DATASET_INTEGER_IDENTIFIERS
           "Train" [r] [] st'); [|exact He].
  constructor; [|constructor].
  exists T5Example.mnli_batch. split; [exact t5_wrong_labelled | exact Hr].
Defined.

Lemma t5_step_batch_loss_witness :
  T5.target_input_ids T5Example.mnli_batch <> [] /\
  exists r x,
    T5._step T5Example.forward_logits T5Example.softmax
      T5Example.loss_criterion T5Example.pad T5Example.hans_ids
      T5Example.mnli_batch = Ok r /\
    loss r = Some x /\ (x == 1)%Q.
Proof.
  assert (Hne : T5.target_input_ids T5Example.mnli_batch <> [])
    by discriminate.
  split; [exact Hne|].
  assert (Hr : exists r,
             T5._step T5Example.forward_logits T5Example.softmax
               T5Example.loss_criterion T5Example.pad T5Example.hans_ids
               T5Example.mnli_batch = Ok r)
    by (eexists; vm_compute; reflexivity).
  destruct Hr as [r Hr].
  destruct (t5_step_batch_loss T5Example.forward_logits T5Example.softmax
              T5Example.loss_criterion T5Example.pad T5Example.hans_ids
              T5Example.mnli_batch r
              (t5_example_well_shaped T5Example.mnli_batch eq_refl) Hne Hr)
    as (_ & x & Hx & Hxe).
  exists r, x. split; [exact Hr|]. split; [exact Hx|].
  rewrite Hxe. vm_compute. reflexivity.
Defined.

(** ** Further properties of the epoch-end aggregation *)

Lemma appends_ret {A} (a : A) : appends (retM a).
Proof. intros st r st' H. inversion H. exists []. by rewrite app_nil_r. Qed.

Lemma appends_lift {A} (x : res A) : appends (lift x).
Proof. intros st r st' H. inversion H. exists []. by rewrite app_nil_r. Qed.

Lemma appends_log name value : appends (log_metric name value).
Proof. intros st r st' H. inversion H. by eexists. Qed.

Lemma appends_bind {A B} (m : M A) (k : A -> M B) :
  appends m -> (forall a, appends (k a)) -> appends (bindM m k).
Proof.
  intros Hm Hk st r st' H. unfold bindM in H.
  destruct (m st) as [[a|e] st1] eqn:Hst.
  - destruct (Hm _ _ _ Hst) as [l1 ->].
    destruct (Hk a _ _ _ H) as [l2 ->].
    exists (l1 ++ l2). by rewrite app_assoc.
  - inversion H; subst. by eapply Hm.
Qed.

Lemma appends_for_each {A} (l : list A) (body : A -> M unit) :
  (forall a, appends (body a)) -> appends (for_each l body).
Proof.
  intros Hb. induction l as [|a l IH]; simpl.
  - apply appends_ret.
  - apply appends_bind; [apply Hb | intros _; exact IH].
Qed.

Lemma appends_if {A} (c : bool) (m1 m2 : M A) :
  appends m1 -> appends m2 -> appends (if c then m1 else m2).
Proof. by destruct c. Qed.

Ltac appends_tac :=
  repeat first
    [ apply appends_bind; [|intros ?]
    | apply appends_for_each; intros ?
    | apply appends_if
    | apply appends_log
    | apply appends_lift
    | apply appends_ret ].

Lemma log_mnli_appends HandcraftedType prefix dataset_str t :
  appends (Epoch._log_mnli_epoch_end HandcraftedType prefix dataset_str t).
Proof. unfold Epoch._log_mnli_epoch_end. appends_tac. Qed.

Lemma log_hans_appends HEURISTIC_TO_INTEGER prefix dataset_str t :
  appends (Epoch._log_hans_epoch_end HEURISTIC_TO_INTEGER prefix dataset_str t).
Proof. unfold Epoch._log_hans_epoch_end. appends_tac. Qed.

Section EpochEndMore.

Variable INTEGER_TO_DATASET : gmap Z string.
Variable INTEGER_TO_HEURISTIC : gmap Z string.
Variable HEURISTIC_TO_INTEGER : list (string * Z).
Variable HandcraftedType : list (string * Z).
Variable MNLI_DATASET_INTEGER_IDENTIFIERS : list Z.
Variable SNLI_DATASET_INTEGER_IDENTIFIERS : list Z.
Variable HANS_DATASET_INTEGER_IDENTIFIERS : list Z.

Abbreviation eend :=
  (Epoch._epoch_end INTEGER_TO_DATASET INTEGER_TO_HEURISTIC
     HEURISTIC_TO_INTEGER HandcraftedType MNLI_DATASET_INTEGER_IDENTIFIERS
     SNLI_DATASET_INTEGER_IDENTIFIERS HANS_DATASET_INTEGER_IDENTIFIERS).

(** X13.  [_epoch_end] raises without logging anything on an empty result
    list and on an empty first batch ([IndexError]), on a data set
    identifier that is not in [INTEGER_TO_DATASET] ([KeyError]), and
    whenever the accuracy cross-check does not hold. *)
Theorem epoch_end_fails_before_logging (split : string) (rs : list results)
    (st : metric_log) :
  (rs = [] -> eend split rs st = (Raise IndexError, st)) /\
  (forall r rest,
     rs = r :: rest -> datapoint_dataset r = [] ->
     eend split rs st = (Raise IndexError, st)) /\
  (forall r rest d ds,
     rs = r :: rest -> datapoint_dataset r = d :: ds ->
     INTEGER_TO_DATASET !! d = None ->
     eend split rs st = (Raise KeyError, st)) /\
  (forall t,
     Epoch.parse_results rs = Ok t ->
     Epoch.acc_cross_check t <> Ok true ->
     exists e, eend split rs st = (Raise e, st)).
Proof.
  unfold Epoch._epoch_end, bindM, lift.
  split; [by intros ->|]. split; [by intros r rest -> ->|].
  split.
  - intros r rest d ds -> Hd Hk. rewrite Hd. simpl.
    unfold Epoch.dict_get. by rewrite Hk.
  - intros t Ht Hc. destruct rs as [|r rest]; [by eexists|].
    destruct (Tensor.first_item _); [|by eexists].
    destruct (Epoch.dict_get _ _); [|by eexists].
    rewrite Ht. destruct (py_assert _); [|by eexists].
    destruct (Tensor.traverse _ (Epoch.t_heuristic t)); [|by eexists].
    destruct (Tensor.traverse _ (Epoch.t_handcrafted_type t)); [|by eexists].
    destruct (Epoch.acc_cross_check t) as [[|]|]; [done | | ]; by eexists.
Qed.

(** X14.  When [_epoch_end] completes, every one of the ten arrays of the
    concatenated table has the same number [n] of entries (rows, for the
    probabilities of the classifier), [n] is at least 1, and the first
    three metrics it logged are the mean of all the per-example losses,
    the mean of all the correctness flags (neither is NaN) and [n]. *)
Theorem epoch_end_summary (split : string) (rs : list results)
    (st st' : metric_log) :
  eend split rs st = (Ok tt, st') ->
  exists t dataset_str loss acc rest,
    Epoch.parse_results rs = Ok t /\
    let n := length (Epoch.t_idx t) in
    (1 <= n)%nat /\
    length (Epoch.t_dataset t) = n /\ length (Epoch.t_label t) = n /\
    length (Epoch.t_handcrafted_type t) = n /\
    length (Epoch.t_heuristic t) = n /\
    length (Epoch.t_loss t) = n /\ length (Epoch.t_pred t) = n /\
    length (Epoch.t_true_pred t) = n /\
    prob_length (Epoch.t_prob t) = n /\
    length (Epoch.t_true_prob t) = n /\
    Tensor.mean (Epoch.t_loss t) = Some loss /\
    Tensor.mean (Epoch.t_true_pred t) = Some acc /\
    st' = st ++ [(split +:+ "/" +:+ dataset_str +:+ "/loss_epoch", Some loss);
                 (split +:+ "/" +:+ dataset_str +:+ "/acc_epoch", Some acc);
                 (split +:+ "/" +:+ dataset_str +:+ "/datapoint_count_epoch",
                  Some (inject_Z (Z.of_nat n)))] ++ rest.
Proof.
  unfold Epoch._epoch_end, bindM, lift. intros H.
  destruct rs as [|first rest0]; [discriminate|].
  destruct (Tensor.first_item (datapoint_dataset first)) as [d|] eqn:Hd;
    [|discriminate].
  destruct (Epoch.dict_get INTEGER_TO_DATASET d) as [dataset_str|];
    [|discriminate].
  destruct (Epoch.parse_results (first :: rest0)) as [t|] eqn:Ht;
    [|discriminate].
  destruct (py_assert _); [|discriminate].
  destruct (Tensor.traverse _ (Epoch.t_heuristic t)); [|discriminate].
  destruct (Tensor.traverse _ (Epoch.t_handcrafted_type t)); [|discriminate].
  destruct (Epoch.acc_cross_check t) as [ok|]; [|discriminate].
  destruct (py_assert ok); [|discriminate].
  unfold log_metric in H.
  set (st3 := ((st ++ _) ++ _) ++ _) in H.
  destruct ((if existsb _ _ then Epoch._log_mnli_epoch_end _ _ _ _
             else retM tt) st3) as [[u|] st4] eqn:Hm; [|discriminate].
  assert (Hm' : exists l4, st4 = st3 ++ l4).
  { revert Hm. apply appends_if; [apply log_mnli_appends | apply appends_ret]. }
  destruct Hm' as [l4 ->].
  destruct ((if existsb _ HANS_DATASET_INTEGER_IDENTIFIERS
             then Epoch._log_hans_epoch_end _ _ _ _ else retM tt) (st3 ++ l4))
    as [[u'|] st5] eqn:Hh; [|discriminate].
  assert (Hh' : exists l5, st5 = (st3 ++ l4) ++ l5).
  { revert Hh. apply appends_if; [apply log_hans_appends | apply appends_ret]. }
  destruct Hh' as [l5 ->].
  destruct (Epoch.dataframe_check t (length (Epoch.t_idx t))) eqn:Hdf;
    [|discriminate].
  inversion H; subst st'; clear H.
  unfold Epoch.dataframe_check in Hdf.
  destruct (forallb _ _) eqn:Hall in Hdf; [|discriminate].
  simpl in Hall. rewrite !andb_true_iff, !Nat.eqb_eq in Hall.
  destruct Hall as (K1 & K2 & K3 & K4 & K5 & K6 & K7 & K8 & K9 & _).
  assert (Hn : (1 <= length (Epoch.t_idx t))%nat).
  { rewrite K1. unfold Epoch.parse_results in Ht.
    destruct (Epoch.cat_prob _); [|discriminate]. simpl in Ht.
    inversion Ht; subst t. simpl. unfold Epoch.cat. simpl.
    rewrite length_app. destruct (datapoint_dataset first); [done|].
    simpl. lia. }
  destruct (Tensor.mean (Epoch.t_loss t)) as [loss|] eqn:Hl.
  2:{ destruct (Epoch.t_loss t); [simpl in *; lia | done]. }
  destruct (Tensor.mean (Epoch.t_true_pred t)) as [acc|] eqn:Ha.
  2:{ destruct (Epoch.t_true_pred t); [simpl in *; lia | done]. }
  exists t, dataset_str, loss, acc, (l4 ++ l5).
  split; [done|]. cbv zeta. unfold prob_length.
  repeat (split; [done || lia|]).
  unfold st3. by rewrite <- !app_assoc.
Qed.

End EpochEndMore.

Lemma epoch_end_summary_witness :
  exists r st' t,
    BertCases.step BertCases.mnli_batch = Ok r /\
    Epoch._epoch_end EpochExample.INTEGER_TO_DATASET
      EpochExample.INTEGER_TO_HEURISTIC EpochExample.HEURISTIC_TO_INTEGER
      EpochExample.HandcraftedType
      EpochExample.MNLI_DATASET_INTEGER_IDENTIFIERS
      EpochExample.SNLI_DATASET_INTEGER_IDENTIFIERS
      EpochExample.HANS_DATASET_INTEGER_IDENTIFIERS
      "Valid" [r] [] = (Ok tt, st') /\
    Epoch.parse_results [r] = Ok t /\
    length (Epoch.t_idx t) = 3%nat.
Proof.
  destruct bert_step_mnli_returns as [r Hr].
  assert (He : exists st',
             Epoch._epoch_end EpochExample.INTEGER_TO_DATASET
               EpochExample.INTEGER_TO_HEURISTIC
               EpochExample.HEURISTIC_TO_INTEGER EpochExample.HandcraftedType
               EpochExample.MNLI_DATASET_INTEGER_IDENTIFIERS
               EpochExample.SNLI_DATASET_INTEGER_IDENTIFIERS
               EpochExample.HANS_DATASET_INTEGER_IDENTIFIERS
               "Valid" [r] [] = (Ok tt, st')).
  { vm_compute in Hr. inversion Hr; subst r. eexists. vm_compute. reflexivity. }
  destruct He as [st' He].
  destruct (epoch_end_summary _ _ _ _ _ _ _ _ _ _ _ He)
    as (t & ds & lo & ac & rest & Ht & _).
  exists r, st', t. split; [exact Hr|]. split; [exact He|].
  split; [exact Ht|].
  vm_compute in Hr. inversion Hr; subst r.
  vm_compute in Ht. inversion Ht; subst t. reflexivity.
Defined.

Lemma bert_step_nonempty
    (forward_logits : Bert.batch -> list (Q * Q * Q))
    (softmax : Q * Q * Q -> Q * Q * Q) (ln : Q -> Q)
    (loss_criterion : list (list Q) -> list (list Q) -> list Q)
    (hans_train hans_validation : Z) (b : Bert.batch) (r : results) :
  length (forward_logits b) = length (Bert.dataset b) ->
  length (Bert.labels b) = length (Bert.dataset b) ->
  Bert._step forward_logits softmax ln loss_criterion hans_train
    hans_validation b = Ok r ->
  datapoint_true_pred r <> [].
Proof.
  intros Hlen Hlab Hstep.
  destruct (bert_step_flags_follow_pred _ _ _ _ _ _ _ _ Hlen Hlab Hstep)
    as [Hl Hf].
  unfold Bert._step in Hstep. destruct_bind Hstep.
  inversion Hstep; subst r; clear Hstep. simpl in *.
  intros Hnil. apply (f_equal length) in Hf.
  rewrite Hnil, length_map, length_zip_with in Hf. simpl in Hf.
  match goal with
  | H : Tensor.first_item (Bert.dataset b) = Ok _ |- _ =>
      destruct (Bert.dataset b); [discriminate H|]
  end.
  simpl in *. lia.
Qed.

Section BertCrossCheck.

Variable forward_logits : Bert.batch -> list (Q * Q * Q).
Variable softmax : Q * Q * Q -> Q * Q * Q.
Variable ln : Q -> Q.
Variable loss_criterion : list (list Q) -> list (list Q) -> list Q.
Variable hans_train : Z.
Variable hans_validation : Z.

(** X15.  The accuracy cross-check of [_epoch_end] holds on every
    non-empty list of result dictionaries of [BertForNLI._step], taken on
    batches with one logit row and one label per example. *)
Theorem bert_results_pass_cross_check (rs : list results) (t : Epoch.table) :
  Forall (fun r => exists b,
            length (forward_logits b) = length (Bert.dataset b) /\
            length (Bert.labels b) = length (Bert.dataset b) /\
            Bert._step forward_logits softmax ln loss_criterion hans_train
              hans_validation b = Ok r) rs ->
  rs <> [] ->
  Epoch.parse_results rs = Ok t ->
  Epoch.acc_cross_check t = Ok true.
Proof.
  intros Hrs Hne Ht. apply (cross_check_passes rs t); [|exact Ht|].
  - eapply Forall_impl; [exact Hrs|].
    intros r (b & H1 & H2 & H3). by eapply bert_step_flags_follow_pred.
  - destruct rs as [|r rs']; [done|].
    inversion Hrs as [|? ? (b & H1 & H2 & H3) _]; subst.
    pose proof (bert_step_nonempty _ _ _ _ _ _ _ _ H1 H2 H3) as Hr.
    unfold Epoch.parse_results in Ht.
    destruct (Epoch.cat_prob _); [|discriminate]. simpl in Ht.
    inversion Ht; subst t. simpl. unfold Epoch.catq. simpl.
    destruct (datapoint_true_pred r); done.
Qed.

End BertCrossCheck.

Lemma bert_results_pass_cross_check_witness :
  exists r t,
    BertCases.step BertCases.mnli_batch = Ok r /\
    Epoch.parse_results [r] = Ok t /\
    Epoch.acc_cross_check t = Ok true.
Proof.
  destruct bert_step_mnli_returns as [r Hr].
  assert (Ht : exists t, Epoch.parse_results [r] = Ok t).
  { vm_compute in Hr. inversion Hr; subst r. eexists. vm_compute. reflexivity. }
  destruct Ht as [t Ht]. exists r, t.
  split; [exact Hr|]. split; [exact Ht|].
  apply (bert_results_pass_cross_check BertExample.forward_logits
           BertExample.softmax BertExample.ln BertExample.loss_criterion
           BertExample.hans_train BertExample.hans_validation [r] t);
    [|discriminate|exact Ht].
  constructor; [|constructor].
  exists BertCases.mnli_batch. split; [reflexivity|].
  split; [reflexivity | exact Hr].
Defined.

(** X16.  If [_epoch_end] completes, the mean of the correctness flags
    equals the mean of [pred == label] over the concatenated arrays: the
    assertion is a run-time check of this equality. *)
Theorem epoch_end_enforces_cross_check
    (INTEGER_TO_DATASET INTEGER_TO_HEURISTIC : gmap Z string)
    (HEURISTIC_TO_INTEGER HandcraftedType : list (string * Z))
    (MNLI SNLI HANS : list Z)
    (split : string) (rs : list results) (st st' : metric_log) :
  Epoch._epoch_end INTEGER_TO_DATASET INTEGER_TO_HEURISTIC
    HEURISTIC_TO_INTEGER HandcraftedType MNLI SNLI HANS split rs st
  = (Ok tt, st') ->
  exists t e a a',
    Epoch.parse_results rs = Ok t /\
    Numpy.eq (Epoch.t_pred t) (Epoch.t_label t) = Ok e /\
    Tensor.mean (Epoch.t_true_pred t) = Some a /\
    Tensor.mean (map Tensor.b2q e) = Some a' /\
    (a == a')%Q.
Proof. apply epoch_end_ok_cross_check. Qed.

Lemma epoch_end_enforces_cross_check_witness :
  exists r st' t,
    BertCases.step BertCases.mnli_batch = Ok r /\
    Epoch._epoch_end EpochExample.INTEGER_TO_DATASET
      EpochExample.INTEGER_TO_HEURISTIC EpochExample.HEURISTIC_TO_INTEGER
      EpochExample.HandcraftedType
      EpochExample.MNLI_DATASET_INTEGER_IDENTIFIERS
      EpochExample.SNLI_DATASET_INTEGER_IDENTIFIERS
      EpochExample.HANS_DATASET_INTEGER_IDENTIFIERS
      "Valid" [r] [] = (Ok tt, st') /\
    Epoch.parse_results [r] = Ok t.
Proof.
  destruct bert_step_mnli_returns as [r Hr].
  assert (He : exists st',
             Epoch._epoch_end EpochExample.INTEGER_TO_DATASET
               EpochExample.INTEGER_TO_HEURISTIC
               EpochExample.HEURISTIC_TO_INTEGER EpochExample.HandcraftedType
               EpochExample.MNLI_DATASET_INTEGER_IDENTIFIERS
               EpochExample.SNLI_DATASET_INTEGER_IDENTIFIERS
               EpochExample.HANS_DATASET_INTEGER_IDENTIFIERS
               "Valid" [r] [] = (Ok tt, st')).
  { vm_compute in Hr. inversion Hr; subst r. eexists. vm_compute. reflexivity. }
  destruct He as [st' He].
  destruct (epoch_end_enforces_cross_check _ _ _ _ _ _ _ _ _ _ _ He)
    as (t & _ & _ & _ & Ht & _).
  exists r, st', t. split; [exact Hr|]. split; [exact He | exact Ht].
Defined.

(** The log of [_log_hans_epoch_end] in closed form, pair by pair. *)
Lemma log_hans_epoch_end_entries (HEURISTIC_TO_INTEGER : list (string * Z))
    (prefix dataset_str : string) (t : Epoch.table) (st : metric_log) :
  length (Epoch.t_heuristic t) = length (Epoch.t_label t) ->
  length (Epoch.t_label t) = length (Epoch.t_loss t) ->
  length (Epoch.t_loss t) = length (Epoch.t_pred t) ->
  Epoch._log_hans_epoch_end HEURISTIC_TO_INTEGER prefix dataset_str t st
  = (Ok tt,
     st ++ concat (map (fun tl =>
                          concat (map (hans_entries prefix t tl)
                                    HEURISTIC_TO_INTEGER))
                     Epoch.hans_labels)).
Proof.
  intros H1 H2 H3. unfold Epoch._log_hans_epoch_end.
  apply for_each_appends. intros tl st1 _.
  apply for_each_appends. intros h st2 _.
  destruct (select_group (snd h) (fst tl) (Epoch.t_heuristic t)
              (Epoch.t_label t) (Epoch.t_loss t) (Epoch.t_pred t) H1 H2 H3)
    as (Hlo & Hp & Hl & Hc).
  fold (examples t) in Hlo, Hp, Hl, Hc.
  fold (hans_group t (snd h) (fst tl)) in Hlo, Hp, Hl, Hc.
  unfold bindM, lift.
  rewrite numpy_and_same_length by (rewrite !length_map; lia).
  fold (hans_mask (snd h) (fst tl) (Epoch.t_heuristic t) (Epoch.t_label t)).
  rewrite Hc. unfold hans_entries.
  destruct (hans_group t (snd h) (fst tl)) as [|e grp] eqn:Hg.
  - simpl. unfold retM. by rewrite app_nil_r.
  - assert (Hm : length (hans_mask (snd h) (fst tl) (Epoch.t_heuristic t)
                           (Epoch.t_label t)) = length (Epoch.t_label t)).
    { unfold hans_mask. rewrite length_zip_with, !length_map. lia. }
    cbn [length Nat.eqb].
    rewrite !getmask_same_length by lia.
    rewrite Hlo, Hp, Hl.
    rewrite numpy_eq_same_length by (by rewrite !length_map).
    rewrite zip_with_eqb_group, map_map.
    unfold log_metric. by rewrite <- app_assoc.
Qed.

Lemma hans_entries_values (prefix : string) (t : Epoch.table)
    (tl : Z * string) (h : string * Z) :
  Forall (fun kv => exists q, snd kv = Some q /\
                              forall desc name,
                                fst kv = Epoch.hans_acc_key prefix desc name ->
                                (0 <= q <= 1)%Q)
    (hans_entries prefix t tl h).
Proof.
  unfold hans_entries.
  destruct (hans_group t (snd h) (fst tl)) as [|e grp]; [constructor|].
  constructor; [|constructor; [|constructor]].
  - simpl. eexists. split; [reflexivity|].
    intros desc name Hk. exfalso.
    unfold Epoch.hans_loss_key, Epoch.hans_acc_key in Hk.
    apply (f_equal (fun s => String.get (String.length prefix + 6) s)) in Hk.
    revert Hk. clear. induction prefix as [|c p IH]; simpl; [discriminate|].
    exact IH.
  - simpl snd.
    destruct (Tensor.mean _) as [a|] eqn:Ha; [|done].
    exists a. split; [done|]. intros _ _ _.
    rewrite <- (map_map (fun e0 => Z.eqb (ex_pred e0) (ex_label e0)) Tensor.b2q)
      in Ha.
    by eapply mean_b2q_bounds.
Qed.

(** X17.  On a table whose arrays have one length, no value
    [_log_hans_epoch_end] logs is NaN, and every accuracy it logs lies
    between 0 and 1. *)
Theorem log_hans_epoch_end_no_nan (HEURISTIC_TO_INTEGER : list (string * Z))
    (prefix dataset_str : string) (t : Epoch.table) (st : metric_log) :
  length (Epoch.t_heuristic t) = length (Epoch.t_label t) ->
  length (Epoch.t_label t) = length (Epoch.t_loss t) ->
  length (Epoch.t_loss t) = length (Epoch.t_pred t) ->
  exists l,
    Epoch._log_hans_epoch_end HEURISTIC_TO_INTEGER prefix dataset_str t st
    = (Ok tt, st ++ l) /\
    Forall (fun kv => exists q, snd kv = Some q) l /\
    forall desc name v,
      In (Epoch.hans_acc_key prefix desc name, v) l ->
      exists q, v = Some q /\ (0 <= q <= 1)%Q.
Proof.
  intros H1 H2 H3. eexists.
  split; [by apply log_hans_epoch_end_entries|].
  assert (Hall : Forall (fun kv => exists q, snd kv = Some q /\
                           forall desc name,
                             fst kv = Epoch.hans_acc_key prefix desc name ->
                             (0 <= q <= 1)%Q)
                   (concat (map (fun tl =>
                                   concat (map (hans_entries prefix t tl)
                                             HEURISTIC_TO_INTEGER))
                              Epoch.hans_labels))).
  { apply Forall_concat, Forall_fmap, List.Forall_forall. intros tl _.
    apply Forall_concat, Forall_fmap, List.Forall_forall. intros h _.
    apply hans_entries_values. }
  split.
  - eapply Forall_impl; [exact Hall|]. intros kv (q & Hq & _). by exists q.
  - intros desc name v Hin. rewrite List.Forall_forall in Hall.
    destruct (Hall _ Hin) as (q & Hq & Hb). simpl in *.
    exists q. split; [done|]. by eapply Hb.
Qed.

Lemma log_hans_epoch_end_no_nan_witness :
  exists l,
    Epoch._log_hans_epoch_end EpochExample.HEURISTIC_TO_INTEGER
      "Valid" "hans_validation" EpochExample.hans_table [] = (Ok tt, [] ++ l) /\
    Forall (fun kv => exists q, snd kv = Some q) l.
Proof.
  destruct (log_hans_epoch_end_no_nan EpochExample.HEURISTIC_TO_INTEGER
              "Valid" "hans_validation" EpochExample.hans_table []
              eq_refl eq_refl eq_refl) as (l & H1 & H2 & _).
  exists l. split; [exact H1 | exact H2].
Defined.

(** ** Further properties of the optimizer-string parser *)

Lemma parse_item_raises d x e :
  Mutils.parse_item d x = Raise e -> e = AssertionError.
Proof.
  unfold Mutils.parse_item.
  destruct (Mutils.split "=" x) as [|name [|value [|? ?]]]; simpl;
    try (intros H; by inversion H).
  destruct (Mutils.re_match_anchored Mutils.numeric_literal value) eqn:Hre;
    simpl; [|intros H; by inversion H].
  destruct (re_match_py_float value Hre) as [v ->]. simpl. discriminate.
Qed.

Lemma parse_items_raises items : forall d e,
  Mutils.parse_items d items = Raise e -> e = AssertionError.
Proof.
  induction items as [|x items IH]; intros d e; simpl; [discriminate|].
  destruct (Mutils.parse_item d x) as [d1|e1] eqn:Hx; simpl.
  - apply IH.
  - intros H. inversion H; subst. by eapply parse_item_raises.
Qed.

Lemma select_optim_raises method (d : gmap string Q) e :
  Mutils.select_optim method d = Raise e ->
  e = AssertionError \/ e = Exception.
Proof.
  unfold Mutils.select_optim.
  repeat match goal with
         | |- context [String.eqb method ?m] =>
             destruct (String.eqb method m); [try discriminate|]
         end.
  - destruct (bool_decide _); simpl; [discriminate|].
    intros H; inversion H. by left.
  - intros H; inversion H. by right.
Qed.

Section GetOptimizerMore.

Variable signature : Mutils.optim -> list string.

(** X19.  When the constructor of the class of [o] begins with [self] and
    [params], [get_optimizer] returns [o] with some dictionary exactly
    when the method name of the string is the one of [o], every item is a
    [name=value] whose value has the numeric format and whose name is a
    further argument of the constructor, and, for [sgd], one item is
    named [lr]. *)
Theorem get_optimizer_returns_iff (s : string) (o : Mutils.optim) :
  take 2 (signature o) = ["self"; "params"]%string ->
  (exists d, Mutils.get_optimizer signature s = Ok (o, d)) <->
  optim_of_method (Mutils.method_of s) = Some o /\
  Forall (accepted_item (drop 2 (signature o))) (parsed_items s) /\
  (o = Mutils.SGD ->
   exists x value, In x (parsed_items s) /\
                   Mutils.split "=" x = ["lr"%string; value]).
Proof.
  intros Hsig. split.
  - intros [d H].
    destruct (get_optimizer_ok signature s o d H)
      as (Hm & Hwf & Hd & Hacc & Hlr).
    split; [exact Hm|]. split.
    + rewrite List.Forall_forall in Hwf. apply List.Forall_forall.
      intros x Hin. destruct (Hwf x Hin) as (name & value & v & Hs & Hre & Hv).
      exists name, value. split; [exact Hs|]. split; [exact Hre|].
      apply Hacc. rewrite Hd. unfold float_of_last.
      destruct (last_value_is_some _ _ _ _ Hin Hs) as [val Hval].
      rewrite Hval.
      destruct (last_value_from_item _ _ _ Hval) as (y & Hy & Hsy).
      destruct (Hwf y Hy) as (n' & v' & q & Hs' & _ & Hq).
      rewrite Hsy in Hs'. inversion Hs'; subst. rewrite Hq. by eexists.
    + intros Ho. destruct (Hlr Ho) as [v Hv].
      rewrite Hd in Hv. unfold float_of_last in Hv.
      destruct (last_value (parsed_items s) "lr") as [value|] eqn:Hl; [|done].
      destruct (last_value_from_item _ _ _ Hl) as (x & Hin & Hs).
      by exists x, value.
  - intros (Hm & Hitems & Hlr).
    by apply get_optimizer_accepts.
Qed.

(** X20.  [get_optimizer] raises nothing but [AssertionError] and
    [Exception]: the pattern lets through only values that [float] reads,
    so the conversion never raises [ValueError]. *)
Theorem get_optimizer_raises_only (s : string) (e : exn) :
  Mutils.get_optimizer signature s = Raise e ->
  e = AssertionError \/ e = Exception.
Proof.
  unfold Mutils.get_optimizer. intros H.
  destruct (if Mutils.contains "," s
            then Mutils.parse_items ∅ (Mutils.items_of s) else Ok ∅)
    as [d|e1] eqn:Hp; simpl in H.
  - destruct (Mutils.select_optim (Mutils.method_of s) d) as [o|e2] eqn:Ho;
      simpl in H.
    + destruct (bool_decide _); simpl in H.
      * destruct (forallb _ _); [discriminate|]. inversion H. by right.
      * inversion H. by left.
    + inversion H; subst. by eapply select_optim_raises.
  - inversion H; subst. left.
    destruct (Mutils.contains "," s); [|discriminate].
    by eapply parse_items_raises.
Qed.

End GetOptimizerMore.

Lemma get_optimizer_returns_iff_witness :
  take 2 (MutilsExample.signature Mutils.SGD) = ["self"; "params"]%string /\
  ((exists d,
      Mutils.get_optimizer MutilsExample.signature "sgd,lr=0.01"
      = Ok (Mutils.SGD, d)) <->
   optim_of_method (Mutils.method_of "sgd,lr=0.01") = Some Mutils.SGD /\
   Forall (accepted_item (drop 2 (MutilsExample.signature Mutils.SGD)))
     (parsed_items "sgd,lr=0.01") /\
   (Mutils.SGD = Mutils.SGD ->
    exists x value, In x (parsed_items "sgd,lr=0.01") /\
                    Mutils.split "=" x = ["lr"%string; value])).
Proof.
  split; [reflexivity|].
  apply (get_optimizer_returns_iff MutilsExample.signature "sgd,lr=0.01"
           Mutils.SGD).
  reflexivity.
Defined.

Lemma get_optimizer_raises_only_witness :
  Mutils.get_optimizer MutilsExample.signature "adam,lr=1e-3"
    = Raise AssertionError /\
  (AssertionError = AssertionError \/ AssertionError = Exception).
Proof.
  assert (H : Mutils.get_optimizer MutilsExample.signature "adam,lr=1e-3"
              = Raise AssertionError) by (vm_compute; reflexivity).
  split; [exact H|].
  exact (get_optimizer_raises_only MutilsExample.signature "adam,lr=1e-3"
           AssertionError H).
Defined.

(** ** The files the InferSent scripts write *)

Lemma str_app_assoc (a b c : string) :
  ((a +:+ b) +:+ c)%string = (a +:+ (b +:+ c))%string.
Proof.
  induction a as [|x a IH]; [by rewrite !string_append_nil_l|].
  rewrite !string_append_cons. by rewrite IH.
Qed.

Lemma str_app_nil_r (a : string) : (a +:+ "")%string = a.
Proof.
  induction a as [|x a IH]; [apply string_append_nil_l|].
  rewrite string_append_cons. by rewrite IH.
Qed.

Lemma str_length_app (a b : string) :
  String.length (a +:+ b) = (String.length a + String.length b)%nat.
Proof.
  induction a as [|x a IH]; [by rewrite string_append_nil_l|].
  rewrite string_append_cons. simpl. by rewrite IH.
Qed.

Lemma contains_app c (a b : string) :
  Mutils.contains c (a +:+ b) = Mutils.contains c a || Mutils.contains c b.
Proof.
  induction a as [|x a IH]; [by rewrite string_append_nil_l|].
  rewrite string_append_cons. simpl. rewrite IH. by rewrite orb_assoc.
Qed.

Lemma but_last_snoc (a : string) c :
  Files.but_last (a +:+ String c "") = a.
Proof.
  induction a as [|x a IH]; [by rewrite string_append_nil_l|].
  rewrite string_append_cons. simpl. rewrite IH.
  destruct a as [|y a]; [by rewrite string_append_nil_l|].
  by rewrite string_append_cons.
Qed.

Lemma suffixed_join c (l : list string) :
  l <> [] -> suffixed (String c "") l = (join (String c "") l +:+ String c "")%string.
Proof.
  induction l as [|x l IH]; [done|]. intros _.
  destruct l as [|y l]; [by simpl; rewrite str_app_nil_r|].
  change (suffixed (String c "") (x :: y :: l))
    with (x +:+ (String c "" +:+ suffixed (String c "") (y :: l)))%string.
  rewrite IH by done.
  change (join (String c "") (x :: y :: l))
    with (x +:+ (String c "" +:+ join (String c "") (y :: l)))%string.
  by rewrite !str_app_assoc.
Qed.

Lemma but_last_suffixed c (l : list string) :
  Files.but_last (suffixed (String c "") l) = join (String c "") l.
Proof.
  destruct l as [|x l]; [done|].
  rewrite suffixed_join by done. apply but_last_snoc.
Qed.

Lemma fold_left_suffixed sep (l : list string) : forall acc,
  fold_left (fun line key => (line +:+ (key +:+ sep))%string) l acc
  = (acc +:+ suffixed sep l)%string.
Proof.
  induction l as [|x l IH]; intros acc; simpl; [by rewrite str_app_nil_r|].
  rewrite IH. by rewrite !str_app_assoc.
Qed.

Lemma split_free c (a : string) :
  Mutils.contains c a = false -> Mutils.split c a = [a].
Proof.
  induction a as [|x a IH]; [done|]. simpl. intros H.
  apply orb_false_iff in H as [Hx Ha]. rewrite Hx. by rewrite IH.
Qed.

Lemma split_app c (a b : string) :
  Mutils.contains c a = false ->
  Mutils.split c (a +:+ String c b) = a :: Mutils.split c b.
Proof.
  induction a as [|x a IH]; intros H.
  - rewrite string_append_nil_l. simpl. by rewrite Ascii.eqb_refl.
  - simpl in H. apply orb_false_iff in H as [Hx Ha].
    rewrite string_append_cons. simpl. rewrite Hx. by rewrite IH.
Qed.

Lemma split_join c (l : list string) :
  l <> [] -> Forall (fun x => Mutils.contains c x = false) l ->
  Mutils.split c (join (String c "") l) = l.
Proof.
  induction l as [|x l IH]; [done|]. intros _ Hl.
  inversion Hl as [|? ? Hx Hl']; subst.
  destruct l as [|y l]; [by apply split_free|].
  change (join (String c "") (x :: y :: l))
    with (x +:+ (String c "" +:+ join (String c "") (y :: l)))%string.
  rewrite string_append_cons, string_append_nil_l.
  rewrite split_app by done. by rewrite IH.
Qed.

Lemma contains_join c sep (l : list string) :
  Mutils.contains c sep = false ->
  Forall (fun x => Mutils.contains c x = false) l ->
  Mutils.contains c (join sep l) = false.
Proof.
  intros Hsep. induction l as [|x l IH]; [done|]. intros Hl.
  inversion Hl as [|? ? Hx Hl']; subst.
  destruct l as [|y l]; [done|].
  change (join sep (x :: y :: l)) with (x +:+ (sep +:+ join sep (y :: l)))%string.
  rewrite !contains_app, Hx, Hsep. by rewrite IH.
Qed.

Lemma get_keys {A} (d : Files.dict A) (k : string) :
  In k (Files.keys d) -> is_Some (Files.get d k).
Proof.
  unfold Files.get, Files.keys. induction d as [|[k' a] d IH]; [done|].
  simpl. destruct (String.eqb_spec k' k) as [->|Hne]; [by eexists|].
  intros [H|H]; [done | by apply IH].
Qed.

Lemma get_In {A} (d : Files.dict A) (k : string) (a : A) :
  Files.get d k = Some a -> In (k, a) d.
Proof.
  unfold Files.get. induction d as [|[k' a'] d IH]; [done|].
  simpl. destruct (String.eqb_spec k' k) as [->|Hne].
  - intros H; inversion H; subst. by left.
  - intros H. right. by apply IH.
Qed.

Lemma get_none {A} (d : Files.dict A) (k : string) :
  Files.get d k = None <-> ~ In k (Files.keys d).
Proof.
  unfold Files.get, Files.keys. induction d as [|[k' a] d IH].
  { simpl. split; [by intros _ [] | done]. }
  simpl. destruct (String.eqb_spec k' k) as [->|Hne].
  - split; [discriminate | intros H; exfalso; apply H; left; reflexivity].
  - rewrite IH. split; [intros H [?|?]; done | intros H ?; apply H; right; assumption].
Qed.

(** *** [construct_model_name] *)

Section ConstructModelName.

Context {V N : Type}.
Variable str : V -> string.
Variable str_name : N -> string.

Lemma name_parts_raises (params_dict : Files.dict V) (names : list N) :
  forall out e,
    Files.name_parts str str_name params_dict names out = Raise e <->
    e = KeyError /\
    exists n, In n names /\ Files.get params_dict (str_name n) = None.
Proof.
  induction names as [|n names IH]; intros out e; simpl.
  - split; [done | by intros (_ & ? & [] & _)].
  - unfold Files.getitem.
    destruct (Files.get params_dict (str_name n)) as [v|] eqn:Hn; simpl.
    + rewrite IH. split.
      * intros (-> & m & Hm & Hnone). split; [done|]. exists m. by split; [right|].
      * intros (-> & m & [<-|Hm] & Hnone); [congruence|].
        split; [done|]. by exists m.
    + split.
      * intros H; inversion H. split; [done|]. exists n. by split; [left|].
      * by intros (-> & _).
Qed.

(** X22.  [construct_model_name] returns a single name as it is, without
    looking it up.  With no name or several names it raises exactly when
    one of the names is no attribute of [params], and what it raises is
    [KeyError]. *)
Theorem construct_model_name_raises (params_dict : Files.dict V)
    (names_params : list N) (e : exn) :
  (forall n, Files.construct_model_name str str_name params_dict [n]
             = Ok (inl n)) /\
  (Files.construct_model_name str str_name params_dict names_params = Raise e
   <->
   e = KeyError /\ length names_params <> 1%nat /\
   exists n, In n names_params /\
             Files.get params_dict (str_name n) = None).
Proof.
  split; [done|].
  unfold Files.construct_model_name.
  destruct (Nat.eqb_spec (length names_params) 1) as [H1|H1].
  - destruct names_params as [|n [|? ?]]; try done.
    simpl. split; [done | by intros (_ & ? & _)].
  - destruct (Files.name_parts str str_name params_dict names_params "")
      as [s|e'] eqn:Hp; simpl.
    + split; [done|]. intros (-> & _ & Hn).
      assert (Files.name_parts str str_name params_dict names_params ""
              = Raise KeyError) by (by apply name_parts_raises).
      congruence.
    + apply name_parts_raises in Hp as [-> Hn].
      split.
      * intros H; inversion H. by split.
      * by intros (-> & _).
Qed.

End ConstructModelName.

(** *** [write_results_to_csv] *)

Lemma seq_split (n i : nat) (pre post : list nat) :
  seq 0 n = pre ++ i :: post -> pre = seq 0 i /\ (i < n)%nat.
Proof.
  intros H.
  assert (Hlen : (length pre < n)%nat).
  { apply (f_equal (@length nat)) in H.
    rewrite length_seq, length_app in H. simpl in H. lia. }
  assert (Hi : i = length pre).
  { assert (Hn : nth (length pre) (seq 0 n) 0%nat = length pre)
      by (rewrite seq_nth by done; lia).
    rewrite H, app_nth2, Nat.sub_diag in Hn by lia. done. }
  subst i. split; [|done].
  replace n with (length pre + (n - length pre))%nat in H by lia.
  rewrite seq_app in H.
  apply app_inj_1 in H as [H _]; [done | by rewrite length_seq].
Qed.

Lemma split_lines (ls : list string) :
  Forall (fun l => Mutils.contains Mutils.newline l = false) ls ->
  Mutils.split Mutils.newline
    (concat_str (map (fun l => l +:+ Files.nl)%string ls))
  = ls ++ [""%string].
Proof.
  induction 1 as [|l ls Hl _ IH]; [done|].
  simpl. rewrite str_app_assoc. unfold Files.nl at 1.
  rewrite string_append_cons, string_append_nil_l.
  rewrite split_app by done. by rewrite IH.
Qed.

Section WriteResults.

Context {V : Type}.
Variable str : V -> string.

Lemma cell_some (r : Files.dict (list V)) (i : nat) (k : string) (fld : string) :
  cell str r i k = Some fld ->
  exists col v, Files.get r k = Some col /\ col !! i = Some v /\ fld = str v.
Proof.
  unfold cell. destruct (Files.get r k) as [col|]; simpl; [|done].
  destruct (col !! i) as [v|] eqn:Hv; simpl; [|done].
  intros H; inversion H. by exists col, v.
Qed.

Lemma cell_none (r : Files.dict (list V)) (i : nat) (k : string) :
  In k (Files.keys r) -> cell str r i k = None ->
  exists col, Files.get r k = Some col /\ (length col <= i)%nat.
Proof.
  intros Hk. destruct (get_keys r k Hk) as [col Hcol].
  unfold cell. rewrite Hcol. simpl.
  destruct (col !! i) as [v|] eqn:Hv; simpl; [done|].
  intros _. exists col. split; [done|]. by apply lookup_ge_None.
Qed.

Lemma row_fields_spec (r : Files.dict (list V)) (i : nat) (ks : list string) :
  forall line,
    Forall (fun k => In k (Files.keys r)) ks ->
    Files.row_fields str r ks i line
    = match mapM (cell str r i) ks with
      | Some fields => Ok (line +:+ suffixed ";" fields)%string
      | None => Raise IndexError
      end.
Proof.
  induction ks as [|k ks IH]; intros line Hks; simpl.
  - by rewrite str_app_nil_r.
  - inversion Hks as [|? ? Hk Hks']; subst.
    destruct (get_keys r k Hk) as [col Hcol].
    assert (Hc : cell str r i k = str <$> col !! i)
      by (unfold cell; by rewrite Hcol).
    unfold Files.getitem. rewrite Hcol, Hc. simpl.
    unfold Files.index. destruct (col !! i) as [v|]; simpl; [|done].
    rewrite IH by done.
    destruct (mapM (cell str r i) ks) as [fields|]; simpl; [|done].
    by rewrite !str_app_assoc.
Qed.

Lemma row_line (r : Files.dict (list V)) (i : nat) :
  Files.row_fields str r (Files.keys r) i ""
  = match row str r i with
    | Some fields => Ok (suffixed ";" fields)
    | None => Raise IndexError
    end.
Proof.
  rewrite row_fields_spec by (by apply List.Forall_forall).
  unfold row. destruct (mapM _ _); [|done]. by rewrite string_append_nil_l.
Qed.

Lemma write_rows_ok (r : Files.dict (list V)) (rows : list nat) :
  forall f texts,
    mapM (row str r) rows = Some texts ->
    Files.write_rows str r rows f = (Ok tt, (f +:+ rows_text texts)%string).
Proof.
  induction rows as [|i rows IH]; intros f texts H; simpl in *.
  - inversion H. by rewrite str_app_nil_r.
  - rewrite row_line.
    destruct (row str r i) as [fields|]; simpl in H; [|done].
    destruct (mapM (row str r) rows) as [texts'|]; simpl in H; [|done].
    inversion H; subst. rewrite (IH _ texts') by done.
    rewrite but_last_suffixed. unfold rows_text. simpl.
    by rewrite !str_app_assoc.
Qed.

Lemma write_rows_inv (r : Files.dict (list V)) (rows : list nat) :
  forall f res f',
    Files.write_rows str r rows f = (res, f') ->
    match res with
    | Ok _ =>
        exists texts, mapM (row str r) rows = Some texts /\
                      f' = (f +:+ rows_text texts)%string
    | Raise e =>
        exists pre i post texts,
          rows = pre ++ i :: post /\
          mapM (row str r) pre = Some texts /\
          row str r i = None /\ e = IndexError /\
          f' = (f +:+ rows_text texts)%string
    end.
Proof.
  induction rows as [|i rows IH]; intros f res f' H; simpl in H.
  - inversion H; subst. exists []. by rewrite str_app_nil_r.
  - rewrite row_line in H.
    destruct (row str r i) as [fields|] eqn:Hrow.
    + apply IH in H. rewrite but_last_suffixed in H.
      destruct res as [u|e].
      * destruct H as (texts & Hm & ->). exists (fields :: texts).
        simpl. rewrite Hrow, Hm. simpl. split; [done|].
        unfold rows_text. simpl. by rewrite !str_app_assoc.
      * destruct H as (pre & j & post & texts & -> & Hm & Hj & -> & ->).
        exists (i :: pre), j, post, (fields :: texts).
        simpl. rewrite Hrow, Hm. simpl. repeat split; try done.
        unfold rows_text. simpl. by rewrite !str_app_assoc.
    + inversion H; subst. exists [], i, rows, [].
      by rewrite str_app_nil_r.
Qed.

Lemma write_rows_app (r : Files.dict (list V)) (rows : list nat) :
  forall f g,
    Files.write_rows str r rows (f +:+ g)
    = ((Files.write_rows str r rows g).1,
       (f +:+ (Files.write_rows str r rows g).2)%string).
Proof.
  induction rows as [|i rows IH]; intros f g; simpl; [done|].
  destruct (Files.row_fields str r (Files.keys r) i "") as [line|e]; [|done].
  rewrite str_app_assoc. apply IH.
Qed.

Lemma write_rows_from (r : Files.dict (list V)) (rows : list nat) (f : string) :
  Files.write_rows str r rows f
  = ((Files.write_rows str r rows "").1,
     (f +:+ (Files.write_rows str r rows "").2)%string).
Proof. rewrite <- (str_app_nil_r f) at 1. apply write_rows_app. Qed.

Lemma get_first_rows (i : nat) (r : Files.dict (list V)) (k : string) :
  Files.get (first_rows i r) k = take i <$> Files.get r k.
Proof.
  unfold Files.get, first_rows. induction r as [|[k' c] r IH]; [done|].
  simpl. by destruct (String.eqb k' k).
Qed.

Lemma keys_first_rows (i : nat) (r : Files.dict (list V)) :
  Files.keys (first_rows i r) = Files.keys r.
Proof.
  unfold Files.keys, first_rows. rewrite map_map. by apply map_ext.
Qed.

Lemma row_first_rows (i j : nat) (r : Files.dict (list V)) :
  (j < i)%nat -> row str (first_rows i r) j = row str r j.
Proof.
  intros Hj. unfold row. rewrite keys_first_rows.
  apply mapM_ext. intros k. unfold cell. rewrite get_first_rows.
  destruct (Files.get r k) as [c|]; simpl; [|done].
  by rewrite lookup_take_lt.
Qed.

(** X23.  [write_results_to_csv] returns exactly when the table has a
    column [datapoint_idx] and no column is shorter than it; what a
    longer column holds beyond that length is not written. *)
Theorem write_results_returns_iff (r : Files.dict (list V)) (f : string) :
  (exists f', Files.write_results_to_csv str r f = (Ok tt, f')) <->
  exists col,
    Files.get r "datapoint_idx" = Some col /\
    forall k c, Files.get r k = Some c -> (length col <= length c)%nat.
Proof.
  unfold Files.write_results_to_csv, Files.getitem.
  destruct (Files.get r "datapoint_idx") as [col|]; simpl.
  2:{ split; [by intros [? ?] | by intros (? & ? & _)]. }
  set (f1 := if Files.empty_file f then _ else _).
  split.
  - intros [f' H]. exists col. split; [done|]. intros k c Hk.
    apply write_rows_inv in H as (texts & Hm & _).
    destruct (length col) as [|n] eqn:Hn; [lia|].
    apply mapM_Some_1 in Hm.
    assert (Hin : n ∈ seq 0 (S n)) by (apply elem_of_seq; lia).
    destruct (Forall2_lookup_l _ _ _ n n Hm) as (fields & _ & Hrow).
    { apply lookup_seq. lia. }
    unfold row in Hrow. apply mapM_Some_1 in Hrow.
    assert (Hkin : k ∈ Files.keys r).
    { apply list_elem_of_In. unfold Files.keys. apply in_map_iff.
      exists (k, c). split; [done | by apply get_In]. }
    apply list_elem_of_lookup in Hkin as [j Hj].
    destruct (Forall2_lookup_l _ _ _ j k Hrow Hj) as (fld & _ & Hc).
    apply cell_some in Hc as (c' & v & Hc' & Hv & _).
    rewrite Hk in Hc'. inversion Hc'; subst c'.
    apply lookup_lt_Some in Hv. lia.
  - intros (col' & Hc & Hlen). inversion Hc; subst col'.
    assert (Hm : is_Some (mapM (row str r) (seq 0 (length col)))).
    { apply mapM_is_Some, List.Forall_forall. intros i Hi. simpl.
      apply in_seq in Hi. unfold row.
      apply mapM_is_Some, List.Forall_forall. intros k Hk. simpl.
      destruct (get_keys r k Hk) as [c Hkc].
      unfold cell. rewrite Hkc. simpl.
      specialize (Hlen k c Hkc).
      destruct (lookup_lt_is_Some_2 c i) as [v ->]; [lia | by eexists]. }
    destruct Hm as [texts Hm]. eexists. by apply write_rows_ok.
Qed.

(** X24.  When [write_results_to_csv] raises, it is either [KeyError]
    for a table without a column [datapoint_idx], the header being all
    that is written, to an empty file only; or [IndexError] at the first row
    [i] that some column is too short for, and then the file is as after
    a call that returns on the first [i] rows of the table. *)
Theorem write_results_failure (r : Files.dict (list V)) (f f' : string)
    (e : exn) :
  Files.write_results_to_csv str r f = (Raise e, f') ->
  (e = KeyError /\ Files.get r "datapoint_idx" = None /\
   f' = if Files.empty_file f then (f +:+ Files.header_line r)%string else f)
  \/
  (e = IndexError /\
   exists col i,
     Files.get r "datapoint_idx" = Some col /\ (i < length col)%nat /\
     (exists k c, Files.get r k = Some c /\ (length c <= i)%nat) /\
     (forall k c, Files.get r k = Some c -> (i <= length c)%nat) /\
     Files.write_results_to_csv str (first_rows i r) f = (Ok tt, f')).
Proof.
  unfold Files.write_results_to_csv at 1, Files.getitem.
  destruct (Files.get r "datapoint_idx") as [col|] eqn:Hcol; simpl.
  2:{ intros H; inversion H. by left. }
  set (f1 := if Files.empty_file f then _ else _).
  intros H. right.
  apply write_rows_inv in H
    as (pre & i & post & texts & Hrows & Hm & Hrow & -> & ->).
  apply seq_split in Hrows as [-> Hi].
  split; [done|]. exists col, i.
  split; [done|]. split; [done|]. split; [|split].
  - unfold row in Hrow. apply mapM_None_1, List.Exists_exists in Hrow
      as (k & Hk & Hc).
    apply cell_none in Hc as (c & Hkc & Hlen); [|done]. by exists k, c.
  - intros k c Hk.
    destruct i as [|n]; [lia|].
    apply mapM_Some_1 in Hm.
    destruct (Forall2_lookup_l _ _ _ n n Hm) as (fields & _ & Hr).
    { apply lookup_seq. lia. }
    unfold row in Hr. apply mapM_Some_1 in Hr.
    assert (Hkin : k ∈ Files.keys r).
    { apply list_elem_of_In. unfold Files.keys. apply in_map_iff.
      exists (k, c). split; [done | by apply get_In]. }
    apply list_elem_of_lookup in Hkin as [j Hj].
    destruct (Forall2_lookup_l _ _ _ j k Hr Hj) as (fld & _ & Hc).
    apply cell_some in Hc as (c' & v & Hc' & Hv & _).
    rewrite Hk in Hc'. inversion Hc'; subst c'.
    apply lookup_lt_Some in Hv. lia.
  - unfold Files.write_results_to_csv, Files.getitem.
    rewrite get_first_rows, Hcol. simpl.
    rewrite length_take, Nat.min_l by lia.
    unfold Files.header_line. rewrite keys_first_rows.
    fold (Files.header_line r). fold f1.
    apply write_rows_ok.
    rewrite <- Hm. apply Forall_mapM_ext, List.Forall_forall.
    intros j Hj. apply in_seq in Hj. apply row_first_rows. lia.
Qed.

Lemma write_results_nonempty (r : Files.dict (list V)) (f : string) :
  Files.empty_file (Files.write_results_to_csv str r f).2 = false.
Proof.
  assert (Hlen : (1 <= String.length
                         (if Files.empty_file f
                          then (f +:+ Files.header_line r)%string else f))%nat).
  { unfold Files.empty_file. destruct (Nat.eqb_spec (String.length f) 0).
    - unfold Files.header_line, Files.nl.
      rewrite !str_length_app. simpl. lia.
    - lia. }
  unfold Files.write_results_to_csv.
  set (f1 := if Files.empty_file f then _ else _) in *.
  assert (Hres : exists g, (match Files.getitem r "datapoint_idx" with
                            | Ok col =>
                                Files.write_rows str r (seq 0 (length col)) f1
                            | Raise e => (Raise e, f1)
                            end).2 = (f1 +:+ g)%string).
  { destruct (Files.getitem r "datapoint_idx") as [col|e].
    - rewrite (write_rows_from _ _ f1). by eexists.
    - exists ""%string. by rewrite str_app_nil_r. }
  destruct Hres as [g ->]. unfold Files.empty_file.
  rewrite str_length_app. apply Nat.eqb_neq. lia.
Qed.

(** X25.  After a call of [write_results_to_csv], whether it returned or
    raised, the file is not empty, so a second call on the same file
    writes no header: it appends what it would write after the header of
    an empty file, also when its keys are other keys. *)
Theorem write_results_header_once (r1 r2 : Files.dict (list V)) (f : string) :
  exists rows,
    Files.write_results_to_csv str r2 (Files.write_results_to_csv str r1 f).2
    = ((Files.write_results_to_csv str r2 "").1,
       ((Files.write_results_to_csv str r1 f).2 +:+ rows)%string) /\
    (Files.write_results_to_csv str r2 "").2
    = (Files.header_line r2 +:+ rows)%string.
Proof.
  pose proof (write_results_nonempty r1 f) as Hne.
  set (f1 := (Files.write_results_to_csv str r1 f).2) in *.
  unfold Files.write_results_to_csv. rewrite Hne. simpl.
  rewrite string_append_nil_l.
  destruct (Files.getitem r2 "datapoint_idx") as [col|e].
  - exists (Files.write_rows str r2 (seq 0 (length col)) "").2.
    split.
    + rewrite (write_rows_from _ _ f1).
      by rewrite (write_rows_from _ _ (Files.header_line r2)).
    + by rewrite (write_rows_from _ _ (Files.header_line r2)).
  - exists ""%string. by rewrite !str_app_nil_r.
Qed.

(** X26.  What [write_results_to_csv] writes to an empty file can be read
    back when no key and no value holds a semicolon or a line feed: the
    lines of the file, cut at the semicolons, are the keys and then, row
    by row, the values of the columns, as many rows as [datapoint_idx] is
    long. *)
Theorem write_results_round_trip (r : Files.dict (list V)) (f' : string) :
  Files.write_results_to_csv str r "" = (Ok tt, f') ->
  Forall csv_field (Files.keys r) ->
  (forall k col v, In (k, col) r -> In v col -> csv_field (str v)) ->
  exists col rows,
    Files.get r "datapoint_idx" = Some col /\
    Forall2 (fun i fields => row str r i = Some fields)
      (seq 0 (length col)) rows /\
    read_table f' = Files.keys r :: rows.
Proof.
  unfold Files.write_results_to_csv, Files.getitem. simpl.
  destruct (Files.get r "datapoint_idx") as [col|] eqn:Hcol; [|done].
  intros H Hkeys Hvals.
  apply write_rows_inv in H as (rows & Hm & ->).
  exists col, rows. split; [done|].
  pose proof (mapM_Some_1 _ _ _ Hm) as Hrows.
  split; [done|].
  assert (Hk : Files.keys r <> []).
  { apply get_In in Hcol. unfold Files.keys.
    destruct r; [done | discriminate]. }
  assert (Hfields : Forall (fun fields => fields <> [] /\
                                          Forall csv_field fields)
                      (Files.keys r :: rows)).
  { constructor; [done|].
    apply List.Forall_forall. intros fields Hin.
    apply list_elem_of_In, list_elem_of_lookup in Hin as [j Hj].
    destruct (Forall2_lookup_r _ _ _ j fields Hrows Hj) as (i & _ & Hrow).
    unfold row in Hrow. pose proof (length_mapM _ _ _ Hrow) as Hlen.
    split; [destruct fields; [by destruct (Files.keys r)|done]|].
    apply mapM_Some_1 in Hrow.
    apply List.Forall_forall. intros fld Hfld.
    apply list_elem_of_In, list_elem_of_lookup in Hfld as [m Hm'].
    destruct (Forall2_lookup_r _ _ _ m fld Hrow Hm') as (k & _ & Hc).
    apply cell_some in Hc as (c & v & Hkc & Hv & ->).
    apply (Hvals k c v); [by apply get_In|].
    apply list_elem_of_In. by eapply list_elem_of_lookup_2. }
  rewrite string_append_nil_l. unfold Files.header_line.
  rewrite fold_left_suffixed, string_append_nil_l, but_last_suffixed.
  replace ((join ";" (Files.keys r) +:+ Files.nl) +:+ rows_text rows)%string
    with (concat_str (map (fun l => l +:+ Files.nl)%string
                        (map (join ";") (Files.keys r :: rows))))
    by (unfold rows_text; simpl; by rewrite map_map).
  unfold read_table.
  rewrite split_lines.
  2:{ apply List.Forall_forall. intros l Hl.
      apply in_map_iff in Hl as (fields & <- & Hin).
      rewrite List.Forall_forall in Hfields.
      destruct (Hfields fields Hin) as [_ Hf].
      apply contains_join; [done|].
      eapply Forall_impl; [exact Hf|]. by intros ? [_ ?]. }
  rewrite removelast_last, map_map.
  rewrite <- (map_id (Files.keys r :: rows)) at 2.
  apply map_ext_in. intros fields Hin.
  rewrite List.Forall_forall in Hfields.
  destruct (Hfields fields Hin) as [Hne Hf].
  apply split_join; [done|].
  eapply Forall_impl; [exact Hf|]. by intros ? [? _].
Qed.

End WriteResults.

(** *** [write_to_csv] *)

Lemma csv_plain_app (a b : string) :
  Files.csv_plain (a +:+ b) = Files.csv_plain a && Files.csv_plain b.
Proof.
  induction a as [|x a IH]; [by rewrite string_append_nil_l|].
  rewrite string_append_cons. simpl. rewrite IH. by rewrite andb_assoc.
Qed.

Lemma plain_suffixed (l : list string) :
  Forall plain_key l ->
  Files.csv_plain (suffixed "," l) = true /\
  Mutils.contains ";" (suffixed "," l) = false.
Proof.
  induction 1 as [|k l [Hp Hs] _ [IH1 IH2]]; [done|]. simpl.
  rewrite !csv_plain_app, !contains_app, Hp, Hs, IH1, IH2. done.
Qed.

Lemma plain_join (l : list string) :
  Forall plain_key l ->
  Files.csv_plain (join "," l) = true /\
  Mutils.contains ";" (join "," l) = false.
Proof.
  induction 1 as [|k l [Hp Hs] _ [IH1 IH2]]; [done|].
  destruct l as [|y l]; [done|].
  change (join "," (k :: y :: l))
    with (k +:+ ("," +:+ join "," (y :: l)))%string.
  rewrite !csv_plain_app, !contains_app, Hp, Hs, IH1, IH2. done.
Qed.

Lemma length_suffixed_in (k : string) (l : list string) :
  In k l -> (String.length k + 1 <= String.length (suffixed "," l))%nat.
Proof.
  induction l as [|x l IH]; [done|]. simpl.
  rewrite !str_length_app. simpl. intros [->|H]; [lia|].
  specialize (IH H). lia.
Qed.

Lemma length_join_in (k : string) (l : list string) :
  In k l ->
  (String.length k <= String.length (join "," l))%nat /\
  ((2 <= length l)%nat ->
   (String.length k + 1 <= String.length (join "," l))%nat).
Proof.
  induction l as [|x l IH]; [done|].
  destruct l as [|y l].
  - intros [->|[]]. simpl. split; lia.
  - change (join "," (x :: y :: l))
      with (x +:+ ("," +:+ join "," (y :: l)))%string.
    rewrite !str_length_app. change (String.length ",") with 1%nat.
    intros [->|H]; [split; [lia | intros _; lia]|].
    destruct (IH H) as [IH1 _]. split; [lia | intros _; lia].
Qed.

Section WriteToCsv.

Context {V : Type}.
Variable str : V -> string.
Variable csv_first_row : string -> res (list string).

Lemma write_score_keys_spec (n : nat) (ks : list string) :
  forall i file,
    n = (i + length ks)%nat ->
    Files.write_score_keys n i ks file = (file +:+ join "," ks)%string.
Proof.
  induction ks as [|k ks IH]; intros i file Hn; simpl.
  - by rewrite str_app_nil_r.
  - rewrite IH by (simpl in Hn; lia). unfold Files.ending.
    destruct ks as [|y ks].
    + simpl in Hn. destruct (Z.ltb_spec (Z.of_nat i) (Z.of_nat n - 1)); [lia|].
      simpl. by rewrite !str_app_nil_r.
    + simpl in Hn. destruct (Z.ltb_spec (Z.of_nat i) (Z.of_nat n - 1)); [|lia].
      by rewrite !str_app_assoc.
Qed.

Lemma write_header_spec (scores params_dict : Files.dict V) (file : string) :
  Files.write_header scores params_dict file
  = (file +:+ ((suffixed "," (Files.keys params_dict)
                +:+ join "," (Files.keys scores)) +:+ Files.nl))%string.
Proof.
  unfold Files.write_header.
  rewrite fold_left_suffixed, write_score_keys_spec by done.
  by rewrite !str_app_assoc.
Qed.

Lemma write_values_ok (scores params_dict : Files.dict V) (n : nat)
    (headers : list string) :
  forall i file vals,
    n = (i + length headers)%nat ->
    mapM (value_of str scores params_dict) headers = Some vals ->
    Files.write_values str scores params_dict n i headers file
    = (Ok tt, (file +:+ join ";" vals)%string).
Proof.
  induction headers as [|key headers IH]; intros i file vals Hn Hm.
  - inversion Hm. simpl. by rewrite str_app_nil_r.
  - simpl in Hm.
    destruct (value_of str scores params_dict key) as [val|] eqn:Hv;
      simpl in Hm; [|done].
    destruct (mapM (value_of str scores params_dict) headers) as [vals'|]
      eqn:Hm'; simpl in Hm; [|done].
    inversion Hm; subst vals n.
    assert (Hend : Files.ending ";" i (i + length (key :: headers))
                   = match headers with [] => "" | _ => ";" end%string).
    { unfold Files.ending.
      destruct headers as [|y hs]; simpl length;
        match goal with
        | |- context [Z.ltb ?a ?b] => destruct (Z.ltb_spec a b)
        end; done || lia. }
    assert (Hjoin : forall f,
              ((f +:+ (val +:+ Files.ending ";" i (i + length (key :: headers))))
               +:+ join ";" vals')%string
              = (f +:+ join ";" (val :: vals'))%string).
    { intros f. rewrite Hend.
      pose proof (length_mapM _ _ _ Hm') as Hl.
      destruct headers, vals'; try done.
      - simpl. by rewrite !str_app_nil_r.
      - change (join ";" (val :: s0 :: vals'))
          with (val +:+ (";" +:+ join ";" (s0 :: vals')))%string.
        by rewrite !str_app_assoc. }
    simpl. unfold value_of in Hv.
    destruct (Files.get params_dict key) as [v|].
    + inversion Hv; subst. rewrite (IH _ _ vals') by (simpl; lia || done).
      by rewrite Hjoin.
    + destruct (Files.get scores key) as [v|]; [|done].
      inversion Hv; subst. rewrite (IH _ _ vals') by (simpl; lia || done).
      by rewrite Hjoin.
Qed.

Lemma write_values_raise (scores params_dict : Files.dict V) (n : nat)
    (pre : list string) :
  forall i file vals bad post,
    n = (i + length pre + 1 + length post)%nat ->
    mapM (value_of str scores params_dict) pre = Some vals ->
    value_of str scores params_dict bad = None ->
    Files.write_values str scores params_dict n i (pre ++ bad :: post) file
    = (Raise AssertionError, (file +:+ suffixed ";" vals)%string).
Proof.
  induction pre as [|key pre IH]; intros i file vals bad post Hn Hm Hbad.
  - inversion Hm. simpl. unfold value_of in Hbad.
    destruct (Files.get params_dict bad); [done|].
    destruct (Files.get scores bad); [done|]. by rewrite str_app_nil_r.
  - simpl in Hm.
    destruct (value_of str scores params_dict key) as [val|] eqn:Hv;
      simpl in Hm; [|done].
    destruct (mapM (value_of str scores params_dict) pre) as [vals'|]
      eqn:Hm'; simpl in Hm; [|done].
    inversion Hm; subst vals n.
    assert (Hend : Files.ending ";" i
                     (i + length (key :: pre) + 1 + length post) = ";"%string).
    { unfold Files.ending. simpl length.
      match goal with
      | |- context [Z.ltb ?a ?b] => destruct (Z.ltb_spec a b)
      end; done || lia. }
    simpl app. simpl Files.write_values. simpl length in Hend.
    rewrite Hend. unfold value_of in Hv.
    destruct (Files.get params_dict key) as [v|].
    + inversion Hv; subst.
      rewrite (IH _ _ vals') by (simpl; lia || done).
      simpl. by rewrite !str_app_assoc.
    + destruct (Files.get scores key) as [v|]; [|done].
      inversion Hv; subst.
      rewrite (IH _ _ vals') by (simpl; lia || done).
      simpl. by rewrite !str_app_assoc.
Qed.

Hypothesis reader : reads_plain_lines csv_first_row.



End WriteToCsv.

Lemma write_results_failure_witness :
  Files.write_results_to_csv FilesExample.str FilesExample.short_results ""
  = (Raise IndexError,
     ("datapoint_idx;loss" +:+ Files.nl +:+ "0;5" +:+ Files.nl)%string) /\
  exists i,
    Files.write_results_to_csv FilesExample.str
      (first_rows i FilesExample.short_results) ""
    = (Ok tt,
       ("datapoint_idx;loss" +:+ Files.nl +:+ "0;5" +:+ Files.nl)%string).
Proof.
  assert (H : Files.write_results_to_csv FilesExample.str
                FilesExample.short_results ""
              = (Raise IndexError,
                 ("datapoint_idx;loss" +:+ Files.nl +:+ "0;5"
                  +:+ Files.nl)%string))
    by (vm_compute; reflexivity).
  split; [exact H|].
  destruct (write_results_failure FilesExample.str
              FilesExample.short_results "" _ IndexError H)
    as [(Hk & _)|(_ & col & i & _ & _ & _ & _ & Hw)];
    [discriminate | by exists i].
Defined.

Lemma write_results_round_trip_witness :
  exists f' col rows,
    Files.write_results_to_csv FilesExample.str FilesExample.results ""
    = (Ok tt, f') /\
    Files.get FilesExample.results "datapoint_idx" = Some col /\
    Forall2 (fun i fields =>
               row FilesExample.str FilesExample.results i = Some fields)
      (seq 0 (length col)) rows /\
    read_table f' = Files.keys FilesExample.results :: rows.
Proof.
  assert (H : exists f',
             Files.write_results_to_csv FilesExample.str
               FilesExample.results "" = (Ok tt, f'))
    by (eexists; vm_compute; reflexivity).
  destruct H as [f' H]. exists f'.
  assert (Hkeys : Forall csv_field (Files.keys FilesExample.results))
    by (repeat constructor).
  assert (Hvals : forall k col v,
             In (k, col) FilesExample.results -> In v col ->
             csv_field (FilesExample.str v)).
  { intros k col v [E|[E|[]]] Hv; inversion E; subst;
      destruct Hv as [<-|[<-|[]]]; by split. }
  destruct (write_results_round_trip FilesExample.str FilesExample.results
              f' H Hkeys Hvals) as (col & rows & H1 & H2 & H3).
  by exists col, rows.
Defined.

Lemma csv_plain_no_newline (line : string) :
  Files.csv_plain line = true -> Mutils.contains Mutils.newline line = false.
Proof.
  induction line as [|c line IH]; [done|]. simpl.
  intros H. apply andb_true_iff in H as [Hc Hl].
  rewrite (IH Hl), orb_false_r.
  apply negb_true_iff in Hc. by repeat apply orb_false_iff in Hc as [Hc ?].
Qed.

Lemma first_line_app (sep : ascii) (line rest : string) :
  Mutils.contains sep line = false ->
  Mutils.take_str (Mutils.find sep (line +:+ String sep rest))
    (line +:+ String sep rest) = line.
Proof.
  induction line as [|c line IH]; intros H.
  - rewrite string_append_nil_l. simpl. by rewrite Ascii.eqb_refl.
  - simpl in H. apply orb_false_iff in H as [Hc Hl].
    rewrite string_append_cons. simpl. rewrite Hc. simpl. by rewrite IH.
Qed.

Lemma example_reader_plain : reads_plain_lines FilesExample.csv_first_row.
Proof.
  intros line rest Hp. unfold FilesExample.csv_first_row.
  assert (Hne : Files.empty_file (line +:+ (Files.nl +:+ rest)) = false).
  { unfold Files.empty_file, Files.nl. rewrite !str_length_app. simpl.
    apply Nat.eqb_neq. lia. }
  rewrite Hne. unfold Files.nl.
  rewrite string_append_cons, string_append_nil_l.
  by rewrite first_line_app by (by apply csv_plain_no_newline).
Qed.


